(** * BlackSheep: OpenAPI v3 documentation handler

    A shallow embedding of [blacksheep/server/openapi/v3.py]: the
    type-to-schema resolution of [OpenAPIHandler], its reference registry,
    the per-handler assembly of parameters, request body and responses,
    and the merge of a parsed docstring into the documentation of a
    handler.

    Conventions of the embedding.
    - A Python [dict] is an insertion-ordered association list ([dict]):
      assigning to an existing key replaces the value in place, assigning to
      a new key appends.
    - The handler object [self] is a record that is passed in and returned
      (state passing); a raised exception is a [Raise] result, which does
      not keep what the handler held when it was raised.
    - Python recursion is bounded by a [fuel] argument; [OutOfFuel] stands
      for a recursion that did not finish within that depth.
    - Runtime type objects are values of [PyType].  Aliases of the [typing]
      module expose no [__name__] attribute, as in CPython 3.7 to 3.9; this
      is the situation in which the second branch of [get_type_name] is
      reached. *)

From Stdlib Require Import String Ascii List Bool Arith Lia ZArith.
From Stdlib Require Import DecimalString Decimal DecimalNat.
Import ListNotations.
Open Scope string_scope.
Set Warnings "-register-all".

(* ================================================================== *)
(** ** Python dictionaries *)

Class EqDec (K : Type) := eq_dec : forall a b : K, {a = b} + {a <> b}.

#[global] Instance string_EqDec : EqDec string := string_dec.

Section Dict.
Context {K V : Type} `{EqDec K}.

Definition dict := list (K * V).

(** [d.get(k)] *)
Fixpoint dict_get (d : dict) (k : K) : option V :=
  match d with
  | [] => None
  | (k', v) :: d' => if eq_dec k' k then Some v else dict_get d' k
  end.

(** [k in d] *)
Definition dict_mem (d : dict) (k : K) : bool :=
  match dict_get d k with Some _ => true | None => false end.

(** [d[k] = v] *)
Fixpoint dict_set (d : dict) (k : K) (v : V) : dict :=
  match d with
  | [] => [(k, v)]
  | (k', v') :: d' =>
      if eq_dec k' k then (k', v) :: d' else (k', v') :: dict_set d' k v
  end.

(** [d.update(e)] *)
Definition dict_update (d e : dict) : dict :=
  fold_left (fun acc kv => dict_set acc (fst kv) (snd kv)) e d.

Definition dict_keys (d : dict) : list K := map fst d.
Definition dict_values (d : dict) : list V := map snd d.
End Dict.

Arguments dict : clear implicits.

(** [dict(pairs)]: later pairs overwrite earlier ones with the same key. *)
Definition dict_of_list {K V : Type} `{EqDec K} (l : list (K * V)) : dict K V :=
  dict_update [] l.

(** Truthiness of a list, a tuple or a dict: non-empty. *)
Definition truthy {A : Type} (l : list A) : bool :=
  match l with [] => false | _ :: _ => true end.

(** Truthiness of an optional container: present and non-empty. *)
Definition truthy_opt {A : Type} (o : option (list A)) : bool :=
  match o with Some l => truthy l | None => false end.

(** [str(n)] for a natural number. *)
Definition str_of_nat (n : nat) : string :=
  NilEmpty.string_of_uint (Nat.to_uint n).

(** [sep.join(l)] *)
Fixpoint join (sep : string) (l : list string) : string :=
  match l with
  | [] => ""
  | [x] => x
  | x :: rest => x ++ sep ++ join sep rest
  end.

(* ================================================================== *)
(** ** Runtime type objects *)

(** The classes the module tests by identity. *)
Inductive Builtin :=
| b_NoneType | b_str | b_int | b_float | b_bool | b_UUID | b_date | b_datetime
| b_list | b_set | b_tuple | b_Sequence.

(** Objects that occur as [object_type].
    - [TClass]: any other class, identified by module and name;
    - [TTypeVar]: a type variable;
    - [TStr]: a [str] object: an annotation left as a bare name, and also
      the kind of key under which [_objects_references] stores type names;
    - [TForwardRef]: a [typing.ForwardRef];
    - [TUnionForm]: [typing.Union] itself, the [__origin__] of a union;
    - [TUnion]: [Union[args]], an alias whose [__origin__] is [Union];
    - [TAlias]: any other alias [origin[args]], as [List[int]] or
      [Box[Item]]. *)
Inductive PyType :=
| TBuiltin (b : Builtin)
| TClass (module name : string)
| TTypeVar (name : string)
| TStr (s : string)
| TForwardRef (arg : string)
| TUnionForm
| TUnion (args : list PyType)
| TAlias (origin : PyType) (args : list PyType).

Definition Builtin_eq_dec (a b : Builtin) : {a = b} + {a <> b}.
Proof. decide equality. Defined.

Fixpoint PyType_eq_dec (a b : PyType) {struct a} : {a = b} + {a <> b}.
Proof.
  decide equality;
    try apply string_dec;
    try apply Builtin_eq_dec;
    apply (list_eq_dec PyType_eq_dec).
Defined.

#[global] Instance PyType_EqDec : EqDec PyType := PyType_eq_dec.

Definition builtin_name (b : Builtin) : string :=
  match b with
  | b_NoneType => "NoneType" | b_str => "str" | b_int => "int"
  | b_float => "float" | b_bool => "bool" | b_UUID => "UUID"
  | b_date => "date" | b_datetime => "datetime" | b_list => "list"
  | b_set => "set" | b_tuple => "tuple" | b_Sequence => "Sequence"
  end.

(** [getattr(object_type, "__name__")], [None] when [hasattr] is false. *)
Definition __name__ (object_type : PyType) : option string :=
  match object_type with
  | TBuiltin b => Some (builtin_name b)
  | TClass _ name => Some name
  | TTypeVar name => Some name
  | TStr _ | TForwardRef _ | TUnionForm | TUnion _ | TAlias _ _ => None
  end.

(** [object_type.__args__] *)
Definition __args__ (object_type : PyType) : list PyType :=
  match object_type with
  | TUnion args => args
  | TAlias _ args => args
  | _ => []
  end.

(** [get_origin]: [getattr(object_type, "__origin__", None)] *)
Definition get_origin (object_type : PyType) : option PyType :=
  match object_type with
  | TUnion _ => Some TUnionForm
  | TAlias origin _ => Some origin
  | _ => None
  end.

(** [isinstance(object_type, GenericAlias)] *)
Definition isinstance_GenericAlias (object_type : PyType) : bool :=
  match object_type with
  | TUnion _ | TAlias _ _ => true
  | _ => false
  end.

(** [isinstance(object_type, str)] *)
Definition isinstance_str (object_type : PyType) : bool :=
  match object_type with TStr _ => true | _ => false end.

(** [inspect.isclass(object_type)] *)
Definition isclass (object_type : PyType) : bool :=
  match object_type with
  | TBuiltin _ | TClass _ _ => true
  | _ => false
  end.

(** [type(None) is possible_type] *)
Definition is_NoneType (t : PyType) : bool :=
  match t with TBuiltin b_NoneType => true | _ => false end.

(* ================================================================== *)
(** ** The document model (openapidocs.v3) *)

(** Literal values: examples and enumeration member values. *)
Inductive PyValue :=
| VNone
| VBool (b : bool)
| VInt (z : Z)
| VStr (s : string)
| VList (l : list PyValue)
| VDict (d : list (string * PyValue)).

Inductive ValueType := OBJECT | ARRAY | STRING | INTEGER | NUMBER | BOOLEAN.

Inductive ValueFormat :=
| INT64 | FLOAT | FORMAT_UUID | DATE | DATETIME | BINARY.

Record Reference := { ref : string }.

(** [Schema], with the attributes this module sets; every attribute
    defaults to [None]. *)
Inductive Schema :=
| mkSchema (type : option ValueType)
           (format : option ValueFormat)
           (required : option (list string))
           (properties : option (list (string * SchemaOrRef)))
           (items : option SchemaOrRef)
           (enum : option (list PyValue))
           (nullable : option bool)
with SchemaOrRef :=
| IsSchema (s : Schema)
| IsRef (r : Reference).

Definition schema_type (s : Schema) :=
  match s with mkSchema t _ _ _ _ _ _ => t end.
Definition schema_format (s : Schema) :=
  match s with mkSchema _ f _ _ _ _ _ => f end.
Definition schema_required (s : Schema) :=
  match s with mkSchema _ _ r _ _ _ _ => r end.
Definition schema_properties (s : Schema) :=
  match s with mkSchema _ _ _ p _ _ _ => p end.
Definition schema_items (s : Schema) :=
  match s with mkSchema _ _ _ _ i _ _ => i end.
Definition schema_enum (s : Schema) :=
  match s with mkSchema _ _ _ _ _ e _ => e end.
Definition nullable (s : Schema) :=
  match s with mkSchema _ _ _ _ _ _ n => n end.

(** [Schema()] *)
Definition Schema_empty : Schema :=
  mkSchema None None None None None None None.

(** [Schema(type=t)] and [Schema(type=t, format=f)] *)
Definition Schema_of_type (t : ValueType) : Schema :=
  mkSchema (Some t) None None None None None None.
Definition Schema_of_type_format (t : ValueType) (f : ValueFormat) : Schema :=
  mkSchema (Some t) (Some f) None None None None None.

(** [schema.nullable = b] *)
Definition set_nullable (s : Schema) (b : bool) : Schema :=
  match s with
  | mkSchema t f r p i e _ => mkSchema t f r p i e (Some b)
  end.

(** [Example] *)
Record ExampleDoc := {
  example_summary : option string;
  example_description : option string;
  example_value : option PyValue }.

Record MediaType := {
  media_schema : option SchemaOrRef;
  media_examples : option (dict string ExampleDoc);
  media_example : option PyValue }.

Record RequestBody := {
  body_content : dict string MediaType;
  body_required : bool;
  body_description : option string }.

Inductive ParameterLocation := QUERY | HEADER | PATH | COOKIE.

(** [Parameter] *)
Record ParameterDoc := {
  param_name : string;
  param_in : ParameterLocation;
  param_required : option bool;
  param_schema : option SchemaOrRef;
  param_description : option string;
  param_example : option PyValue }.

Record Header := {
  header_description : option string;
  header_schema : SchemaOrRef }.

Record ResponseDoc := {
  response_description : string;
  response_content : option (dict string MediaType);
  response_headers : option (dict string Header) }.

(* ================================================================== *)
(** ** Exceptions and results *)

Inductive exn :=
| UnsupportedUnionTypeException (object_type : PyType)
| DuplicatedContentTypeDocsException (content_type : string)
| ValueError (object_type : PyType)
    (* "Cannot obtain a name for object_type parameter" *)
| TypeError_unhashable_Schema
    (* a [Schema] instance used where a hashable object is needed *)
| AttributeError (attribute : string)
| KeyError
| AssertionError.

Inductive result (A : Type) :=
| Ok (a : A)
| Raise (e : exn)
| OutOfFuel.

Arguments Ok {A} a.
Arguments Raise {A} e.
Arguments OutOfFuel {A}.

Definition rbind {A B : Type} (r : result A) (f : A -> result B) : result B :=
  match r with
  | Ok a => f a
  | Raise e => Raise e
  | OutOfFuel => OutOfFuel
  end.

(** [[f(x) for x in l]] for a fallible [f], left to right. *)
Fixpoint rmap {A B : Type} (f : A -> result B) (l : list A) : result (list B) :=
  match l with
  | [] => Ok []
  | x :: rest =>
      rbind (f x) (fun y => rbind (rmap f rest) (fun ys => Ok (y :: ys)))
  end.

(* ================================================================== *)
(** ** Field extraction *)

(** [Union[Type, Schema]]: what [FieldInfo.type] holds and what
    [get_schema_by_type] accepts. *)
Inductive TypeOrSchema :=
| OfType (t : PyType)
| OfSchema (s : Schema).

Record FieldInfo := {
  name : string;
  type : TypeOrSchema }.

(** The interface [ObjectTypeHandler]. *)
Record ObjectTypeHandler := {
  handles_type : PyType -> bool;
  get_type_fields : PyType -> list FieldInfo }.

(** What the module asks of the Python runtime about a type object. *)
Record Host := {
  (** [dataclasses.is_dataclass] and [dataclasses.fields] *)
  is_dataclass : PyType -> bool;
  fields : PyType -> list FieldInfo;
  (** [typing.get_type_hints(object_type)] *)
  get_type_hints : PyType -> dict string PyType;
  (** [origin.__parameters__]: the type variables of a generic class, by
      name; [None] when the attribute is missing *)
  __parameters__ : PyType -> option (list string);
  (** [issubclass(object_type, IntEnum)], [issubclass(object_type, Enum)]
      and [[v.value for v in object_type]] *)
  issubclass_IntEnum : PyType -> bool;
  issubclass_Enum : PyType -> bool;
  enum_values : PyType -> list PyValue }.

(** [DataClassTypeHandler] *)
Definition DataClassTypeHandler (host : Host) : ObjectTypeHandler :=
  {| handles_type := is_dataclass host;
     get_type_fields := fields host |}.

(** [check_union].  The argument is any object; only a union alias has
    [__origin__ is Union]. *)
Definition check_union (object_type : TypeOrSchema)
  : result (bool * TypeOrSchema) :=
  match object_type with
  | OfType (TUnion args) =>
      if negb (existsb is_NoneType args) || (2 <? length args)%nat
      then Raise (UnsupportedUnionTypeException (TUnion args))
      else
        match find (fun possible_type => negb (is_NoneType possible_type)) args with
        | Some possible_type => Ok (true, OfType possible_type)
        | None => Ok (false, object_type)
        end
  | _ => Ok (false, object_type)
  end.

(* ================================================================== *)
(** ** The handler object *)

(** A message passed to [warnings.warn]. *)
Record Warning := {
  warning_object_type : PyType;
  warning_field : string }.

(** [ResponseStatusType]: an integer (or [HTTPStatus], which is equal to
    and hashes as its integer) or a string. *)
Inductive ResponseStatusType :=
| StatusInt (n : nat)
| StatusStr (s : string).

#[global] Instance ResponseStatusType_EqDec : EqDec ResponseStatusType.
Proof.
  unfold EqDec. decide equality; [apply Nat.eq_dec | apply string_dec].
Defined.

(** The attributes of [OpenAPIHandler] the modelled methods use.
    [_types_schemas] and [handle_optional_response_with_404] are set by the
    base class [APIDocsHandler]. *)
Record OpenAPIHandler := {
  components_schemas : option (dict string Schema);
  _objects_references : dict PyType Reference;
  _types_schemas : dict PyType Schema;
  _object_types_handlers : list ObjectTypeHandler;
  common_responses : dict ResponseStatusType ResponseDoc;
  handle_optional_response_with_404 : bool;
  emitted_warnings : list Warning }.

Definition set_components_schemas (self : OpenAPIHandler)
    (schemas : dict string Schema) : OpenAPIHandler :=
  {| components_schemas := Some schemas;
     _objects_references := _objects_references self;
     _types_schemas := _types_schemas self;
     _object_types_handlers := _object_types_handlers self;
     common_responses := common_responses self;
     handle_optional_response_with_404 := handle_optional_response_with_404 self;
     emitted_warnings := emitted_warnings self |}.

Definition set_objects_references (self : OpenAPIHandler)
    (refs : dict PyType Reference) : OpenAPIHandler :=
  {| components_schemas := components_schemas self;
     _objects_references := refs;
     _types_schemas := _types_schemas self;
     _object_types_handlers := _object_types_handlers self;
     common_responses := common_responses self;
     handle_optional_response_with_404 := handle_optional_response_with_404 self;
     emitted_warnings := emitted_warnings self |}.

Definition warn (self : OpenAPIHandler) (w : Warning) : OpenAPIHandler :=
  {| components_schemas := components_schemas self;
     _objects_references := _objects_references self;
     _types_schemas := _types_schemas self;
     _object_types_handlers := _object_types_handlers self;
     common_responses := common_responses self;
     handle_optional_response_with_404 := handle_optional_response_with_404 self;
     emitted_warnings := (emitted_warnings self ++ [w])%list |}.

(** A method of the handler: reads and writes [self], may raise. *)
Definition M (A : Type) : Type := OpenAPIHandler -> result (A * OpenAPIHandler).

Definition ret {A : Type} (a : A) : M A := fun self => Ok (a, self).

Definition bind {A B : Type} (m : M A) (f : A -> M B) : M B :=
  fun self =>
    match m self with
    | Ok (a, self') => f a self'
    | Raise e => Raise e
    | OutOfFuel => OutOfFuel
    end.

Definition lift {A : Type} (r : result A) : M A :=
  fun self =>
    match r with
    | Ok a => Ok (a, self)
    | Raise e => Raise e
    | OutOfFuel => OutOfFuel
    end.

Definition raise {A : Type} (e : exn) : M A := fun _ => Raise e.

Declare Scope py_scope.
Delimit Scope py_scope with py.
Notation "x <- m ;; k" := (bind m (fun x => k))
  (at level 61, m at next level, right associativity) : py_scope.
Notation "' pat <- m ;; k" := (bind m (fun x => match x with pat => k end))
  (at level 61, pat pattern, m at next level, right associativity) : py_scope.
Open Scope py_scope.

(* ================================================================== *)
(** ** Type names *)

Definition TypeArgs := option (dict PyType PyType).

(** The replacement
    [if context_type_args and object_type in context_type_args:
       object_type = context_type_args.get(object_type)]. *)
Definition bound_type (context_type_args : TypeArgs) (object_type : PyType)
  : PyType :=
  match context_type_args with
  | Some ctx =>
      match dict_get ctx object_type with
      | Some bound => bound
      | None => object_type
      end
  | None => object_type
  end.

(** [get_type_name_for_generic], with [get_type_name] as [rec]. *)
Definition get_type_name_for_generic_with
    (rec : PyType -> TypeArgs -> result string)
    (object_type : PyType) (context_type_args : TypeArgs) : result string :=
  if negb (isinstance_GenericAlias object_type) then Raise AssertionError
  else
    match get_origin object_type with
    | None => Raise AssertionError
    | Some origin =>
        let args := __args__ object_type in
        rbind (rmap (fun arg => rec arg context_type_args) args) (fun names =>
        let args_repr := join "And" names in
        rbind (rec origin None) (fun origin_name =>
        Ok (origin_name ++ "Of" ++ args_repr)))
    end.

(** [get_type_name] *)
Fixpoint get_type_name (fuel : nat) (object_type : PyType)
    (context_type_args : TypeArgs) : result string :=
  match fuel with
  | 0 => OutOfFuel
  | S fuel =>
      let object_type := bound_type context_type_args object_type in
      match __name__ object_type with
      | Some type_name => Ok type_name
      | None =>
          if isinstance_GenericAlias object_type
          then get_type_name_for_generic_with (get_type_name fuel)
                 object_type context_type_args
          else Raise (ValueError object_type)
      end
  end.

(** [get_type_name_for_generic] *)
Definition get_type_name_for_generic (fuel : nat) (object_type : PyType)
    (context_type_args : TypeArgs) : result string :=
  get_type_name_for_generic_with (get_type_name fuel)
    object_type context_type_args.

(* ================================================================== *)
(** ** The reference registry *)

(** [self.components.schemas], after
    [if self.components.schemas is None: self.components.schemas = {}]. *)
Definition schemas_of (self : OpenAPIHandler) : dict string Schema :=
  match components_schemas self with
  | Some schemas => schemas
  | None => []
  end.

(** The [while] loop of [_register_schema]: the first of [name],
    [base_name1], [base_name2], ... that is not a key of [schemas].
    [bound] limits the number of iterations. *)
Fixpoint _register_schema_free_name (schemas : dict string Schema)
    (base_name : string) (counter : nat) (name : string) (bound : nat)
  : option string :=
  if dict_mem schemas name then
    match bound with
    | 0 => None
    | S bound =>
        let counter := S counter in
        _register_schema_free_name schemas base_name counter
          (base_name ++ str_of_nat counter) bound
    end
  else Some name.

(** [_register_schema].  A dict of [n] keys cannot hold all of [name],
    [name1], ..., [name(n)], so [n] iterations of the loop are enough
    (lemma [_register_schema_free_name_total]). *)
Definition _register_schema (schema : Schema) (name : string) : M Reference :=
  fun self =>
    let schemas := schemas_of self in
    match _register_schema_free_name schemas name 0 name (length schemas) with
    | Some name =>
        Ok ({| ref := "#/components/schemas/" ++ name |},
            set_components_schemas self (dict_set schemas name schema))
    | None => OutOfFuel
    end.

(** [_can_handle_class_type] *)
Definition _can_handle_class_type (self : OpenAPIHandler)
    (object_type : PyType) : bool :=
  existsb (fun handler => handles_type handler object_type)
    (_object_types_handlers self)
  || dict_mem (_types_schemas self) object_type.

(** The two assignments [self._objects_references[object_type] = reference]
    and [self._objects_references[type_name] = reference]. *)
Definition store_reference (object_type : PyType) (type_name : string)
    (reference : Reference) : M unit :=
  fun self =>
    Ok (tt, set_objects_references self
              (dict_set (dict_set (_objects_references self)
                           object_type reference)
                 (TStr type_name) reference)).

(** [_handle_type_having_explicit_schema] *)
Definition _handle_type_having_explicit_schema (fuel : nat)
    (object_type : PyType) : M Reference :=
  fun self =>
    match dict_get (_types_schemas self) object_type with
    | None => Raise KeyError
    | Some schema =>
        (type_name <- lift (get_type_name fuel object_type (Some [])) ;;
         reference <- _register_schema schema type_name ;;
         _ <- store_reference object_type type_name reference ;;
         ret reference) self
    end.

(** [required or None] *)
Definition or_None {A : Type} (l : list A) : option (list A) :=
  if truthy l then Some l else None.

(** [_handle_object_type] *)
Definition _handle_object_type (fuel : nat) (object_type : PyType)
    (properties : dict string SchemaOrRef) (required : list string)
    (context_type_args : TypeArgs) : M Reference :=
  type_name <- lift (get_type_name fuel object_type context_type_args) ;;
  reference <- _register_schema
                 (mkSchema (Some OBJECT) None (or_None required)
                    (Some properties) None None None)
                 type_name ;;
  _ <- store_reference object_type type_name reference ;;
  ret reference.

(** [_get_stored_reference] *)
Definition _get_stored_reference (fuel : nat) (object_type : PyType)
    (type_args : TypeArgs) : M (option Reference) :=
  fun self =>
    match dict_get (_objects_references self) object_type with
    | Some reference => Ok (Some reference, self)
    | None =>
        if truthy_opt type_args then
          (type_name <- lift (get_type_name fuel object_type type_args) ;;
           ret (dict_get (_objects_references self) (TStr type_name))) self
        else Ok (None, self)
    end.

(* ================================================================== *)
(** ** Type resolution *)

(** [_try_get_schema_for_simple_type] *)
Definition _try_get_schema_for_simple_type (object_type : PyType)
  : option Schema :=
  match object_type with
  | TBuiltin b_str => Some (Schema_of_type STRING)
  | TBuiltin b_int => Some (Schema_of_type_format INTEGER INT64)
  | TBuiltin b_float => Some (Schema_of_type_format NUMBER FLOAT)
  | TBuiltin b_bool => Some (Schema_of_type BOOLEAN)
  | TBuiltin b_UUID => Some (Schema_of_type_format STRING FORMAT_UUID)
  | TBuiltin b_date => Some (Schema_of_type_format STRING DATE)
  | TBuiltin b_datetime => Some (Schema_of_type_format STRING DATETIME)
  | _ => None
  end.

(** [_try_get_schema_for_enum] *)
Definition _try_get_schema_for_enum (host : Host) (object_type : PyType)
  : option Schema :=
  if issubclass_IntEnum host object_type then
    Some (mkSchema (Some INTEGER) None None None None
            (Some (enum_values host object_type)) None)
  else if issubclass_Enum host object_type then
    Some (mkSchema (Some STRING) None None None None
            (Some (enum_values host object_type)) None)
  else None.

(** [get_fields] *)
Definition get_fields (self : OpenAPIHandler) (object_type : PyType)
  : list FieldInfo :=
  match find (fun handler => handles_type handler object_type)
          (_object_types_handlers self) with
  | Some handler => get_type_fields handler object_type
  | None => []
  end.

(** [object_type in {list, set, tuple}] *)
Definition is_bare_iterable (object_type : PyType) : bool :=
  match object_type with
  | TBuiltin b_list | TBuiltin b_set | TBuiltin b_tuple => true
  | _ => false
  end.

(** [origin in {list, set, tuple, collections_abc.Sequence}] *)
Definition is_iterable_origin (origin : PyType) : bool :=
  match origin with
  | TBuiltin b_list | TBuiltin b_set | TBuiltin b_tuple
  | TBuiltin b_Sequence => true
  | _ => false
  end.

(** [dict(zip(parameters, args))] *)
Definition zip_type_args (parameters : list string) (args : list PyType)
  : dict PyType PyType :=
  dict_of_list (combine (map TTypeVar parameters) args).

Section Resolver.
Variable host : Host.

(** The recursive call [self.get_schema_by_type]. *)
Variable rec : TypeOrSchema -> TypeArgs -> M SchemaOrRef.

(** The number of Python frames still available below the caller. *)
Variable fuel : nat.

(** The block under [if isinstance(child_type, str)] in
    [_get_schema_for_class]: a forward reference is replaced by the
    annotation that [get_type_hints] gives for the field, if any. *)
Definition resolve_forward_reference (object_type : PyType)
    (field : FieldInfo) (child_type : TypeOrSchema) : TypeOrSchema :=
  match child_type with
  | OfType (TStr _) =>
      match dict_get (get_type_hints host object_type) (name field) with
      | Some annotation => OfType annotation
      | None => child_type
      end
  | _ => child_type
  end.

(** The [for] loop of [_get_schema_for_class]. *)
Fixpoint _get_schema_for_class_loop (object_type : PyType)
    (todo : list FieldInfo) (required : list string)
    (properties : dict string SchemaOrRef)
  : M (list string * dict string SchemaOrRef) :=
  match todo with
  | [] => ret (required, properties)
  | field :: todo =>
      '(is_optional, child_type) <- lift (check_union (type field)) ;;
      let required :=
        if negb is_optional then (required ++ [name field])%list else required in
      let child_type :=
        resolve_forward_reference object_type field child_type in
      schema <- rec child_type None ;;
      _get_schema_for_class_loop object_type todo required
        (dict_set properties (name field) schema)
  end.

(** [_get_schema_for_class] *)
Definition _get_schema_for_class (object_type : PyType) : M Reference :=
  fun self =>
    if negb (_can_handle_class_type self object_type)
    then Raise AssertionError
    else if dict_mem (_types_schemas self) object_type
    then _handle_type_having_explicit_schema fuel object_type self
    else
      ('(required, properties) <-
          _get_schema_for_class_loop object_type
            (get_fields self object_type) [] [] ;;
       _handle_object_type fuel object_type properties required None) self.

(** [_try_get_schema_for_iterable] *)
Definition _try_get_schema_for_iterable (object_type : PyType)
    (context_type_args : TypeArgs) : M (option Schema) :=
  if is_bare_iterable object_type then
    (* the user didn't specify the item type *)
    ret (Some (mkSchema (Some ARRAY) None None None
                 (Some (IsSchema (Schema_of_type STRING))) None None))
  else
    match get_origin object_type with
    | None => ret None
    | Some origin =>
        if negb (is_iterable_origin origin) then ret None
        else
          let item_type :=
            match __args__ object_type with
            | first :: _ => first
            | [] => TBuiltin b_str
            end in
          let item_type := bound_type context_type_args item_type in
          items <- rec (OfType item_type) context_type_args ;;
          ret (Some (mkSchema (Some ARRAY) None None None
                       (Some items) None None))
    end.

(** The [for] loop of [_try_get_schema_for_generic]; [None] is the early
    [return None] after the warning. *)
Fixpoint _try_get_schema_for_generic_loop (object_type : PyType)
    (type_args : dict PyType PyType)
    (todo : list FieldInfo) (required : list string)
    (properties : dict string SchemaOrRef)
  : M (option (list string * dict string SchemaOrRef)) :=
  match todo with
  | [] => ret (Some (required, properties))
  | field :: todo =>
      '(is_optional, child_type) <- lift (check_union (type field)) ;;
      let required :=
        if negb is_optional then (required ++ [name field])%list else required in
      match child_type with
      | OfType (TStr _) =>
          fun self =>
            Ok (None, warn self {| warning_object_type := object_type;
                                   warning_field := name field |})
      | OfSchema _ =>
          (* [child_type in type_args] hashes the object *)
          raise TypeError_unhashable_Schema
      | OfType child =>
          let child :=
            match dict_get type_args child with
            | Some bound => bound
            | None => child
            end in
          schema <- rec (OfType child) (Some type_args) ;;
          _try_get_schema_for_generic_loop object_type type_args todo
            required (dict_set properties (name field) schema)
      end
  end.

(** [_try_get_schema_for_generic] *)
Definition _try_get_schema_for_generic (object_type : PyType)
    (context_type_args : TypeArgs) : M (option Reference) :=
  match get_origin object_type with
  | None => raise (AttributeError "__args__")
  | Some origin =>
      let args := __args__ object_type in
      match __parameters__ host origin with
      | None => raise (AttributeError "__parameters__")
      | Some parameters =>
          let type_args := zip_type_args parameters args in
          fun self =>
            (looped <- _try_get_schema_for_generic_loop object_type
                         type_args (get_fields self origin) [] [] ;;
             match looped with
             | None => ret None
             | Some (required, properties) =>
                 reference <- _handle_object_type fuel object_type
                                properties required context_type_args ;;
                 ret (Some reference)
             end) self
      end
  end.

(** [_get_schema_by_type] *)
Definition _get_schema_by_type (object_type : TypeOrSchema)
    (type_args : TypeArgs) : M SchemaOrRef :=
  match object_type with
  | OfSchema _ =>
      (* [object_type in self._objects_references] hashes the object *)
      raise TypeError_unhashable_Schema
  | OfType object_type =>
      stored_ref <- _get_stored_reference fuel object_type type_args ;;
      match stored_ref with
      | Some reference => ret (IsRef reference)
      | None =>
          fun self =>
            if _can_handle_class_type self object_type then
              (reference <- _get_schema_for_class object_type ;;
               ret (IsRef reference)) self
            else
              match _try_get_schema_for_simple_type object_type with
              | Some schema => Ok (IsSchema schema, self)
              | None =>
                  (* List, Set, Tuple are handled first than GenericAlias *)
                  (iterable <- _try_get_schema_for_iterable object_type
                                 type_args ;;
                   match iterable with
                   | Some schema => ret (IsSchema schema)
                   | None =>
                       generic <-
                         (if isinstance_GenericAlias object_type
                          then _try_get_schema_for_generic object_type
                                 type_args
                          else ret None) ;;
                       match generic with
                       | Some reference => ret (IsRef reference)
                       | None =>
                           let schema :=
                             if isclass object_type
                             then _try_get_schema_for_enum host object_type
                             else None in
                           match schema with
                           | Some schema => ret (IsSchema schema)
                           | None => ret (IsSchema Schema_empty)
                           end
                       end
                   end) self
              end
      end
  end.

(** The body of [get_schema_by_type]. *)
Definition get_schema_by_type_body (object_type : TypeOrSchema)
    (type_args : TypeArgs) : M SchemaOrRef :=
  match object_type with
  | OfSchema schema => ret (IsSchema schema)
  | OfType t =>
      stored_ref <- _get_stored_reference fuel t type_args ;;
      match stored_ref with
      | Some reference => ret (IsRef reference)
      | None =>
          '(is_optional, child_type) <- lift (check_union object_type) ;;
          schema <- _get_schema_by_type child_type type_args ;;
          match schema with
          | IsSchema s =>
              if negb is_optional
              then ret (IsSchema (set_nullable s is_optional))
              else ret schema
          | IsRef _ => ret schema
          end
      end
  end.
End Resolver.

(** [get_schema_by_type]: [fuel] bounds the depth of nested calls. *)
Fixpoint get_schema_by_type (host : Host) (fuel : nat)
    (object_type : TypeOrSchema) (type_args : TypeArgs) : M SchemaOrRef :=
  match fuel with
  | 0 => fun _ => OutOfFuel
  | S fuel =>
      get_schema_by_type_body host (get_schema_by_type host fuel) fuel
        object_type type_args
  end.

(** [register_schema_for_type] *)
Definition register_schema_for_type (host : Host) (fuel : nat)
    (object_type : PyType) : M Reference :=
  stored_ref <- _get_stored_reference fuel object_type None ;;
  match stored_ref with
  | Some reference => ret reference
  | None =>
      schema <- get_schema_by_type host fuel (OfType object_type) None ;;
      match schema with
      | IsSchema schema =>
          type_name <- lift (get_type_name fuel object_type None) ;;
          _register_schema schema type_name
      | IsRef reference => ret reference
      end
  end.

(* ================================================================== *)
(** ** Handlers, binders and documentation data
       (blacksheep.server.bindings, blacksheep.server.openapi.common) *)

(** The class of a binder, as the [isinstance] tests see it. *)
Inductive BinderClass :=
| RouteBinder | QueryBinder | CookieBinder | HeaderBinder | BodyBinder
| OtherBinder.

Record Binder := {
  binder_class : BinderClass;
  parameter_name : string;
  expected_type : PyType;
  required : bool;
  (** [binder.default is empty] *)
  default_is_empty : bool;
  (** [content_type] of a [BodyBinder] *)
  content_type : string }.

Inductive ParameterSource :=
| Source_QUERY | Source_HEADER | Source_PATH | Source_COOKIE.

Record ParameterInfo := {
  pi_description : string;
  pi_value_type : option PyType;
  pi_source : option ParameterSource;
  pi_required : option bool;
  pi_example : option PyValue }.

Record RequestBodyInfo := {
  rb_description : option string;
  rb_examples : option (dict string PyValue) }.

Record ResponseExample := {
  re_value : PyValue;
  re_name : option string;
  re_summary : option string;
  re_description : option string }.

(** An element of [ContentInfo.examples]: a [ResponseExample] or a bare
    value. *)
Inductive ExampleItem :=
| Ex_ResponseExample (e : ResponseExample)
| Ex_value (v : PyValue).

Record ContentInfo := {
  ci_type : option TypeOrSchema;
  ci_examples : option (list ExampleItem);
  ci_content_type : string }.

Record HeaderInfo := {
  hi_type : TypeOrSchema;
  hi_description : option string }.

Record ResponseInfo := {
  ri_description : string;
  ri_headers : option (dict string HeaderInfo);
  ri_content : option (list ContentInfo) }.

(** A value of [EndpointDocs.responses]: a description or a
    [ResponseInfo]. *)
Inductive ResponseValue :=
| Response_str (description : string)
| Response_info (info : ResponseInfo).

Record EndpointDocs := {
  parameters : option (dict string ParameterInfo);
  request_body : option RequestBodyInfo;
  responses : option (dict ResponseStatusType ResponseValue) }.

(** The declared return type: [handler.return_type] may be missing
    ([getattr] then gives [...]), [None], or a type. *)
Inductive ReturnType :=
| NoReturnType
| ReturnsNone
| Returns (t : PyType).

(** A request handler.  [binders] is [None] when the object has no
    [binders] attribute; [docs] is [self.get_handler_docs(handler)]. *)
Record Handler := {
  binders : option (list Binder);
  return_type : ReturnType;
  docs : option EndpointDocs }.

(** What the methods below use of the base class [APIDocsHandler] and of
    module [common], whose text is not part of the modelled file. *)
Record Common := {
  response_status_to_str : ResponseStatusType -> string;
  normalize_example : PyValue -> PyValue;
  (** the default of [ContentInfo.content_type] *)
  default_content_type : string }.

(* ================================================================== *)
(** ** Operations *)

(** [_get_body_binder] *)
Definition _get_body_binder (handler_binders : list Binder) : option Binder :=
  find (fun binder =>
          match binder_class binder with BodyBinder => true | _ => false end)
       handler_binders.

(** [get_parameter_location_for_binder] *)
Definition get_parameter_location_for_binder (binder : Binder)
  : option ParameterLocation :=
  match binder_class binder with
  | RouteBinder => Some PATH
  | QueryBinder => Some QUERY
  | CookieBinder => Some COOKIE
  | HeaderBinder => Some HEADER
  | BodyBinder | OtherBinder => None
  end.

(** [_parameter_source_to_openapi_obj]:
    [ParameterLocation[value.value.upper()]] *)
Definition _parameter_source_to_openapi_obj (value : ParameterSource)
  : ParameterLocation :=
  match value with
  | Source_QUERY => QUERY
  | Source_HEADER => HEADER
  | Source_PATH => PATH
  | Source_COOKIE => COOKIE
  end.

(** [x or None] for a boolean. *)
Definition bool_or_None (b : bool) : option bool :=
  if b then Some true else None.

(** [docs.responses if docs else None] *)
Definition documented_responses (handler : Handler)
  : option (dict ResponseStatusType ResponseValue) :=
  match docs handler with
  | Some d => responses d
  | None => None
  end.

Section Operations.
Variable host : Host.
Variable common : Common.
Variable fuel : nat.

(** [get_request_body] *)
Definition get_request_body (handler : Handler) : M (option RequestBody) :=
  match binders handler with
  | None => ret None
  | Some handler_binders =>
      match _get_body_binder handler_binders with
      | None => ret None
      | Some body_binder =>
          let body_info :=
            match docs handler with
            | Some d => request_body d
            | None => None
            end in
          let body_examples :=
            match body_info with
            | Some info =>
                match rb_examples info with
                | Some examples =>
                    if truthy examples then
                      Some (dict_of_list
                              (map (fun kv =>
                                      (fst kv,
                                       {| example_summary := None;
                                          example_description := None;
                                          example_value := Some (snd kv) |}))
                                 examples))
                    else None
                | None => None
                end
            | None => None
            end in
          schema <- get_schema_by_type host fuel
                      (OfType (expected_type body_binder)) None ;;
          ret (Some
                 {| body_content :=
                      [(content_type body_binder,
                        {| media_schema := Some schema;
                           media_examples := body_examples;
                           media_example := None |})];
                    body_required := required body_binder;
                    body_description :=
                      match body_info with
                      | Some info => rb_description info
                      | None => None
                      end |})
      end
  end.

(** The first [for] loop of [get_parameters]. *)
Fixpoint get_parameters_binders_loop
    (parameters_info : dict string ParameterInfo)
    (todo : list Binder) (params : dict string ParameterDoc)
  : M (dict string ParameterDoc) :=
  match todo with
  | [] => ret params
  | binder :: todo =>
      match get_parameter_location_for_binder binder with
      | None =>
          (* the binder is used for something that is not a parameter
             expressed in OpenAPI Docs (e.g. a DI service) *)
          get_parameters_binders_loop parameters_info todo params
      | Some location =>
          let is_required :=
            match location with
            | PATH => true
            | _ => required binder && default_is_empty binder
            end in
          let param_info :=
            dict_get parameters_info (parameter_name binder) in
          schema <- get_schema_by_type host fuel
                      (OfType (expected_type binder)) None ;;
          get_parameters_binders_loop parameters_info todo
            (dict_set params (parameter_name binder)
               {| param_name := parameter_name binder;
                  param_in := location;
                  param_required := bool_or_None is_required;
                  param_schema := Some schema;
                  param_description :=
                    match param_info with
                    | Some info => Some (pi_description info)
                    | None => Some ""
                    end;
                  param_example :=
                    match param_info with
                    | Some info => pi_example info
                    | None => None
                    end |})
      end
  end.

(** The second [for] loop of [get_parameters]. *)
Fixpoint get_parameters_info_loop
    (todo : list (string * ParameterInfo)) (params : dict string ParameterDoc)
  : M (dict string ParameterDoc) :=
  match todo with
  | [] => ret params
  | (key, param_info) :: todo =>
      if dict_mem params key then get_parameters_info_loop todo params
      else
        schema <-
          match pi_value_type param_info with
          | Some value_type =>
              s <- get_schema_by_type host fuel (OfType value_type) None ;;
              ret (Some s)
          | None => ret None
          end ;;
        get_parameters_info_loop todo
          (dict_set params key
             {| param_name := key;
                param_in :=
                  _parameter_source_to_openapi_obj
                    match pi_source param_info with
                    | Some source => source
                    | None => Source_QUERY
                    end;
                param_required := pi_required param_info;
                param_schema := schema;
                param_description := Some (pi_description param_info);
                param_example := pi_example param_info |})
  end.

(** [get_parameters] *)
Definition get_parameters (handler : Handler)
  : M (option (list ParameterDoc)) :=
  match binders handler with
  | None => ret None
  | Some handler_binders =>
      let parameters_info :=
        match docs handler with
        | Some d =>
            match parameters d with
            | Some info => info
            | None => []
            end
        | None => []
        end in
      params <- get_parameters_binders_loop parameters_info
                  handler_binders [] ;;
      params <- get_parameters_info_loop parameters_info params ;;
      ret (Some (dict_values params))
  end.

(** [example.value] after the optional wrapping in [ResponseExample]. *)
Definition as_ResponseExample (item : ExampleItem) : ResponseExample :=
  match item with
  | Ex_ResponseExample e => e
  | Ex_value v =>
      {| re_value := v; re_name := None; re_summary := None;
         re_description := None |}
  end.

(** [example.name] after [if not example.name: example.name = ...] *)
Definition example_name (index : nat) (example : ResponseExample) : string :=
  match re_name example with
  | Some (String c rest) => String c rest
  | Some EmptyString | None => "example " ++ str_of_nat index
  end.

(** The loop over [enumerate(examples)] that fills [examples_doc]. *)
Fixpoint examples_doc_loop (index : nat) (todo : list ExampleItem)
    (examples_doc : dict string ExampleDoc) : dict string ExampleDoc :=
  match todo with
  | [] => examples_doc
  | item :: todo =>
      let example := as_ResponseExample item in
      examples_doc_loop (S index) todo
        (dict_set examples_doc (example_name index example)
           {| example_summary := re_summary example;
              example_description := re_description example;
              example_value :=
                Some (normalize_example common (re_value example)) |})
  end.

(** [self.get_schema_by_type(content_doc.type)] under [if content_doc.type] *)
Definition content_doc_schema (content_doc : ContentInfo)
  : M (option SchemaOrRef) :=
  match ci_type content_doc with
  | Some t => s <- get_schema_by_type host fuel t None ;; ret (Some s)
  | None => ret None
  end.

(** [_get_media_type_from_content_doc] *)
Definition _get_media_type_from_content_doc (content_doc : ContentInfo)
  : M MediaType :=
  schema <- content_doc_schema content_doc ;;
  match ci_examples content_doc with
  | Some [example_item] =>
      ret {| media_schema := schema;
             media_examples := None;
             media_example :=
               Some (normalize_example common
                       (re_value (as_ResponseExample example_item))) |}
  | Some (first :: second :: more) =>
      ret {| media_schema := schema;
             media_examples :=
               Some (examples_doc_loop 0 (first :: second :: more) []);
             media_example := None |}
  | Some [] | None =>
      ret {| media_schema := schema;
             media_examples := None;
             media_example := None |}
  end.

(** The loop of [_get_content_from_response_info]. *)
Fixpoint _get_content_loop (todo : list ContentInfo)
    (oad_content : dict string MediaType) : M (dict string MediaType) :=
  match todo with
  | [] => ret oad_content
  | content :: todo =>
      if negb (dict_mem oad_content (ci_content_type content)) then
        media_type <- _get_media_type_from_content_doc content ;;
        _get_content_loop todo
          (dict_set oad_content (ci_content_type content) media_type)
      else
        raise (DuplicatedContentTypeDocsException (ci_content_type content))
  end.

(** [_get_content_from_response_info] *)
Definition _get_content_from_response_info
    (response_content : option (list ContentInfo))
  : M (option (dict string MediaType)) :=
  match response_content with
  | Some (first :: more) =>
      oad_content <- _get_content_loop (first :: more) [] ;;
      ret (Some oad_content)
  | Some [] | None => ret None
  end.

(** The comprehension of [_get_headers_from_response_info]. *)
Fixpoint _get_headers_loop (todo : list (string * HeaderInfo))
  : M (dict string Header) :=
  match todo with
  | [] => ret []
  | (key, value) :: todo =>
      schema <- get_schema_by_type host fuel (hi_type value) None ;;
      rest <- _get_headers_loop todo ;;
      ret ((key, {| header_description := hi_description value;
                    header_schema := schema |}) :: rest)
  end.

(** [_get_headers_from_response_info] *)
Definition _get_headers_from_response_info
    (headers : option (dict string HeaderInfo))
  : M (option (dict string Header)) :=
  match headers with
  | None => ret None
  | Some headers =>
      documented <- _get_headers_loop headers ;;
      ret (Some documented)
  end.

(** The comprehension over [data.items()] at the end of
    [get_responses]. *)
Fixpoint get_responses_loop (todo : list (ResponseStatusType * ResponseValue))
  : M (list (string * ResponseDoc)) :=
  match todo with
  | [] => ret []
  | (key, value) :: todo =>
      doc <-
        match value with
        | Response_info info =>
            content <- _get_content_from_response_info (ri_content info) ;;
            headers <- _get_headers_from_response_info (ri_headers info) ;;
            ret {| response_description := ri_description info;
                   response_content := content;
                   response_headers := headers |}
        | Response_str description =>
            ret {| response_description := description;
                   response_content := None;
                   response_headers := None |}
        end ;;
      rest <- get_responses_loop todo ;;
      ret ((response_status_to_str common key, doc) :: rest)
  end.

(** [ResponseInfo(description)] and [ContentInfo(type, examples=[])] *)
Definition ResponseInfo_of (description : string)
    (content : option (list ContentInfo)) : ResponseInfo :=
  {| ri_description := description; ri_headers := None;
     ri_content := content |}.

Definition ContentInfo_of (t : TypeOrSchema) : ContentInfo :=
  {| ci_type := Some t; ci_examples := Some [];
     ci_content_type := default_content_type common |}.

(** The responses inferred from the return type, when there are no
    documented ones: [None] is the early [return responses]. *)
Definition inferred_responses (self : OpenAPIHandler) (handler : Handler)
    (data : dict ResponseStatusType ResponseValue)
  : result (option (dict ResponseStatusType ResponseValue)) :=
  match return_type handler with
  | NoReturnType => Ok None
  | ReturnsNone =>
      (* the user explicitly marked the request handler as returning
         None, document therefore HTTP 204 No Content *)
      Ok (Some (dict_set data (StatusStr "204")
                  (Response_info
                     (ResponseInfo_of "Success response" (Some [])))))
  | Returns t =>
      (* if the return type is optional, generate automatically
         the "404" response *)
      rbind (check_union (OfType t)) (fun '(is_optional, child_type) =>
      let data :=
        dict_set data (StatusStr "200")
          (Response_info
             (ResponseInfo_of "Success response"
                (Some [ContentInfo_of child_type]))) in
      if is_optional && handle_optional_response_with_404 self then
        Ok (Some (dict_set data (StatusStr "404")
                    (Response_info
                       (ResponseInfo_of "Object not found" None))))
      else Ok (Some data))
  end.

(** [get_responses].  When [docs.responses] is an empty dict, the
    inferred entries are also written into that dict; the returned
    document does not depend on it. *)
Definition get_responses (handler : Handler)
  : M (option (dict string ResponseDoc)) :=
  let data := documented_responses handler in
  fun self =>
    (* common responses used by the whole application *)
    let common_docs :=
      dict_of_list
        (map (fun kv => (response_status_to_str common (fst kv), snd kv))
           (common_responses self)) in
    let documented :=
      if truthy_opt data then Ok data
      else inferred_responses self handler
             (match data with Some d => d | None => [] end) in
    match documented with
    | Ok None => Ok (Some common_docs, self)
    | Ok (Some data) =>
        (docs_of_data <- get_responses_loop data ;;
         ret (Some (dict_update common_docs (dict_of_list docs_of_data))))
          self
    | Raise e => Raise e
    | OutOfFuel => OutOfFuel
    end.
End Operations.

(* ================================================================== *)
(** ** A fresh handler and a small application *)

(** [PydanticModelTypeHandler] when pydantic is not installed
    ([BaseModel is ...]): [handles_type] answers [False] for every type. *)
Definition PydanticModelTypeHandler_not_installed : ObjectTypeHandler :=
  {| handles_type := fun _ => false;
     get_type_fields := fun _ => [] |}.

(** The handler as [__init__] leaves it. *)
Definition OpenAPIHandler_init (host : Host) : OpenAPIHandler :=
  {| components_schemas := None;
     _objects_references := [];
     _types_schemas := [];
     _object_types_handlers :=
       [DataClassTypeHandler host; PydanticModelTypeHandler_not_installed];
     common_responses := [];
     handle_optional_response_with_404 := true;
     emitted_warnings := [] |}.

Module App.

(** [Optional[t]] *)
Definition Optional (t : PyType) : PyType := TUnion [t; TBuiltin b_NoneType].

Definition T : PyType := TTypeVar "T".
Definition U : PyType := TTypeVar "U".

(** Dataclasses of the application:
<<
    class Item:   id: int;  note: Optional[str]
    class Other:  x: float
    class Box(Generic[T]):      item: T;  count: int
    class Pair(Generic[T, U]):  first: T;  second: U
    class Lazy(Generic[T]):     item: T;  owner: "Owner"
    class Node:   next: "Node"
    class A, B, C, AAndB, BAndC:  (no fields)
>> *)
Definition Item : PyType := TClass "app" "Item".
Definition Other : PyType := TClass "app" "Other".
Definition Box : PyType := TClass "app" "Box".
Definition Pair : PyType := TClass "app" "Pair".
Definition Lazy : PyType := TClass "app" "Lazy".
Definition Node : PyType := TClass "app" "Node".
Definition A : PyType := TClass "app" "A".
Definition B : PyType := TClass "app" "B".
Definition C : PyType := TClass "app" "C".
Definition AAndB : PyType := TClass "app" "AAndB".
Definition BAndC : PyType := TClass "app" "BAndC".

Definition field (n : string) (t : PyType) : FieldInfo :=
  {| name := n; type := OfType t |}.

Definition declared_fields : dict PyType (list FieldInfo) :=
  [ (Item, [field "id" (TBuiltin b_int);
            field "note" (Optional (TBuiltin b_str))]);
    (Other, [field "x" (TBuiltin b_float)]);
    (Box, [field "item" T; field "count" (TBuiltin b_int)]);
    (Pair, [field "first" T; field "second" U]);
    (Lazy, [field "item" T; field "owner" (TStr "Owner")]);
    (Node, [field "next" (TStr "Node")]);
    (A, []); (B, []); (C, []); (AAndB, []); (BAndC, []) ].

Definition host : Host :=
  {| is_dataclass := dict_mem declared_fields;
     fields := fun t =>
       match dict_get declared_fields t with Some l => l | None => [] end;
     get_type_hints := fun t =>
       match t with
       | TClass "app" "Node" => [("next", Node)]
       | _ => []
       end;
     __parameters__ := fun t =>
       match t with
       | TClass "app" "Box" => Some ["T"]
       | TClass "app" "Lazy" => Some ["T"]
       | TClass "app" "Pair" => Some ["T"; "U"]
       | _ => None
       end;
     issubclass_IntEnum := fun _ => false;
     issubclass_Enum := fun _ => false;
     enum_values := fun _ => [] |}.

Definition self0 : OpenAPIHandler := OpenAPIHandler_init host.

Definition common : Common :=
  {| response_status_to_str := fun status =>
       match status with
       | StatusInt n => str_of_nat n
       | StatusStr s => s
       end;
     normalize_example := fun v => v;
     default_content_type := "application/json" |}.

End App.

(* ================================================================== *)
(** ** Handlers of the small application *)

Module AppHandlers.

(** An object that is not a request handler of the framework: it has no
    [binders] and no [return_type] attribute. *)
Definition bare : Handler :=
  {| binders := None; return_type := NoReturnType; docs := None |}.

Definition json_body (t : PyType) : Binder :=
  {| binder_class := BodyBinder;
     parameter_name := "data";
     expected_type := t;
     required := true;
     default_is_empty := true;
     content_type := "application/json" |}.

(** [def create(data: FromJSON[str])], documented with one request body
    example. *)
Definition create : Handler :=
  {| binders := Some [json_body (TBuiltin b_str)];
     return_type := NoReturnType;
     docs :=
       Some {| parameters := None;
               request_body :=
                 Some {| rb_description := Some "The text";
                         rb_examples := Some [("basic", VStr "hello")] |};
               responses := None |} |}.

(** Handlers that differ in their return annotation only. *)
Definition returning (r : ReturnType) : Handler :=
  {| binders := Some []; return_type := r; docs := None |}.

End AppHandlers.

(** The fresh handler after [Item] has been resolved. *)
Definition after_Item : OpenAPIHandler :=
  set_objects_references
    (set_components_schemas App.self0
       [("Item",
         mkSchema (Some OBJECT) None (Some ["id"])
           (Some [("id", IsSchema (set_nullable
                                     (Schema_of_type_format INTEGER INT64)
                                     false));
                  ("note", IsSchema (set_nullable (Schema_of_type STRING)
                                       false))])
           None None None)])
    [(App.Item, {| ref := "#/components/schemas/Item" |});
     (TStr "Item", {| ref := "#/components/schemas/Item" |})].

(* ================================================================== *)
(** ** Vocabulary of the statements *)

(** The handler has no documented responses: [not data]. *)
Definition undocumented_responses (handler : Handler) : bool :=
  negb (truthy_opt (documented_responses handler)).

(** The common responses, keyed by their status as a string. *)
Definition common_docs (common : Common) (self : OpenAPIHandler)
  : dict string ResponseDoc :=
  dict_of_list
    (map (fun kv => (response_status_to_str common (fst kv), snd kv))
       (common_responses self)).

(** The entries the response inference produces. *)
Definition doc_204 : ResponseDoc :=
  {| response_description := "Success response";
     response_content := None;
     response_headers := None |}.

Definition doc_200 (common : Common) (schema : SchemaOrRef) : ResponseDoc :=
  {| response_description := "Success response";
     response_content :=
       Some [(default_content_type common,
              {| media_schema := Some schema;
                 media_examples := None;
                 media_example := None |})];
     response_headers := None |}.

Definition doc_404 : ResponseDoc :=
  {| response_description := "Object not found";
     response_content := None;
     response_headers := None |}.

(** [handler]'s [docs.request_body], when there are docs. *)
Definition body_info_of (handler : Handler) : option RequestBodyInfo :=
  match docs handler with
  | Some d => request_body d
  | None => None
  end.

(** The named examples of a request body: one [Example(value=value)] per
    key of [body_info.examples]. *)
Definition named_body_examples (examples : dict string PyValue)
  : dict string ExampleDoc :=
  dict_of_list
    (map (fun kv => (fst kv,
                     {| example_summary := None;
                        example_description := None;
                        example_value := Some (snd kv) |}))
       examples).

(** The named examples of a response content: the example at position
    [index] is keyed by its name, or by "example index" when it has none. *)
Definition named_content_examples (common : Common) (first_index : nat)
    (examples : list ExampleItem) : list (string * ExampleDoc) :=
  map (fun indexed =>
         let example := as_ResponseExample (snd indexed) in
         (example_name (fst indexed) example,
          {| example_summary := re_summary example;
             example_description := re_description example;
             example_value :=
               Some (normalize_example common (re_value example)) |}))
      (combine (seq first_index (length examples)) examples).

(** A field whose declared type is an optional: [check_union] answers
    [is_optional = True] for it. *)
Definition is_optional_field (field : FieldInfo) : bool :=
  match check_union (type field) with
  | Ok (true, _) => true
  | _ => false
  end.

(** The names of the fields that are not optional, in declaration order. *)
Definition required_fields (declared : list FieldInfo) : list string :=
  map name (filter (fun field => negb (is_optional_field field)) declared).

(** The [required] list of a schema, empty when the attribute is [None]. *)
Definition required_of (schema : Schema) : list string :=
  match schema_required schema with
  | Some l => l
  | None => []
  end.

(** [isinstance] of a union alias: [__origin__ is Union]. *)
Definition is_union (object_type : PyType) : bool :=
  match object_type with TUnion _ => true | _ => false end.

(** No key of the dict is a union alias. *)
Definition no_union_key {V : Type} (d : dict PyType V) : Prop :=
  forall args, dict_get d (TUnion args) = None.

(** The generic bindings, if any, have no union alias as a key (the keys
    of the bindings built by the resolver are type variables). *)
Definition bindings_without_union (type_args : TypeArgs) : Prop :=
  match type_args with
  | Some ctx => no_union_key ctx
  | None => True
  end.

(** The parts of the handler that resolution reads and never writes. *)
Definition same_configuration (self0 self : OpenAPIHandler) : Prop :=
  _types_schemas self = _types_schemas self0
  /\ _object_types_handlers self = _object_types_handlers self0
  /\ common_responses self = common_responses self0
  /\ handle_optional_response_with_404 self
     = handle_optional_response_with_404 self0.

(** The type that [_get_schema_for_class] passes to the recursive call for
    a field of [object_type]: the declared type, unwrapped when it is an
    optional, and replaced by its annotation when it is a bare name. *)
Definition field_child_type (host : Host) (object_type : PyType)
    (field : FieldInfo) : result TypeOrSchema :=
  rbind (check_union (type field)) (fun checked =>
  Ok (resolve_forward_reference host object_type field (snd checked))).

(** The call returned a value: it neither raised nor ran out of depth. *)
Definition returns {A : Type} (r : result A) : Prop :=
  match r with
  | Ok _ => True
  | Raise _ | OutOfFuel => False
  end.

(** The handler is configured as [self0] and [C] is not in its reference
    cache. *)
Definition unresolved (self0 : OpenAPIHandler) (C : PyType)
    (self : OpenAPIHandler) : Prop :=
  same_configuration self0 self
  /\ dict_get (_objects_references self) C = None.

(** [t is C] *)
Definition is_type (C t : PyType) : bool :=
  if PyType_eq_dec t C then true else false.

(** The names [_register_schema] tries for a proposed name, in order:
    the name itself, then the name followed by 1, 2, ... *)
Definition candidate_name (base_name : string) (index : nat) : string :=
  match index with
  | 0 => base_name
  | S _ => base_name ++ str_of_nat index
  end.

(** The two handlers hold the same schemas and the same references and
    are configured alike; they may differ in the warnings emitted. *)
Definition same_registry (self self' : OpenAPIHandler) : Prop :=
  components_schemas self' = components_schemas self
  /\ _objects_references self' = _objects_references self
  /\ same_configuration self self'.

(** Every key of the reference cache of [self] is a key of that of
    [self']. *)
Definition keys_kept (self self' : OpenAPIHandler) : Prop :=
  forall k,
    dict_mem (_objects_references self) k = true ->
    dict_mem (_objects_references self') k = true.

(** Every schema registered in [self] is registered in [self'] under the
    same name. *)
Definition schemas_kept (self self' : OpenAPIHandler) : Prop :=
  forall name schema,
    dict_get (schemas_of self) name = Some schema ->
    dict_get (schemas_of self') name = Some schema.

(** The reference points to a schema registered in [self]. *)
Definition registered (self : OpenAPIHandler) (reference : Reference) : Prop :=
  exists name,
    ref reference = "#/components/schemas/" ++ name
    /\ dict_mem (schemas_of self) name = true.

(** Every reference in the cache points to a registered schema. *)
Definition references_registered (self : OpenAPIHandler) : Prop :=
  forall key reference,
    dict_get (_objects_references self) key = Some reference ->
    registered self reference.

(** A fresh handler in which [Item] has been given an explicit schema. *)
Definition explicit_Item : OpenAPIHandler :=
  {| components_schemas := None;
     _objects_references := [];
     _types_schemas := [(App.Item, Schema_of_type STRING)];
     _object_types_handlers := _object_types_handlers App.self0;
     common_responses := [];
     handle_optional_response_with_404 := true;
     emitted_warnings := [] |}.

(** [(docs.parameters if docs else None) or dict()] *)
Definition parameters_info_of (handler : Handler)
  : dict string ParameterInfo :=
  match docs handler with
  | Some d =>
      match parameters d with
      | Some info => info
      | None => []
      end
  | None => []
  end.

(** The binder stands for a parameter of the OpenAPI documentation: a
    route, query, cookie or header binder. *)
Definition is_parameter_binder (binder : Binder) : bool :=
  match get_parameter_location_for_binder binder with
  | Some _ => true
  | None => false
  end.

(** [name] is the name of a parameter binder among [handler_binders]. *)
Definition bound_parameter (handler_binders : list Binder) (name : string)
  : Prop :=
  exists binder,
    In binder handler_binders
    /\ is_parameter_binder binder = true
    /\ parameter_name binder = name.

(** The entry is stored under its own name. *)
Definition stored_under_its_name (entry : string * ParameterDoc) : Prop :=
  param_name (snd entry) = fst entry.

(** The entry is required when it is a path parameter. *)
Definition required_if_path (entry : string * ParameterDoc) : Prop :=
  param_in (snd entry) = PATH -> param_required (snd entry) = Some true.

Module ItemHandlers.

(** [def get_item(id: FromRoute[int], page: FromQuery[int], data:
    FromJSON[Item])]: the route binder is marked optional, and the
    documentation describes [id], as an optional query parameter, and a
    parameter [verbose] that the function does not take. *)
Definition route_id : Binder :=
  {| binder_class := RouteBinder;
     parameter_name := "id";
     expected_type := TBuiltin b_int;
     required := false;
     default_is_empty := false;
     content_type := "" |}.

Definition query_page : Binder :=
  {| binder_class := QueryBinder;
     parameter_name := "page";
     expected_type := TBuiltin b_int;
     required := false;
     default_is_empty := false;
     content_type := "" |}.

Definition documented_id : ParameterInfo :=
  {| pi_description := "The id";
     pi_value_type := None;
     pi_source := Some Source_QUERY;
     pi_required := Some false;
     pi_example := None |}.

Definition documented_verbose : ParameterInfo :=
  {| pi_description := "More details";
     pi_value_type := Some (TBuiltin b_bool);
     pi_source := None;
     pi_required := None;
     pi_example := None |}.

Definition get_item : Handler :=
  {| binders :=
       Some [route_id; query_page; AppHandlers.json_body App.Item];
     return_type := Returns (App.Optional App.Item);
     docs :=
       Some {| parameters :=
                 Some [("id", documented_id); ("verbose", documented_verbose)];
               request_body := None;
               responses := None |} |}.

(** The parameter documented for [id]. *)
Definition parameter_id : ParameterDoc :=
  {| param_name := "id";
     param_in := PATH;
     param_required := Some true;
     param_schema :=
       Some (IsSchema (set_nullable (Schema_of_type_format INTEGER INT64)
                         false));
     param_description := Some "The id";
     param_example := None |}.

End ItemHandlers.

(** The handler with another return annotation. *)
Definition with_return_type (handler : Handler) (r : ReturnType) : Handler :=
  {| binders := binders handler;
     return_type := r;
     docs := docs handler |}.

(** The status under which [get_responses] files a documented response. *)
Definition documented_statuses (common : Common)
    (data : dict ResponseStatusType ResponseValue) : list string :=
  map (fun entry => response_status_to_str common (fst entry)) data.

Module DocumentedHandlers.

(** A handler for which a common response is declared for status 401, and
    whose documentation describes status 200 and, by a description only,
    status 404. *)
Definition unauthorized : ResponseDoc :=
  {| response_description := "Unauthorized";
     response_content := None;
     response_headers := None |}.

Definition self_with_common : OpenAPIHandler :=
  {| components_schemas := None;
     _objects_references := [];
     _types_schemas := [];
     _object_types_handlers := _object_types_handlers App.self0;
     common_responses := [(StatusInt 401, unauthorized)];
     handle_optional_response_with_404 := true;
     emitted_warnings := [] |}.

Definition documented_data : dict ResponseStatusType ResponseValue :=
  [(StatusInt 200,
    Response_info
      {| ri_description := "The item";
         ri_headers := None;
         ri_content := Some [ContentInfo_of App.common (OfType App.Item)] |});
   (StatusInt 404, Response_str "No such item")].

Definition documented : Handler :=
  {| binders := Some [];
     return_type := Returns (App.Optional App.Other);
     docs :=
       Some {| parameters := None;
               request_body := None;
               responses := Some documented_data |} |}.

End DocumentedHandlers.

(* ================================================================== *)
(** ** Merging a parsed docstring into the documentation of a handler *)

(** Truthiness of an optional text: present and not empty. *)
Definition truthy_text (text : option string) : bool :=
  match text with
  | Some (String _ _) => true
  | Some EmptyString | None => false
  end.

(** What [_merge_documentation] reads of a [DocstringInfo]
    (blacksheep.server.openapi.docstrings); the values of [parameters]
    are [ParameterInfo] objects. *)
Record DocstringInfo := {
  ds_summary : option string;
  ds_description : option string;
  ds_parameters : dict string ParameterInfo }.

(** An [EndpointDocs] together with its [description] and [summary]
    attributes, which only the docstring merge reads and writes. *)
Record EndpointText := {
  ed_description : option string;
  ed_summary : option string;
  ed_docs : EndpointDocs }.

(** [_get_binder_by_name]; reading [handler.binders] raises
    [AttributeError] when the handler has no such attribute. *)
Definition _get_binder_by_name (handler : Handler) (name : string)
  : result (option Binder) :=
  match binders handler with
  | None => Raise (AttributeError "binders")
  | Some handler_binders =>
      Ok (find (fun binder => String.eqb (parameter_name binder) name)
            handler_binders)
  end.

(** [is_ignored_parameter] *)
Definition is_ignored_parameter (param_name : string)
    (matching_binder : option Binder) : bool :=
  match matching_binder with
  | Some {| binder_class := BodyBinder |}
  | Some {| binder_class := OtherBinder |} =>
      (* a binder that cannot be mapped to a parameter location *)
      true
  | _ => String.eqb param_name "request" || String.eqb param_name "services"
  end.

(** [isinstance(matching_binder, BodyBinder)] *)
Definition isinstance_BodyBinder (matching_binder : option Binder) : bool :=
  match matching_binder with
  | Some {| binder_class := BodyBinder |} => true
  | _ => false
  end.

(** [endpoint_docs.parameters] after
    [if endpoint_docs.parameters is None: endpoint_docs.parameters = {}]. *)
Definition parameters_of (endpoint_docs : EndpointDocs)
  : dict string ParameterInfo :=
  match parameters endpoint_docs with
  | Some documented => documented
  | None => []
  end.

(** The body of the [for] loop of [_merge_documentation], for the
    parameter [param_name] of the docstring. *)
Definition _merge_parameter (handler : Handler) (param_name : string)
    (param_info : ParameterInfo) (endpoint_docs : EndpointDocs)
  : result EndpointDocs :=
  let documented := parameters_of endpoint_docs in
  (* did the user specify parameter information explicitly, using @docs? *)
  match dict_get documented param_name with
  | None =>
      rbind (_get_binder_by_name handler param_name) (fun matching_binder =>
      if isinstance_BodyBinder matching_binder then
        Ok {| parameters := Some documented;
              request_body :=
                match request_body endpoint_docs with
                | None =>
                    Some {| rb_description := Some (pi_description param_info);
                            rb_examples := None |}
                | Some body =>
                    if negb (truthy_text (rb_description body)) then
                      Some {| rb_description :=
                                Some (pi_description param_info);
                              rb_examples := rb_examples body |}
                    else Some body
                end;
              responses := responses endpoint_docs |}
      else if is_ignored_parameter param_name matching_binder then
        (* this must not be documented in OpenAPI Documentation! *)
        Ok {| parameters := Some documented;
              request_body := request_body endpoint_docs;
              responses := responses endpoint_docs |}
      else
        Ok {| parameters :=
                Some (dict_set documented param_name
                        {| pi_description := pi_description param_info;
                           pi_value_type := pi_value_type param_info;
                           pi_source :=
                             Some match pi_source param_info with
                                  | Some source => source
                                  | None => Source_QUERY
                                  end;
                           pi_required := pi_required param_info;
                           pi_example := None |});
              request_body := request_body endpoint_docs;
              responses := responses endpoint_docs |})
  | Some matching_parameter =>
      Ok {| parameters :=
              Some (dict_set documented param_name
                      {| pi_description := pi_description param_info;
                         pi_value_type :=
                           match pi_value_type matching_parameter with
                           | Some value_type => Some value_type
                           | None => pi_value_type param_info
                           end;
                         pi_source := pi_source matching_parameter;
                         pi_required := pi_required matching_parameter;
                         pi_example := pi_example matching_parameter |});
            request_body := request_body endpoint_docs;
            responses := responses endpoint_docs |}
  end.

(** The [for] loop of [_merge_documentation]. *)
Fixpoint _merge_parameters (handler : Handler)
    (todo : list (string * ParameterInfo)) (endpoint_docs : EndpointDocs)
  : result EndpointDocs :=
  match todo with
  | [] => Ok endpoint_docs
  | (param_name, param_info) :: todo =>
      rbind (_merge_parameter handler param_name param_info endpoint_docs)
        (_merge_parameters handler todo)
  end.

(** [if not current and parsed: current = parsed] *)
Definition merge_text (current parsed : option string) : option string :=
  if negb (truthy_text current) && truthy_text parsed then parsed
  else current.

(** [_merge_documentation] *)
Definition _merge_documentation (handler : Handler)
    (endpoint_docs : EndpointText) (docstring_info : DocstringInfo)
  : result EndpointText :=
  rbind (_merge_parameters handler (ds_parameters docstring_info)
           (ed_docs endpoint_docs))
    (fun merged =>
       Ok {| ed_description :=
               merge_text (ed_description endpoint_docs)
                 (ds_description docstring_info);
             ed_summary :=
               merge_text (ed_summary endpoint_docs)
                 (ds_summary docstring_info);
             ed_docs := merged |}).

(** The docstring parameter [name] is one that the merge documents as a
    parameter: its binder is found, is not the body binder, and the
    parameter is not ignored. *)
Definition documentable (handler : Handler) (name : string) : Prop :=
  exists matching_binder,
    _get_binder_by_name handler name = Ok matching_binder
    /\ isinstance_BodyBinder matching_binder = false
    /\ is_ignored_parameter name matching_binder = false.

(** The request body is described, by a text that is not empty or by the
    description of [param_info]. *)
Definition body_described (param_info : ParameterInfo)
    (body : option RequestBodyInfo) : Prop :=
  exists info,
    body = Some info
    /\ (truthy_text (rb_description info) = true
        \/ rb_description info = Some (pi_description param_info)).

(** An explicitly documented parameter after the merge of [parsed], the
    information of the docstring on a parameter of that name. *)
Definition merged_parameter (explicit : ParameterInfo)
    (parsed : option ParameterInfo) : ParameterInfo :=
  match parsed with
  | Some param_info =>
      {| pi_description := pi_description param_info;
         pi_value_type :=
           match pi_value_type explicit with
           | Some value_type => Some value_type
           | None => pi_value_type param_info
           end;
         pi_source := pi_source explicit;
         pi_required := pi_required explicit;
         pi_example := pi_example explicit |}
  | None => explicit
  end.

(** The binder found for a name, if any, is a route, query, cookie or
    header binder. *)
Definition is_parameter_binder_option (matching_binder : option Binder)
  : bool :=
  match matching_binder with
  | Some binder => is_parameter_binder binder
  | None => true
  end.

(** The parameter [param_name] of the docstring has been merged into
    [endpoint_docs]: it is documented with the description of the
    docstring and a value type, or its binder is the body binder and the
    request body is described, or it is ignored. *)
Definition settled (handler : Handler) (param_name : string)
    (param_info : ParameterInfo) (endpoint_docs : EndpointDocs) : Prop :=
  parameters endpoint_docs = Some (parameters_of endpoint_docs)
  /\ match dict_get (parameters_of endpoint_docs) param_name with
     | Some documented =>
         merged_parameter documented (Some param_info) = documented
     | None =>
         exists matching_binder,
           _get_binder_by_name handler param_name = Ok matching_binder
           /\ if isinstance_BodyBinder matching_binder
              then body_described param_info (request_body endpoint_docs)
              else is_ignored_parameter param_name matching_binder = true
     end.

Module ItemDocstring.

(** The docstring of [get_item], as parsed: it describes the three
    parameters of the function and a parameter [request]. *)
Definition parsed (description : string) (value_type : option PyType)
  : ParameterInfo :=
  {| pi_description := description;
     pi_value_type := value_type;
     pi_source := None;
     pi_required := None;
     pi_example := None |}.

Definition docstring : DocstringInfo :=
  {| ds_summary := Some "Gets an item.";
     ds_description := Some "Gets an item by its id.";
     ds_parameters :=
       [("id", parsed "Identifier of the item" (Some (TBuiltin b_int)));
        ("page", parsed "Page number" None);
        ("data", parsed "The item" None);
        ("request", parsed "The web request" None)] |}.

(** The documentation of [get_item] before the merge; its summary is set,
    its description is not. *)
Definition text : EndpointText :=
  {| ed_description := None;
     ed_summary := Some "Item";
     ed_docs :=
       {| parameters :=
            Some [("id", ItemHandlers.documented_id);
                  ("verbose", ItemHandlers.documented_verbose)];
          request_body := None;
          responses := None |} |}.

End ItemDocstring.

(** The schema that [reference] points to in [self] is an object schema
    with one property for each name of [declared], no other property and
    no name twice, in the order of [declared] when its names are
    distinct. *)
Definition documents_fields (self : OpenAPIHandler) (reference : Reference)
    (declared : list FieldInfo) : Prop :=
  exists stored_name required properties,
    reference = {| ref := "#/components/schemas/" ++ stored_name |}
    /\ dict_get (schemas_of self) stored_name
       = Some (mkSchema (Some OBJECT) None required (Some properties)
                 None None None)
    /\ (forall n, In n (dict_keys properties) <-> In n (map name declared))
    /\ NoDup (dict_keys properties)
    /\ (NoDup (map name declared) ->
        dict_keys properties = map name declared).

(* ================================================================== *)
(** * Properties *)

(** ** Dictionaries and strings *)

Section DictFacts.
Context {K V : Type} `{EqDec K}.

Lemma dict_get_set_same (d : dict K V) (k : K) (v : V) :
  dict_get (dict_set d k v) k = Some v.
Proof.
  induction d as [|[k' v'] d IH]; simpl.
  - destruct (eq_dec k k); congruence.
  - destruct (eq_dec k' k) as [e|n]; simpl.
    + destruct (eq_dec k' k); congruence.
    + destruct (eq_dec k' k); congruence.
Qed.

Lemma dict_get_set_other (d : dict K V) (k k' : K) (v : V) :
  k <> k' -> dict_get (dict_set d k v) k' = dict_get d k'.
Proof.
  intros Hne. induction d as [|[k0 v0] d IH]; simpl.
  - destruct (eq_dec k k'); congruence.
  - destruct (eq_dec k0 k) as [e|n]; simpl.
    + subst k0. destruct (eq_dec k k'); congruence.
    + destruct (eq_dec k0 k'); congruence.
Qed.

Lemma dict_mem_set_same (d : dict K V) (k : K) (v : V) :
  dict_mem (dict_set d k v) k = true.
Proof. unfold dict_mem. now rewrite dict_get_set_same. Qed.

Lemma dict_mem_set_other (d : dict K V) (k k' : K) (v : V) :
  k <> k' -> dict_mem (dict_set d k v) k' = dict_mem d k'.
Proof. intros. unfold dict_mem. now rewrite dict_get_set_other. Qed.

Lemma dict_mem_In (d : dict K V) (k : K) :
  dict_mem d k = true <-> In k (dict_keys d).
Proof.
  unfold dict_mem, dict_keys.
  induction d as [|[k' v'] d IH]; simpl.
  - split; [discriminate | tauto].
  - destruct (eq_dec k' k) as [e|n].
    + split; auto.
    + rewrite IH. split; [auto | intros [E|I]; congruence].
Qed.

Lemma dict_set_length_fresh (d : dict K V) (k : K) (v : V) :
  dict_mem d k = false -> length (dict_set d k v) = S (length d).
Proof.
  unfold dict_mem. induction d as [|[k' v'] d IH]; simpl; auto.
  destruct (eq_dec k' k); [discriminate|].
  intros Hm. simpl. now rewrite IH.
Qed.

Lemma dict_set_fresh (d : dict K V) (k : K) (v : V) :
  dict_mem d k = false -> dict_set d k v = (d ++ [(k, v)])%list.
Proof.
  unfold dict_mem. induction d as [|[k' v'] d IH]; simpl; auto.
  destruct (eq_dec k' k); [discriminate|].
  intros Hm. now rewrite IH.
Qed.
End DictFacts.

Lemma append_inv_head (a b c : string) : a ++ b = a ++ c -> b = c.
Proof. induction a; simpl; intros E; [assumption|]. injection E. auto. Qed.

Lemma str_of_nat_inj (n m : nat) : str_of_nat n = str_of_nat m -> n = m.
Proof.
  unfold str_of_nat. intros E.
  apply Unsigned.to_uint_inj.
  assert (Some (Nat.to_uint n) = Some (Nat.to_uint m)) as S.
  { rewrite <- (NilEmpty.usu (Nat.to_uint n)), <- (NilEmpty.usu (Nat.to_uint m)).
    now rewrite E. }
  congruence.
Qed.

Lemma str_of_nat_nonempty (n : nat) : 0 < n -> str_of_nat n <> "".
Proof.
  unfold str_of_nat. intros Hn E.
  assert (Some (Nat.to_uint n) = Some Nil) as S.
  { rewrite <- (NilEmpty.usu (Nat.to_uint n)). now rewrite E. }
  injection S as S.
  apply (f_equal Nat.of_uint) in S. rewrite Unsigned.of_to in S. cbv in S. lia.
Qed.

Lemma append_nonempty_neq (a b : string) : b <> "" -> a ++ b <> a.
Proof.
  intros Hb E. apply Hb. apply (append_inv_head a).
  rewrite E. clear. induction a; simpl; congruence.
Qed.

(* ================================================================== *)
(** ** The reference registry: collision naming *)

(** When the loop gives up, every candidate it looked at is a key. *)
Lemma _register_schema_free_name_None (schemas : dict string Schema)
    (base_name : string) (bound counter : nat) (name : string) :
  _register_schema_free_name schemas base_name counter name bound = None ->
  forall candidate,
    In candidate
       (name :: map (fun i => base_name ++ str_of_nat i) (seq (S counter) bound)) ->
    dict_mem schemas candidate = true.
Proof.
  revert counter name.
  induction bound as [|bound IH]; intros counter name; simpl.
  - destruct (dict_mem schemas name) eqn:Hm; [|discriminate].
    intros _ candidate [<-|[]]. assumption.
  - destruct (dict_mem schemas name) eqn:Hm; [|discriminate].
    intros Hnone candidate [<-|Hin]; [assumption|].
    apply (IH _ _ Hnone). exact Hin.
Qed.

Lemma candidate_names_NoDup (base_name : string) (bound : nat) :
  NoDup (base_name :: map (fun i => base_name ++ str_of_nat i) (seq 1 bound)).
Proof.
  constructor.
  - rewrite in_map_iff. intros (i & E & Hi). apply in_seq in Hi.
    apply (append_nonempty_neq base_name (str_of_nat i)); [|exact E].
    apply str_of_nat_nonempty. lia.
  - apply NoDup_map_NoDup_ForallPairs; [|apply seq_NoDup].
    intros i j _ _ E. apply append_inv_head in E. now apply str_of_nat_inj.
Qed.

(** The loop of [_register_schema] always finds a free name within
    [length schemas] iterations. *)
Lemma _register_schema_free_name_total (schemas : dict string Schema)
    (name : string) :
  exists free,
    _register_schema_free_name schemas name 0 name (length schemas) = Some free
    /\ dict_mem schemas free = false.
Proof.
  destruct (_register_schema_free_name schemas name 0 name (length schemas))
    as [free|] eqn:E.
  - exists free. split; [reflexivity|].
    clear -E. revert E. generalize 0 at 1. generalize name at 2.
    induction (length schemas) as [|bound IH]; intros n c; simpl;
      destruct (dict_mem schemas n) eqn:Hm; try discriminate.
    + intros [= <-]. assumption.
    + apply IH.
    + intros [= <-]. assumption.
  - exfalso.
    pose proof (_register_schema_free_name_None _ _ _ _ _ E) as Hall.
    pose proof (candidate_names_NoDup name (length schemas)) as Hnd.
    assert (incl (name :: map (fun i => name ++ str_of_nat i)
                          (seq 1 (length schemas)))
                 (dict_keys schemas)) as Hincl.
    { intros c Hc. apply dict_mem_In. now apply Hall. }
    pose proof (NoDup_incl_length Hnd Hincl) as Hlen.
    unfold dict_keys in Hlen. simpl in Hlen.
    rewrite !length_map, length_seq in Hlen. lia.
Qed.

(** [_register_schema] always returns: it stores the schema under a name
    that was free and answers the reference to that name. *)
Lemma _register_schema_returns (schema : Schema) (name : string)
    (self : OpenAPIHandler) :
  exists free,
    dict_mem (schemas_of self) free = false /\
    _register_schema schema name self
    = Ok ({| ref := "#/components/schemas/" ++ free |},
          set_components_schemas self (dict_set (schemas_of self) free schema)).
Proof.
  destruct (_register_schema_free_name_total (schemas_of self) name)
    as (free & E & Hfree).
  exists free. split; [assumption|].
  unfold _register_schema. now rewrite E.
Qed.

(** A free proposed name is used as it is. *)
Lemma _register_schema_fresh (schema : Schema) (name : string)
    (self : OpenAPIHandler) :
  dict_mem (schemas_of self) name = false ->
  _register_schema schema name self
  = Ok ({| ref := "#/components/schemas/" ++ name |},
        set_components_schemas self (dict_set (schemas_of self) name schema)).
Proof.
  intros Hfree. unfold _register_schema.
  destruct (length (schemas_of self)); simpl; now rewrite Hfree.
Qed.

Lemma _register_schema_free_name_taken (schemas : dict string Schema)
    (base_name : string) (counter bound : nat) (name : string) :
  dict_mem schemas name = true ->
  _register_schema_free_name schemas base_name counter name (S bound)
  = _register_schema_free_name schemas base_name (S counter)
      (base_name ++ str_of_nat (S counter)) bound.
Proof. intros Hm. simpl. now rewrite Hm. Qed.

Lemma _register_schema_free_name_free (schemas : dict string Schema)
    (base_name : string) (counter bound : nat) (name : string) :
  dict_mem schemas name = false ->
  _register_schema_free_name schemas base_name counter name bound = Some name.
Proof. intros Hm. destruct bound; simpl; now rewrite Hm. Qed.

Lemma _register_schema_free_name_skips (schemas : dict string Schema)
    (base_name : string) (k : nat) :
  forall counter bound,
    (forall i, i < k ->
               dict_mem schemas (candidate_name base_name (counter + i)) = true) ->
    dict_mem schemas (candidate_name base_name (counter + k)) = false ->
    k <= bound ->
    _register_schema_free_name schemas base_name counter
      (candidate_name base_name counter) bound
    = Some (candidate_name base_name (counter + k)).
Proof.
  induction k as [|k IH]; intros counter bound Htaken Hfree Hbound.
  - rewrite Nat.add_0_r in *. now apply _register_schema_free_name_free.
  - destruct bound as [|bound]; [lia|].
    rewrite _register_schema_free_name_taken.
    + change (base_name ++ str_of_nat (S counter))
        with (candidate_name base_name (S counter)).
      replace (counter + S k) with (S counter + k) in * by lia.
      apply IH; [|exact Hfree|lia].
      intros i Hi. replace (S counter + i) with (counter + S i) by lia.
      apply Htaken. lia.
    + rewrite <- (Nat.add_0_r counter). apply Htaken. lia.
Qed.

Lemma candidate_name_inj (base_name : string) (i j : nat) :
  candidate_name base_name i = candidate_name base_name j -> i = j.
Proof.
  destruct i as [|i], j as [|j]; simpl; intros E.
  - reflexivity.
  - exfalso. symmetry in E. revert E. apply append_nonempty_neq.
    apply str_of_nat_nonempty. lia.
  - exfalso. revert E. apply append_nonempty_neq.
    apply str_of_nat_nonempty. lia.
  - apply append_inv_head in E. now apply str_of_nat_inj.
Qed.

(** The general rule of collision naming: the schema is stored under the
    first of [name], [name1], [name2], ... that is not in use. *)
Theorem _register_schema_first_free (schema : Schema) (name : string)
    (k : nat) (self : OpenAPIHandler) :
  (forall i, i < k ->
             dict_mem (schemas_of self) (candidate_name name i) = true) ->
  dict_mem (schemas_of self) (candidate_name name k) = false ->
  _register_schema schema name self
  = Ok ({| ref := "#/components/schemas/" ++ candidate_name name k |},
        set_components_schemas self
          (dict_set (schemas_of self) (candidate_name name k) schema)).
Proof.
  intros Htaken Hfree.
  assert (k <= length (schemas_of self)) as Hbound.
  { assert (NoDup (map (candidate_name name) (seq 0 k))) as Hnd.
    { apply NoDup_map_NoDup_ForallPairs; [|apply seq_NoDup].
      intros i j _ _. apply candidate_name_inj. }
    assert (incl (map (candidate_name name) (seq 0 k))
                 (dict_keys (schemas_of self))) as Hincl.
    { intros c Hc. apply in_map_iff in Hc. destruct Hc as (i & <- & Hi).
      apply in_seq in Hi. apply dict_mem_In. apply Htaken. lia. }
    pose proof (NoDup_incl_length Hnd Hincl) as Hlen.
    unfold dict_keys in Hlen. rewrite !length_map, length_seq in Hlen.
    exact Hlen. }
  unfold _register_schema.
  change name with (candidate_name name 0) at 2.
  now rewrite (_register_schema_free_name_skips _ name k 0 _ Htaken Hfree
                 Hbound).
Qed.

Lemma suffix_1_neq (name : string) : name <> name ++ "1".
Proof. intros E. now apply (append_nonempty_neq name "1"). Qed.

Lemma suffix_2_neq (name : string) : name <> name ++ "2".
Proof. intros E. now apply (append_nonempty_neq name "2"). Qed.

Lemma suffix_1_2_neq (name : string) : name ++ "1" <> name ++ "2".
Proof. intros E. apply append_inv_head in E. discriminate. Qed.

(** C5.  Three schemas registered in order under the same proposed name
    [name], in a registry where [name], [name1] and [name2] are not in use,
    are stored under [name], [name1] and [name2]: the first registrant
    keeps the bare name, the second and the third get the suffixes 1 and 2
    (with [name = "Foo"]: "Foo", "Foo1", "Foo2"). *)
Theorem register_schema_collision_naming (self : OpenAPIHandler)
    (name : string) (s1 s2 s3 : Schema) :
  dict_mem (schemas_of self) name = false ->
  dict_mem (schemas_of self) (name ++ "1") = false ->
  dict_mem (schemas_of self) (name ++ "2") = false ->
  (r1 <- _register_schema s1 name ;;
   r2 <- _register_schema s2 name ;;
   r3 <- _register_schema s3 name ;;
   ret (r1, r2, r3)) self
  = Ok (({| ref := "#/components/schemas/" ++ name |},
         {| ref := "#/components/schemas/" ++ name ++ "1" |},
         {| ref := "#/components/schemas/" ++ name ++ "2" |}),
        set_components_schemas self
          (List.app (schemas_of self)
             [(name, s1); (name ++ "1", s2); (name ++ "2", s3)])).
Proof.
  intros H0 H1 H2.
  pose proof (suffix_1_neq name) as N1.
  pose proof (suffix_2_neq name) as N2.
  pose proof (suffix_1_2_neq name) as N12.
  set (d0 := schemas_of self) in *.
  set (d1 := dict_set d0 name s1).
  set (d2 := dict_set d1 (name ++ "1") s2).
  assert (dict_mem d1 name = true) as M1 by apply dict_mem_set_same.
  assert (dict_mem d1 (name ++ "1") = false) as M11
    by (unfold d1; now rewrite dict_mem_set_other).
  assert (dict_mem d2 name = true) as M2
    by (unfold d2; rewrite dict_mem_set_other; auto).
  assert (dict_mem d2 (name ++ "1") = true) as M21 by apply dict_mem_set_same.
  assert (dict_mem d2 (name ++ "2") = false) as M22
    by (unfold d2, d1; rewrite !dict_mem_set_other; auto).
  assert (length d1 = S (length d0)) as L1
    by (apply dict_set_length_fresh; assumption).
  assert (length d2 = S (S (length d0))) as L2
    by (unfold d2; rewrite dict_set_length_fresh, L1; auto).
  unfold bind at 1. rewrite (_register_schema_fresh s1 name self H0).
  fold d0. fold d1.
  unfold bind at 1. unfold _register_schema at 1.
  change (schemas_of (set_components_schemas self d1)) with d1.
  rewrite L1, (_register_schema_free_name_taken d1 name 0 _ name M1).
  rewrite (_register_schema_free_name_free d1 name 1 _ _ M11).
  fold d2.
  unfold bind at 1. unfold _register_schema at 1.
  change (schemas_of (set_components_schemas
                        (set_components_schemas self d1) d2)) with d2.
  rewrite L2, (_register_schema_free_name_taken d2 name 0 _ name M2).
  rewrite (_register_schema_free_name_taken d2 name 1 _ _ M21).
  rewrite (_register_schema_free_name_free d2 name 2 _ _ M22).
  unfold ret, set_components_schemas; simpl.
  do 2 f_equal. f_equal.
  unfold d2, d1.
  rewrite (dict_set_fresh d0 name s1 H0).
  rewrite (dict_set_fresh _ (name ++ "1") s2)
    by (rewrite <- (dict_set_fresh d0 name s1 H0); exact M11).
  rewrite (dict_set_fresh _ (name ++ "2") s3).
  - now rewrite <- !app_assoc.
  - rewrite <- (dict_set_fresh d0 name s1 H0).
    rewrite <- (dict_set_fresh _ (name ++ "1") s2) by exact M11.
    exact M22.
Qed.

(** The three registrations of C5 in a fresh handler, with the proposed
    name "Foo". *)
Lemma register_schema_collision_naming_witness :
  (r1 <- _register_schema Schema_empty "Foo" ;;
   r2 <- _register_schema (Schema_of_type STRING) "Foo" ;;
   r3 <- _register_schema (Schema_of_type BOOLEAN) "Foo" ;;
   ret (r1, r2, r3)) App.self0
  = Ok (({| ref := "#/components/schemas/Foo" |},
         {| ref := "#/components/schemas/Foo1" |},
         {| ref := "#/components/schemas/Foo2" |}),
        set_components_schemas App.self0
          [("Foo", Schema_empty); ("Foo1", Schema_of_type STRING);
           ("Foo2", Schema_of_type BOOLEAN)]).
Proof.
  apply (register_schema_collision_naming App.self0 "Foo");
    reflexivity.
Defined.

(* ================================================================== *)
(** ** Missing binders and unsupported unions *)

Lemma get_schema_by_type_S (host : Host) (fuel : nat)
    (object_type : TypeOrSchema) (type_args : TypeArgs) :
  get_schema_by_type host (S fuel) object_type type_args
  = get_schema_by_type_body host (get_schema_by_type host fuel) fuel
      object_type type_args.
Proof. reflexivity. Qed.

(** C10.  A handler object without a [binders] attribute has no documented
    parameters and no documented request body: [get_parameters] and
    [get_request_body] both return [None], raise nothing and leave the
    handler object as it was. *)
Theorem no_binders_attribute (host : Host) (fuel : nat) (handler : Handler)
    (self : OpenAPIHandler) :
  binders handler = None ->
  get_parameters host fuel handler self = Ok (None, self)
  /\ get_request_body host fuel handler self = Ok (None, self).
Proof.
  intros Hb. unfold get_parameters, get_request_body. rewrite Hb.
  split; reflexivity.
Qed.


(** An object without [binders], in a fresh handler. *)
Lemma no_binders_attribute_witness :
  binders AppHandlers.bare = None
  /\ get_parameters App.host 8 AppHandlers.bare App.self0
     = Ok (None, App.self0)
  /\ get_request_body App.host 8 AppHandlers.bare App.self0
     = Ok (None, App.self0).
Proof.
  split; [reflexivity|].
  apply (no_binders_attribute App.host 8 AppHandlers.bare App.self0).
  reflexivity.
Defined.


(* ================================================================== *)
(** ** Response inference *)

(** C6.  For a handler without documented responses, [get_responses]
    answers the common responses extended as follows:
    - return type [None]: by one entry, for status 204;
    - a return type [t], optional or not, whose unwrapped type resolves to
      [schema]: by an entry for status 200 with that schema, followed by
      an entry for status 404 when [t] is optional and
      [handle_optional_response_with_404] is set, and by nothing else;
    - no return annotation: by nothing. *)
Theorem response_inference (host : Host) (common : Common) (fuel : nat)
    (handler : Handler) (self : OpenAPIHandler) :
  undocumented_responses handler = true ->
  (return_type handler = ReturnsNone ->
   get_responses host common fuel handler self
   = Ok (Some (dict_update (common_docs common self)
                 [(response_status_to_str common (StatusStr "204"), doc_204)]),
         self))
  /\ (forall t is_optional child_type schema self',
        return_type handler = Returns t ->
        check_union (OfType t) = Ok (is_optional, child_type) ->
        get_schema_by_type host fuel child_type None self = Ok (schema, self') ->
        get_responses host common fuel handler self
        = Ok (Some (dict_update (common_docs common self)
                      (dict_of_list
                         ((response_status_to_str common (StatusStr "200"),
                           doc_200 common schema)
                          :: if is_optional
                                && handle_optional_response_with_404 self
                             then [(response_status_to_str common
                                      (StatusStr "404"), doc_404)]
                             else []))),
              self'))
  /\ (return_type handler = NoReturnType ->
      get_responses host common fuel handler self
      = Ok (Some (common_docs common self), self)).
Proof.
  unfold undocumented_responses. intros Hdata.
  apply negb_true_iff in Hdata.
  assert (match documented_responses handler with
          | Some d => d
          | None => []
          end = []) as Hempty.
  { destruct (documented_responses handler) as [[|]|]; simpl in *; congruence. }
  split; [|split].
  - intros Hret. unfold get_responses. cbv zeta. rewrite Hdata, Hempty.
    unfold inferred_responses. rewrite Hret. reflexivity.
  - intros t is_optional child_type schema self' Hret Hunion Hschema.
    unfold get_responses. cbv zeta. rewrite Hdata, Hempty.
    unfold inferred_responses. rewrite Hret, Hunion. simpl.
    destruct (is_optional && handle_optional_response_with_404 self); simpl;
      unfold bind, content_doc_schema, _get_media_type_from_content_doc,
        bind, content_doc_schema; simpl;
      unfold bind; rewrite Hschema; reflexivity.
  - intros Hret. unfold get_responses. cbv zeta. rewrite Hdata.
    unfold inferred_responses. rewrite Hret. reflexivity.
Qed.

(** A handler annotated [-> Optional[str]], without documentation, in a
    fresh handler: a 200 entry for [str] and a 404 entry. *)
Lemma response_inference_witness :
  undocumented_responses
    (AppHandlers.returning (Returns (App.Optional (TBuiltin b_str)))) = true
  /\ get_responses App.host App.common 4
       (AppHandlers.returning (Returns (App.Optional (TBuiltin b_str))))
       App.self0
     = Ok (Some [("200", doc_200 App.common
                           (IsSchema (set_nullable (Schema_of_type STRING)
                                        false)));
                 ("404", doc_404)],
           App.self0).
Proof.
  split; [reflexivity|].
  destruct (response_inference App.host App.common 4
              (AppHandlers.returning (Returns (App.Optional (TBuiltin b_str))))
              App.self0 eq_refl) as (_ & Hreturns & _).
  exact (Hreturns (App.Optional (TBuiltin b_str)) true
           (OfType (TBuiltin b_str))
           (IsSchema (set_nullable (Schema_of_type STRING) false))
           App.self0 eq_refl eq_refl eq_refl).
Defined.

(* ================================================================== *)
(** ** Examples of request bodies and of response contents *)

Lemma examples_doc_loop_named (common : Common) (todo : list ExampleItem) :
  forall (index : nat) (examples_doc : dict string ExampleDoc),
    examples_doc_loop common index todo examples_doc
    = dict_update examples_doc (named_content_examples common index todo).
Proof.
  induction todo as [|item todo IH]; intros index examples_doc.
  - reflexivity.
  - simpl. rewrite IH. reflexivity.
Qed.

(** C8 (as amended).  The examples of a request body are always attached
    as a named map, one [Example] per key of the documented examples, also
    when there is exactly one; no inline example is set.  It is for the
    content of a response that exactly one example is attached inline, and
    that two or more examples are attached as a named map in which the
    example at position [index] is keyed by its name, or by
    "example index" when it has none. *)
Theorem examples_attachment (host : Host) (common : Common) (fuel : nat)
    (self self' : OpenAPIHandler) :
  (forall handler handler_binders body_binder info examples schema,
      binders handler = Some handler_binders ->
      _get_body_binder handler_binders = Some body_binder ->
      body_info_of handler = Some info ->
      rb_examples info = Some examples ->
      examples <> [] ->
      get_schema_by_type host fuel (OfType (expected_type body_binder)) None self
      = Ok (schema, self') ->
      get_request_body host fuel handler self
      = Ok (Some {| body_content :=
                      [(content_type body_binder,
                        {| media_schema := Some schema;
                           media_examples :=
                             Some (named_body_examples examples);
                           media_example := None |})];
                    body_required := required body_binder;
                    body_description := rb_description info |},
            self'))
  /\ (forall content_doc schema example_item,
        content_doc_schema host fuel content_doc self = Ok (schema, self') ->
        ci_examples content_doc = Some [example_item] ->
        _get_media_type_from_content_doc host common fuel content_doc self
        = Ok ({| media_schema := schema;
                 media_examples := None;
                 media_example :=
                   Some (normalize_example common
                           (re_value (as_ResponseExample example_item))) |},
              self'))
  /\ (forall content_doc schema first second more,
        content_doc_schema host fuel content_doc self = Ok (schema, self') ->
        ci_examples content_doc = Some (first :: second :: more) ->
        _get_media_type_from_content_doc host common fuel content_doc self
        = Ok ({| media_schema := schema;
                 media_examples :=
                   Some (dict_of_list
                           (named_content_examples common 0
                              (first :: second :: more)));
                 media_example := None |},
              self')).
Proof.
  split; [|split].
  - intros handler handler_binders body_binder info examples schema
      Hbinders Hbody Hinfo Hexamples Hnonempty Hschema.
    unfold get_request_body. rewrite Hbinders, Hbody.
    unfold body_info_of in Hinfo. rewrite Hinfo, Hexamples.
    destruct examples as [|e examples]; [congruence|].
    unfold bind. rewrite Hschema. reflexivity.
  - intros content_doc schema example_item Hschema Hexamples.
    unfold _get_media_type_from_content_doc, bind.
    rewrite Hschema, Hexamples. reflexivity.
  - intros content_doc schema first second more Hschema Hexamples.
    unfold _get_media_type_from_content_doc, bind.
    rewrite Hschema, Hexamples. unfold ret.
    rewrite examples_doc_loop_named. reflexivity.
Qed.

(** The handler [create], whose request body is documented with the single
    example "basic", in a fresh handler. *)
Lemma examples_attachment_witness :
  get_request_body App.host 4 AppHandlers.create App.self0
  = Ok (Some {| body_content :=
                  [("application/json",
                    {| media_schema :=
                         Some (IsSchema (set_nullable (Schema_of_type STRING)
                                           false));
                       media_examples :=
                         Some [("basic",
                                {| example_summary := None;
                                   example_description := None;
                                   example_value := Some (VStr "hello") |})];
                       media_example := None |})];
                body_required := true;
                body_description := Some "The text" |},
        App.self0).
Proof.
  destruct (examples_attachment App.host App.common 4 App.self0 App.self0)
    as (Hbody & _ & _).
  refine (Hbody AppHandlers.create _ _ _ _ _
            eq_refl eq_refl eq_refl eq_refl _ eq_refl).
  discriminate.
Defined.

(** C8, as stated, fails for a request body documented with exactly one
    example: [get_request_body] attaches it as a named map with one key and
    sets no inline example. *)
Lemma request_body_single_example_counterexample :
  exists body media,
    get_request_body App.host 4 AppHandlers.create App.self0
    = Ok (Some body, App.self0)
    /\ body_content body = [("application/json", media)]
    /\ media_example media = None
    /\ media_examples media
       = Some [("basic", {| example_summary := None;
                            example_description := None;
                            example_value := Some (VStr "hello") |})].
Proof.
  exists {| body_content :=
              [("application/json",
                {| media_schema :=
                     Some (IsSchema (set_nullable (Schema_of_type STRING)
                                       false));
                   media_examples :=
                     Some [("basic",
                            {| example_summary := None;
                               example_description := None;
                               example_value := Some (VStr "hello") |})];
                   media_example := None |})];
            body_required := true;
            body_description := Some "The text" |}.
  eexists. split; [reflexivity|].
  split; [reflexivity|]. split; reflexivity.
Qed.

(* ================================================================== *)
(** ** Names of parametrized generics *)

Lemma rmap_Forall2 {A B : Type} (f : A -> result B) (l : list A)
    (l' : list B) :
  Forall2 (fun x y => f x = Ok y) l l' -> rmap f l = Ok l'.
Proof.
  induction 1 as [|x y l l' Hxy _ IH]; simpl.
  - reflexivity.
  - now rewrite Hxy, IH.
Qed.

Lemma get_type_name_for_generic_alias (fuel : nat) (origin : PyType)
    (args : list PyType) (context_type_args : TypeArgs)
    (base : string) (names : list string) :
  get_type_name fuel origin None = Ok base ->
  Forall2 (fun arg arg_name =>
             get_type_name fuel arg context_type_args = Ok arg_name)
          args names ->
  get_type_name_for_generic fuel (TAlias origin args) context_type_args
  = Ok (base ++ "Of" ++ join "And" names).
Proof.
  intros Horigin Hargs.
  unfold get_type_name_for_generic, get_type_name_for_generic_with. simpl.
  rewrite (rmap_Forall2 _ _ _ Hargs). simpl. now rewrite Horigin.
Qed.



(** [Box[Item]] and [Box[Other]], resolved one after the other in a fresh
    handler, are registered as BoxOfItem and BoxOfOther, and both are in the
    components at the end. *)
Lemma generic_instances_coexist :
  exists self',
    (r1 <- get_schema_by_type App.host 4
             (OfType (TAlias App.Box [App.Item])) None ;;
     r2 <- get_schema_by_type App.host 4
             (OfType (TAlias App.Box [App.Other])) None ;;
     ret (r1, r2)) App.self0
    = Ok ((IsRef {| ref := "#/components/schemas/BoxOfItem" |},
           IsRef {| ref := "#/components/schemas/BoxOfOther" |}), self')
    /\ dict_keys (schemas_of self')
       = ["Item"; "BoxOfItem"; "Other"; "BoxOfOther"].
Proof.
  eexists. split; [vm_compute; reflexivity|reflexivity].
Qed.


(* ================================================================== *)
(** ** Forward references in parametrized generics *)

Section GenericLoop.
Variable rec : TypeOrSchema -> TypeArgs -> M SchemaOrRef.

(** The loop over a concatenation: the second part starts from what the
    first part produced. *)
Lemma _try_get_schema_for_generic_loop_app (object_type : PyType)
    (type_args : dict PyType PyType) (todo1 todo2 : list FieldInfo) :
  forall required properties self,
    _try_get_schema_for_generic_loop rec object_type type_args
      (todo1 ++ todo2)%list required properties self
    = match _try_get_schema_for_generic_loop rec object_type type_args
              todo1 required properties self with
      | Ok (Some (required', properties'), self') =>
          _try_get_schema_for_generic_loop rec object_type type_args
            todo2 required' properties' self'
      | other => other
      end.
Proof.
  induction todo1 as [|field todo1 IH]; intros required properties self.
  - reflexivity.
  - simpl. unfold bind at 1 3, lift.
    destruct (check_union (type field)) as [[is_optional child_type]| |];
      try reflexivity.
    destruct child_type as [child|schema]; [|reflexivity].
    destruct child; try (unfold bind; destruct (rec _ _ self) as [[? ?]| |];
                         [apply IH | reflexivity | reflexivity]).
    reflexivity.
Qed.
End GenericLoop.



(* ================================================================== *)
(** ** Optional types: [nullable] and [required] *)

Lemma _try_get_schema_for_simple_type_nullable (object_type : PyType)
    (schema : Schema) :
  _try_get_schema_for_simple_type object_type = Some schema ->
  nullable schema = None.
Proof.
  destruct object_type as [b| | | | | | |]; try discriminate.
  destruct b; simpl; intros [= <-]; reflexivity.
Qed.

Lemma _try_get_schema_for_enum_nullable (host : Host) (object_type : PyType)
    (schema : Schema) :
  _try_get_schema_for_enum host object_type = Some schema ->
  nullable schema = None.
Proof.
  unfold _try_get_schema_for_enum.
  destruct (issubclass_IntEnum host object_type);
    [|destruct (issubclass_Enum host object_type)];
    intros [= <-]; reflexivity.
Qed.

Lemma _try_get_schema_for_iterable_nullable
    (rec : TypeOrSchema -> TypeArgs -> M SchemaOrRef)
    (object_type : PyType) (context_type_args : TypeArgs)
    (self self' : OpenAPIHandler) (schema : Schema) :
  _try_get_schema_for_iterable rec object_type context_type_args self
  = Ok (Some schema, self') ->
  nullable schema = None.
Proof.
  unfold _try_get_schema_for_iterable.
  destruct (is_bare_iterable object_type).
  - intros [= <- _]. reflexivity.
  - destruct (get_origin object_type) as [origin|]; [|discriminate].
    destruct (negb (is_iterable_origin origin)); [discriminate|].
    unfold bind. destruct (rec _ _ self) as [[items self1]| |];
      try discriminate.
    intros [= <- _]. reflexivity.
Qed.

(** A schema that [_get_schema_by_type] answers is a new object on which
    [nullable] has not been set. *)
Lemma _get_schema_by_type_nullable (host : Host)
    (rec : TypeOrSchema -> TypeArgs -> M SchemaOrRef) (fuel : nat)
    (object_type : TypeOrSchema) (type_args : TypeArgs)
    (self self' : OpenAPIHandler) (schema : Schema) :
  _get_schema_by_type host rec fuel object_type type_args self
  = Ok (IsSchema schema, self') ->
  nullable schema = None.
Proof.
  unfold _get_schema_by_type.
  destruct object_type as [t|]; [|discriminate].
  unfold bind at 1.
  destruct (_get_stored_reference fuel t type_args self)
    as [[[reference|] self1]| |]; try discriminate.
  destruct (_can_handle_class_type self1 t).
  { unfold bind. destruct (_get_schema_for_class host rec fuel t self1)
      as [[? ?]| |]; discriminate. }
  destruct (_try_get_schema_for_simple_type t) as [simple|] eqn:Hsimple.
  { intros [= <- _].
    exact (_try_get_schema_for_simple_type_nullable _ _ Hsimple). }
  unfold bind at 1.
  destruct (_try_get_schema_for_iterable rec t type_args self1)
    as [[[iterable|] self2]| |] eqn:Hiter; try discriminate.
  { intros [= <- _].
    exact (_try_get_schema_for_iterable_nullable _ _ _ _ _ _ Hiter). }
  unfold bind at 1.
  destruct ((if isinstance_GenericAlias t
             then _try_get_schema_for_generic host rec fuel t type_args
             else ret None) self2)
    as [[[reference|] self3]| |]; try discriminate.
  destruct (if isclass t then _try_get_schema_for_enum host t else None)
    as [enum|] eqn:Henum.
  - intros [= <- _]. destruct (isclass t); [|discriminate].
    exact (_try_get_schema_for_enum_nullable _ _ _ Henum).
  - intros [= <- _]. reflexivity.
Qed.

Lemma set_nullable_nullable (schema : Schema) (b : bool) :
  nullable (set_nullable schema b) = Some b.
Proof. destruct schema. reflexivity. Qed.

(** What [get_schema_by_type] leaves in [nullable] when it answers a schema
    for a type: [False] when the type is not an optional, nothing when it
    is; never [True]. *)
Lemma get_schema_by_type_nullable (host : Host) (fuel : nat)
    (t : PyType) (is_optional : bool) (child_type : TypeOrSchema)
    (type_args : TypeArgs) (self self' : OpenAPIHandler) (schema : Schema) :
  check_union (OfType t) = Ok (is_optional, child_type) ->
  get_schema_by_type host (S fuel) (OfType t) type_args self
  = Ok (IsSchema schema, self') ->
  nullable schema = if is_optional then None else Some false.
Proof.
  intros Hunion. rewrite get_schema_by_type_S.
  unfold get_schema_by_type_body. unfold bind at 1.
  destruct (_get_stored_reference fuel t type_args self)
    as [[[reference|] self1]| |]; try discriminate.
  rewrite Hunion. cbn [lift bind]. unfold bind.
  destruct (_get_schema_by_type host (get_schema_by_type host fuel) fuel
              child_type type_args self1)
    as [[[inner|reference] self2]| |] eqn:Hinner; try discriminate.
  destruct is_optional; cbn [negb]; intros [= <- _].
  - exact (_get_schema_by_type_nullable _ _ _ _ _ _ _ _ Hinner).
  - apply set_nullable_nullable.
Qed.

(** C1, the behaviour of the code.  When [get_schema_by_type] answers a
    schema for an optional type [Optional[T]], that schema does not have
    [nullable] set to true: the assignment [schema.nullable = is_optional]
    is guarded by [not is_optional], so [nullable] is left unset. *)
Theorem optional_schema_nullable_unset (host : Host) (fuel : nat)
    (t : PyType) (child_type : TypeOrSchema) (type_args : TypeArgs)
    (self self' : OpenAPIHandler) (schema : Schema) :
  check_union (OfType t) = Ok (true, child_type) ->
  get_schema_by_type host (S fuel) (OfType t) type_args self
  = Ok (IsSchema schema, self') ->
  nullable schema = None.
Proof.
  intros Hunion. rewrite get_schema_by_type_S.
  unfold get_schema_by_type_body. unfold bind at 1.
  destruct (_get_stored_reference fuel t type_args self)
    as [[[reference|] self1]| |]; try discriminate.
  rewrite Hunion. cbn [lift bind]. unfold bind.
  destruct (_get_schema_by_type host (get_schema_by_type host fuel) fuel
              child_type type_args self1)
    as [[[inner|reference] self2]| |] eqn:Hinner; try discriminate.
  cbn [negb]. intros [= <- _].
  exact (_get_schema_by_type_nullable _ _ _ _ _ _ _ _ Hinner).
Qed.

(** [Optional[int]] in a fresh handler resolves to the integer schema with
    [nullable] unset. *)
Lemma optional_schema_nullable_unset_witness :
  check_union (OfType (App.Optional (TBuiltin b_int)))
  = Ok (true, OfType (TBuiltin b_int))
  /\ get_schema_by_type App.host 2 (OfType (App.Optional (TBuiltin b_int)))
       None App.self0
     = Ok (IsSchema (Schema_of_type_format INTEGER INT64), App.self0)
  /\ nullable (Schema_of_type_format INTEGER INT64) = None.
Proof.
  split; [reflexivity|]. split; [reflexivity|].
  apply (optional_schema_nullable_unset App.host 1
           (App.Optional (TBuiltin b_int)) (OfType (TBuiltin b_int)) None
           App.self0 App.self0);
    reflexivity.
Defined.
Lemma _get_schema_for_class_loop_required (host : Host)
    (rec : TypeOrSchema -> TypeArgs -> M SchemaOrRef) (object_type : PyType)
    (todo : list FieldInfo) :
  forall required properties self required' properties' self',
    _get_schema_for_class_loop host rec object_type todo required properties
      self
    = Ok ((required', properties'), self') ->
    required' = (required ++ required_fields todo)%list.
Proof.
  induction todo as [|field todo IH];
    intros required properties self required' properties' self'.
  - intros [= <- _ _]. unfold required_fields. simpl. now rewrite app_nil_r.
  - cbn [_get_schema_for_class_loop]. unfold bind at 1, lift.
    unfold required_fields, is_optional_field. cbn [filter].
    destruct (check_union (type field)) as [[is_optional child_type]| |];
      try discriminate.
    unfold bind at 1.
    match goal with
    | |- context [rec ?c None self] =>
        destruct (rec c None self) as [[schema self1]| |]; try discriminate
    end.
    intros Hloop. apply IH in Hloop. rewrite Hloop.
    destruct is_optional; cbn [negb map].
    + reflexivity.
    + now rewrite <- app_assoc.
Qed.

Lemma or_None_required_of (required : list string)
    (t : option ValueType) (properties : option (list (string * SchemaOrRef))) :
  required_of (mkSchema t None (or_None required) properties None None None)
  = required.
Proof. destruct required; reflexivity. Qed.

(** C1, the part on [required].  When [_get_schema_for_class] answers for a
    record type without an explicit schema, the object schema it has stored
    under the returned reference lists as [required] the names of the
    fields whose declared type is not optional, and only those. *)
Theorem record_required_fields (host : Host)
    (rec : TypeOrSchema -> TypeArgs -> M SchemaOrRef) (fuel : nat)
    (object_type : PyType) (self self' : OpenAPIHandler)
    (reference : Reference) :
  dict_mem (_types_schemas self) object_type = false ->
  _get_schema_for_class host rec fuel object_type self
  = Ok (reference, self') ->
  exists stored_name schema,
    reference = {| ref := "#/components/schemas/" ++ stored_name |}
    /\ dict_get (schemas_of self') stored_name = Some schema
    /\ required_of schema = required_fields (get_fields self object_type)
    /\ forall field,
         In field (get_fields self object_type) ->
         (is_optional_field field = false -> In (name field) (required_of schema))
         /\ (In (name field) (required_of schema) ->
             exists other,
               In other (get_fields self object_type)
               /\ name other = name field
               /\ is_optional_field other = false).
Proof.
  intros Hexplicit. unfold _get_schema_for_class.
  destruct (negb (_can_handle_class_type self object_type)); [discriminate|].
  rewrite Hexplicit. unfold bind at 1.
  destruct (_get_schema_for_class_loop host rec object_type
              (get_fields self object_type) [] [] self)
    as [[[required properties] self1]| |] eqn:Hloop; try discriminate.
  apply _get_schema_for_class_loop_required in Hloop. simpl in Hloop.
  unfold _handle_object_type. unfold bind at 1, lift.
  destruct (get_type_name fuel object_type None) as [type_name| |];
    try discriminate.
  unfold bind at 1.
  destruct (_register_schema_returns
              (mkSchema (Some OBJECT) None (or_None required)
                 (Some properties) None None None) type_name self1)
    as (free & Hfree & Hregister).
  rewrite Hregister. unfold bind, store_reference, ret.
  intros [= <- <-].
  exists free. eexists. split; [reflexivity|]. split.
  { unfold schemas_of. cbn. apply dict_get_set_same. }
  rewrite or_None_required_of. split; [exact Hloop|].
  intros field Hin. rewrite Hloop. unfold required_fields. split.
  - intros Hopt. apply in_map. apply filter_In. split; [exact Hin|].
    now rewrite Hopt.
  - rewrite in_map_iff. intros (other & Hname & Hother).
    apply filter_In in Hother. destruct Hother as [Hother Hopt].
    exists other. split; [exact Hother|]. split; [exact Hname|].
    now apply negb_true_iff.
Qed.

(** [Item] in a fresh handler: [id: int] is required, [note: Optional[str]]
    is not. *)
Lemma Item_required_fields :
  exists self',
    get_schema_by_type App.host 4 (OfType App.Item) None App.self0
    = Ok (IsRef {| ref := "#/components/schemas/Item" |}, self')
    /\ option_map required_of (dict_get (schemas_of self') "Item")
       = Some ["id"].
Proof.
  eexists. split; [vm_compute; reflexivity|reflexivity].
Qed.

(* ================================================================== *)
(** ** What resolution stores in the reference cache *)

Lemma store_reference_lookup (object_type : PyType) (type_name : string)
    (reference : Reference) (self : OpenAPIHandler) :
  dict_get
    (dict_set (dict_set (_objects_references self) object_type reference)
       (TStr type_name) reference)
    object_type
  = Some reference.
Proof.
  destruct (PyType_eq_dec (TStr type_name) object_type) as [<-|Hne].
  - apply dict_get_set_same.
  - rewrite dict_get_set_other by exact Hne. apply dict_get_set_same.
Qed.

(** After [_handle_object_type], the type is in the reference cache. *)
Lemma _handle_object_type_stores (fuel : nat) (object_type : PyType)
    (properties : dict string SchemaOrRef) (required : list string)
    (context_type_args : TypeArgs) (self self' : OpenAPIHandler)
    (reference : Reference) :
  _handle_object_type fuel object_type properties required context_type_args
    self
  = Ok (reference, self') ->
  dict_get (_objects_references self') object_type = Some reference.
Proof.
  unfold _handle_object_type. unfold bind at 1, lift.
  destruct (get_type_name fuel object_type context_type_args)
    as [type_name| |]; try discriminate.
  unfold bind at 1.
  destruct (_register_schema _ type_name self) as [[registered self1]| |];
    try discriminate.
  unfold bind, store_reference, ret. intros [= <- <-].
  apply store_reference_lookup.
Qed.

Lemma _handle_type_having_explicit_schema_stores (fuel : nat)
    (object_type : PyType) (self self' : OpenAPIHandler)
    (reference : Reference) :
  _handle_type_having_explicit_schema fuel object_type self
  = Ok (reference, self') ->
  dict_get (_objects_references self') object_type = Some reference.
Proof.
  unfold _handle_type_having_explicit_schema.
  destruct (dict_get (_types_schemas self) object_type) as [schema|];
    [|discriminate].
  unfold bind at 1, lift.
  destruct (get_type_name fuel object_type (Some [])) as [type_name| |];
    try discriminate.
  unfold bind at 1.
  destruct (_register_schema schema type_name self) as [[registered self1]| |];
    try discriminate.
  unfold bind, store_reference, ret. intros [= <- <-].
  apply store_reference_lookup.
Qed.

Section Stores.
Variable host : Host.
Variable rec : TypeOrSchema -> TypeArgs -> M SchemaOrRef.
Variable fuel : nat.

Lemma _get_schema_for_class_stores (object_type : PyType)
    (self self' : OpenAPIHandler) (reference : Reference) :
  _get_schema_for_class host rec fuel object_type self = Ok (reference, self') ->
  dict_get (_objects_references self') object_type = Some reference.
Proof.
  unfold _get_schema_for_class.
  destruct (negb (_can_handle_class_type self object_type)); [discriminate|].
  destruct (dict_mem (_types_schemas self) object_type).
  - apply _handle_type_having_explicit_schema_stores.
  - unfold bind.
    destruct (_get_schema_for_class_loop host rec object_type _ [] [] self)
      as [[[required properties] self1]| |]; try discriminate.
    apply _handle_object_type_stores.
Qed.

Lemma _try_get_schema_for_generic_stores (object_type : PyType)
    (context_type_args : TypeArgs) (self self' : OpenAPIHandler)
    (reference : Reference) :
  _try_get_schema_for_generic host rec fuel object_type context_type_args self
  = Ok (Some reference, self') ->
  dict_get (_objects_references self') object_type = Some reference.
Proof.
  unfold _try_get_schema_for_generic.
  destruct (get_origin object_type) as [origin|]; [|discriminate].
  destruct (__parameters__ host origin) as [parameters|]; [|discriminate].
  unfold bind at 1.
  destruct (_try_get_schema_for_generic_loop rec object_type _ _ [] [] self)
    as [[[[required properties]|] self1]| |]; try discriminate.
  unfold bind.
  destruct (_handle_object_type fuel object_type properties required
              context_type_args self1) as [[registered self2]| |] eqn:Hhandle;
    try discriminate.
  unfold ret. intros [= <- <-].
  exact (_handle_object_type_stores _ _ _ _ _ _ _ _ Hhandle).
Qed.

(** [_get_stored_reference] never changes the handler. *)
Lemma _get_stored_reference_state (object_type : PyType)
    (type_args : TypeArgs) (self self' : OpenAPIHandler)
    (stored : option Reference) :
  _get_stored_reference fuel object_type type_args self = Ok (stored, self') ->
  self' = self.
Proof.
  unfold _get_stored_reference.
  destruct (dict_get (_objects_references self) object_type).
  - now intros [= _ <-].
  - destruct (truthy_opt type_args); [|now intros [= _ <-]].
    unfold bind, lift.
    destruct (get_type_name fuel object_type type_args); try discriminate.
    unfold ret. now intros [= _ <-].
Qed.

Lemma _get_stored_reference_hit (object_type : PyType)
    (type_args : TypeArgs) (self : OpenAPIHandler) (reference : Reference) :
  dict_get (_objects_references self) object_type = Some reference ->
  _get_stored_reference fuel object_type type_args self
  = Ok (Some reference, self).
Proof. intros Hhit. unfold _get_stored_reference. now rewrite Hhit. Qed.

(** When [_get_schema_by_type] answers a reference, a lookup of the same
    type in the handler it leaves behind answers that reference. *)
Lemma _get_schema_by_type_reference_stored (object_type : TypeOrSchema)
    (type_args : TypeArgs) (self self' : OpenAPIHandler)
    (reference : Reference) :
  _get_schema_by_type host rec fuel object_type type_args self
  = Ok (IsRef reference, self') ->
  exists t,
    object_type = OfType t
    /\ _get_stored_reference fuel t type_args self'
       = Ok (Some reference, self').
Proof.
  unfold _get_schema_by_type.
  destruct object_type as [t|]; [|discriminate].
  intros Hresolved. exists t. split; [reflexivity|]. revert Hresolved.
  unfold bind at 1.
  destruct (_get_stored_reference fuel t type_args self)
    as [[[stored|] self1]| |] eqn:Hstored; try discriminate.
  { pose proof (_get_stored_reference_state _ _ _ _ _ Hstored) as ->.
    unfold ret. now intros [= <- <-]. }
  pose proof (_get_stored_reference_state _ _ _ _ _ Hstored) as ->.
  destruct (_can_handle_class_type self t).
  { unfold bind.
    destruct (_get_schema_for_class host rec fuel t self)
      as [[registered self2]| |] eqn:Hclass; try discriminate.
    unfold ret. intros [= <- <-].
    apply _get_stored_reference_hit.
    exact (_get_schema_for_class_stores _ _ _ _ Hclass). }
  destruct (_try_get_schema_for_simple_type t); [discriminate|].
  unfold bind at 1.
  destruct (_try_get_schema_for_iterable rec t type_args self)
    as [[[iterable|] self2]| |]; try discriminate.
  unfold bind at 1.
  destruct (isinstance_GenericAlias t).
  - destruct (_try_get_schema_for_generic host rec fuel t type_args self2)
      as [[[registered|] self3]| |] eqn:Hgeneric; try discriminate.
    + unfold ret. intros [= <- <-].
      apply _get_stored_reference_hit.
      exact (_try_get_schema_for_generic_stores _ _ _ _ _ Hgeneric).
    + destruct (if isclass t then _try_get_schema_for_enum host t else None);
        discriminate.
  - unfold ret at 1.
    destruct (if isclass t then _try_get_schema_for_enum host t else None);
      discriminate.
Qed.
End Stores.

(* ================================================================== *)
(** ** An invariant principle for the resolver

    [Inv] is a property of the handler that registering a schema and
    warning keep, and that storing a reference keeps unless it is stored
    for a type in [bad]; [ctx_ok] is a property of the generic bindings
    that holds of no bindings and of the bindings of a parametrized
    generic.  If no resolution ends with a reference stored for a type in
    [bad], resolution keeps [Inv]. *)
Section Invariant.
Variable host : Host.
Variable Inv : OpenAPIHandler -> Prop.
Variable bad : PyType -> bool.
Variable ctx_ok : TypeArgs -> Prop.

Hypothesis Inv_components :
  forall self schemas, Inv self -> Inv (set_components_schemas self schemas).
Hypothesis Inv_warn : forall self w, Inv self -> Inv (warn self w).
Hypothesis Inv_store :
  forall self object_type type_name reference,
    Inv self -> bad object_type = false ->
    Inv (set_objects_references self
           (dict_set (dict_set (_objects_references self)
                        object_type reference)
              (TStr type_name) reference)).
Hypothesis ctx_ok_None : ctx_ok None.
Hypothesis ctx_ok_zip :
  forall parameters args, ctx_ok (Some (zip_type_args parameters args)).

Lemma _register_schema_keeps (schema : Schema) (proposed : string)
    (self self' : OpenAPIHandler) (reference : Reference) :
  Inv self ->
  _register_schema schema proposed self = Ok (reference, self') ->
  Inv self'.
Proof.
  intros HI. unfold _register_schema.
  destruct (_register_schema_free_name _ _ _ _ _); [|discriminate].
  intros [= _ <-]. now apply Inv_components.
Qed.

Lemma _handle_object_type_keeps (fuel : nat) (object_type : PyType)
    (properties : dict string SchemaOrRef) (required : list string)
    (context_type_args : TypeArgs) (self self' : OpenAPIHandler)
    (reference : Reference) :
  bad object_type = false -> Inv self ->
  _handle_object_type fuel object_type properties required context_type_args
    self
  = Ok (reference, self') ->
  Inv self'.
Proof.
  intros Hbad HI. unfold _handle_object_type. unfold bind at 1, lift.
  destruct (get_type_name fuel object_type context_type_args)
    as [type_name| |]; try discriminate.
  unfold bind at 1.
  destruct (_register_schema _ type_name self) as [[registered self1]| |]
    eqn:Hregister; try discriminate.
  apply (_register_schema_keeps _ _ _ _ _ HI) in Hregister.
  unfold bind, store_reference, ret. intros [= _ <-].
  now apply Inv_store.
Qed.

Lemma _handle_type_having_explicit_schema_keeps (fuel : nat)
    (object_type : PyType) (self self' : OpenAPIHandler)
    (reference : Reference) :
  bad object_type = false -> Inv self ->
  _handle_type_having_explicit_schema fuel object_type self
  = Ok (reference, self') ->
  Inv self'.
Proof.
  intros Hbad HI. unfold _handle_type_having_explicit_schema.
  destruct (dict_get (_types_schemas self) object_type) as [schema|];
    [|discriminate].
  unfold bind at 1, lift.
  destruct (get_type_name fuel object_type (Some [])) as [type_name| |];
    try discriminate.
  unfold bind at 1.
  destruct (_register_schema schema type_name self) as [[registered self1]| |]
    eqn:Hregister; try discriminate.
  apply (_register_schema_keeps _ _ _ _ _ HI) in Hregister.
  unfold bind, store_reference, ret. intros [= _ <-].
  now apply Inv_store.
Qed.

Variable rec : TypeOrSchema -> TypeArgs -> M SchemaOrRef.
Variable fuel : nat.

Hypothesis rec_keeps :
  forall object_type type_args self result self',
    ctx_ok type_args -> Inv self ->
    rec object_type type_args self = Ok (result, self') -> Inv self'.
Hypothesis bad_class :
  forall object_type type_args self reference self',
    bad object_type = true -> Inv self ->
    _get_stored_reference fuel object_type type_args self = Ok (None, self) ->
    _get_schema_for_class host rec fuel object_type self
    <> Ok (reference, self').
Hypothesis bad_generic :
  forall object_type type_args self self2 reference self',
    bad object_type = true -> ctx_ok type_args -> Inv self -> Inv self2 ->
    _get_stored_reference fuel object_type type_args self = Ok (None, self) ->
    _try_get_schema_for_generic host rec fuel object_type type_args self2
    <> Ok (Some reference, self').

Lemma _get_schema_for_class_loop_keeps (object_type : PyType)
    (todo : list FieldInfo) :
  forall required properties self result self',
    Inv self ->
    _get_schema_for_class_loop host rec object_type todo required properties
      self
    = Ok (result, self') ->
    Inv self'.
Proof.
  induction todo as [|field todo IH];
    intros required properties self result self' HI.
  - now intros [= _ <-].
  - cbn [_get_schema_for_class_loop]. unfold bind at 1, lift.
    destruct (check_union (type field)) as [[is_optional child_type]| |];
      try discriminate.
    unfold bind at 1.
    match goal with
    | |- context [rec ?c None self] =>
        destruct (rec c None self) as [[schema self1]| |] eqn:Hrec;
        try discriminate
    end.
    apply (rec_keeps _ _ _ _ _ ctx_ok_None HI) in Hrec.
    now apply IH.
Qed.

Lemma _try_get_schema_for_generic_loop_keeps (object_type : PyType)
    (type_args : dict PyType PyType) (todo : list FieldInfo) :
  ctx_ok (Some type_args) ->
  forall required properties self result self',
    Inv self ->
    _try_get_schema_for_generic_loop rec object_type type_args todo required
      properties self
    = Ok (result, self') ->
    Inv self'.
Proof.
  intros Hctx.
  induction todo as [|field todo IH];
    intros required properties self result self' HI.
  - now intros [= _ <-].
  - cbn [_try_get_schema_for_generic_loop]. unfold bind at 1, lift.
    destruct (check_union (type field)) as [[is_optional child_type]| |];
      try discriminate.
    destruct child_type as [child|schema]; [|discriminate].
    assert (forall c,
               (schema <- rec (OfType c) (Some type_args) ;;
                _try_get_schema_for_generic_loop rec object_type type_args
                  todo
                  (if negb is_optional
                   then (required ++ [name field])%list else required)
                  (dict_set properties (name field) schema)) self
               = Ok (result, self') -> Inv self') as Hstep.
    { intros c. unfold bind.
      destruct (rec (OfType c) (Some type_args) self) as [[schema self1]| |]
        eqn:Hrec; try discriminate.
      apply (rec_keeps _ _ _ _ _ Hctx HI) in Hrec. now apply IH. }
    destruct child; try apply Hstep.
    intros [= _ <-]. now apply Inv_warn.
Qed.

Lemma _get_schema_for_class_keeps (object_type : PyType)
    (self self' : OpenAPIHandler) (reference : Reference) :
  bad object_type = false -> Inv self ->
  _get_schema_for_class host rec fuel object_type self = Ok (reference, self') ->
  Inv self'.
Proof.
  intros Hbad HI. unfold _get_schema_for_class.
  destruct (negb (_can_handle_class_type self object_type)); [discriminate|].
  destruct (dict_mem (_types_schemas self) object_type).
  - now apply _handle_type_having_explicit_schema_keeps.
  - unfold bind.
    destruct (_get_schema_for_class_loop host rec object_type _ [] [] self)
      as [[[required properties] self1]| |] eqn:Hloop; try discriminate.
    apply (_get_schema_for_class_loop_keeps _ _ _ _ _ _ _ HI) in Hloop.
    now apply _handle_object_type_keeps.
Qed.

Lemma _try_get_schema_for_iterable_keeps (object_type : PyType)
    (type_args : TypeArgs) (self self' : OpenAPIHandler)
    (result : option Schema) :
  ctx_ok type_args -> Inv self ->
  _try_get_schema_for_iterable rec object_type type_args self
  = Ok (result, self') ->
  Inv self'.
Proof.
  intros Hctx HI. unfold _try_get_schema_for_iterable.
  destruct (is_bare_iterable object_type); [now intros [= _ <-]|].
  destruct (get_origin object_type) as [origin|]; [|now intros [= _ <-]].
  destruct (negb (is_iterable_origin origin)); [now intros [= _ <-]|].
  unfold bind.
  match goal with
  | |- context [rec ?c type_args self] =>
      destruct (rec c type_args self) as [[items self1]| |] eqn:Hrec;
      try discriminate
  end.
  apply (rec_keeps _ _ _ _ _ Hctx HI) in Hrec.
  unfold ret. now intros [= _ <-].
Qed.

Lemma _try_get_schema_for_generic_keeps (object_type : PyType)
    (type_args : TypeArgs) (self self' : OpenAPIHandler)
    (result : option Reference) :
  (result <> None -> bad object_type = false) ->
  Inv self ->
  _try_get_schema_for_generic host rec fuel object_type type_args self
  = Ok (result, self') ->
  Inv self'.
Proof.
  intros Hbad HI. unfold _try_get_schema_for_generic.
  destruct (get_origin object_type) as [origin|]; [|discriminate].
  destruct (__parameters__ host origin) as [parameters|]; [|discriminate].
  unfold bind at 1.
  destruct (_try_get_schema_for_generic_loop rec object_type _ _ [] [] self)
    as [[[[required properties]|] self1]| |] eqn:Hloop; try discriminate.
  all: apply (_try_get_schema_for_generic_loop_keeps _ _ _
                (ctx_ok_zip _ _) _ _ _ _ _ HI) in Hloop.
  - unfold bind.
    destruct (_handle_object_type fuel object_type properties required
                type_args self1) as [[registered self2]| |] eqn:Hhandle;
      try discriminate.
    unfold ret. intros [= <- <-].
    apply (_handle_object_type_keeps _ _ _ _ _ _ _ _
             (Hbad ltac:(discriminate)) Hloop Hhandle).
  - unfold ret. now intros [= _ <-].
Qed.

Lemma _get_schema_by_type_keeps (object_type : TypeOrSchema)
    (type_args : TypeArgs) (self self' : OpenAPIHandler)
    (result : SchemaOrRef) :
  ctx_ok type_args -> Inv self ->
  _get_schema_by_type host rec fuel object_type type_args self
  = Ok (result, self') ->
  Inv self'.
Proof.
  intros Hctx HI. unfold _get_schema_by_type.
  destruct object_type as [t|]; [|discriminate].
  unfold bind at 1.
  destruct (_get_stored_reference fuel t type_args self)
    as [[stored self1]| |] eqn:Hstored; try discriminate.
  pose proof (_get_stored_reference_state _ _ _ _ _ _ Hstored) as ->.
  destruct stored as [stored|]; [unfold ret; now intros [= _ <-]|].
  destruct (_can_handle_class_type self t).
  { unfold bind.
    destruct (_get_schema_for_class host rec fuel t self)
      as [[registered self2]| |] eqn:Hclass; try discriminate.
    unfold ret. intros [= _ <-].
    destruct (bad t) eqn:Hbad.
    - exfalso. exact (bad_class _ _ _ _ _ Hbad HI Hstored Hclass).
    - exact (_get_schema_for_class_keeps _ _ _ _ Hbad HI Hclass). }
  destruct (_try_get_schema_for_simple_type t); [now intros [= _ <-]|].
  unfold bind at 1.
  destruct (_try_get_schema_for_iterable rec t type_args self)
    as [[iterable self2]| |] eqn:Hiter; try discriminate.
  apply (_try_get_schema_for_iterable_keeps _ _ _ _ _ Hctx HI) in Hiter.
  destruct iterable as [iterable|]; [unfold ret; now intros [= _ <-]|].
  unfold bind at 1.
  destruct ((if isinstance_GenericAlias t
             then _try_get_schema_for_generic host rec fuel t type_args
             else ret None) self2) as [[generic self3]| |] eqn:Hgeneric;
    try discriminate.
  assert (Inv self3) as HI3.
  { destruct (isinstance_GenericAlias t).
    - refine (_try_get_schema_for_generic_keeps _ _ _ _ _ _ Hiter Hgeneric).
      destruct generic as [generic|]; [intros _|congruence].
      destruct (bad t) eqn:Hbad; [exfalso|reflexivity].
      exact (bad_generic _ _ _ _ _ _ Hbad Hctx HI Hiter Hstored Hgeneric).
    - unfold ret in Hgeneric. now injection Hgeneric as _ <-. }
  destruct generic as [generic|]; [unfold ret; now intros [= _ <-]|].
  destruct (if isclass t then _try_get_schema_for_enum host t else None);
    unfold ret; now intros [= _ <-].
Qed.

(** The body of [get_schema_by_type] keeps the invariant when the
    recursive calls do. *)
Lemma get_schema_by_type_body_keeps (object_type : TypeOrSchema)
    (type_args : TypeArgs) (self self' : OpenAPIHandler)
    (result : SchemaOrRef) :
  ctx_ok type_args -> Inv self ->
  get_schema_by_type_body host rec fuel object_type type_args self
  = Ok (result, self') ->
  Inv self'.
Proof.
  intros Hctx HI. unfold get_schema_by_type_body.
  destruct object_type as [t|schema]; [|unfold ret; now intros [= _ <-]].
  unfold bind at 1.
  destruct (_get_stored_reference fuel t type_args self)
    as [[stored self1]| |] eqn:Hstored; try discriminate.
  apply _get_stored_reference_state in Hstored. subst self1.
  destruct stored as [stored|]; [unfold ret; now intros [= _ <-]|].
  unfold bind at 1, lift.
  destruct (check_union (OfType t)) as [[is_optional child_type]| |];
    try discriminate.
  unfold bind.
  destruct (_get_schema_by_type host rec fuel child_type type_args self)
    as [[schema self2]| |] eqn:Hinner; try discriminate.
  apply (_get_schema_by_type_keeps _ _ _ _ _ Hctx HI) in Hinner.
  destruct schema; [destruct (negb is_optional)|];
    unfold ret; now intros [= _ <-].
Qed.
End Invariant.

(* ================================================================== *)
(** ** Resolution never changes the configuration of the handler *)

Theorem get_schema_by_type_configuration (host : Host) (fuel : nat) :
  forall object_type type_args self result self',
    get_schema_by_type host fuel object_type type_args self
    = Ok (result, self') ->
    same_configuration self self'.
Proof.
  assert (forall self0 object_type type_args self result self',
             same_configuration self0 self ->
             get_schema_by_type host fuel object_type type_args self
             = Ok (result, self') ->
             same_configuration self0 self') as Hkeeps.
  { intros self0. induction fuel as [|fuel IH];
      intros object_type type_args self result self' HI; [discriminate|].
    rewrite get_schema_by_type_S.
    apply (get_schema_by_type_body_keeps host (same_configuration self0)
             (fun _ => false) (fun _ => True)); try assumption;
      try exact I; try discriminate; try (intros; exact I).
    - intros s schemas Hs. exact Hs.
    - intros s w Hs. exact Hs.
    - intros s t n r Hs _. exact Hs.
    - intros t a s r s' _ Hs Hrec. exact (IH _ _ _ _ _ Hs Hrec). }
  intros object_type type_args self result self'.
  apply Hkeeps. unfold same_configuration. tauto.
Qed.

(** ** Union aliases are never stored in the reference cache *)

(** No name can be obtained for a union alias: [typing.Union] has none. *)
Lemma get_type_name_union (fuel : nat) (args : list PyType)
    (context_type_args : TypeArgs) (type_name : string) :
  bindings_without_union context_type_args ->
  get_type_name fuel (TUnion args) context_type_args <> Ok type_name.
Proof.
  intros Hctx. destruct fuel as [|fuel]; [discriminate|].
  cbn [get_type_name].
  assert (bound_type context_type_args (TUnion args) = TUnion args) as ->.
  { unfold bound_type. destruct context_type_args as [ctx|]; [|reflexivity].
    now rewrite (Hctx args). }
  cbn [__name__ isinstance_GenericAlias].
  unfold get_type_name_for_generic_with.
  cbn [isinstance_GenericAlias negb get_origin __args__].
  destruct (rmap _ args) as [names| |]; try discriminate.
  cbn [rbind]. destruct fuel as [|fuel]; discriminate.
Qed.

Lemma dict_update_get_absent {K V : Type} `{EqDec K} (l : list (K * V))
    (k : K) :
  ~ In k (map fst l) ->
  forall d, dict_get d k = None -> dict_get (dict_update d l) k = None.
Proof.
  unfold dict_update.
  induction l as [|[k' v'] l IH]; intros Hnot d Hd; simpl.
  - exact Hd.
  - apply IH.
    + intros Hin. apply Hnot. now right.
    + rewrite dict_get_set_other; [exact Hd|].
      intros E. apply Hnot. now left.
Qed.

Lemma zip_type_args_without_union (parameters : list string)
    (args : list PyType) :
  bindings_without_union (Some (zip_type_args parameters args)).
Proof.
  intros union_args. unfold zip_type_args, dict_of_list.
  apply dict_update_get_absent; [|reflexivity].
  intros Hin. apply in_map_iff in Hin. destruct Hin as ([k v] & E & Hin).
  apply in_combine_l in Hin. apply in_map_iff in Hin.
  destruct Hin as (p & Hp & _). simpl in E. congruence.
Qed.

Theorem get_schema_by_type_no_union_key (host : Host) (fuel : nat) :
  forall object_type type_args self result self',
    bindings_without_union type_args ->
    no_union_key (_objects_references self) ->
    get_schema_by_type host fuel object_type type_args self
    = Ok (result, self') ->
    no_union_key (_objects_references self').
Proof.
  induction fuel as [|fuel IH];
    intros object_type type_args self result self' Hctx HI; [discriminate|].
  rewrite get_schema_by_type_S.
  apply (get_schema_by_type_body_keeps host
           (fun s => no_union_key (_objects_references s))
           is_union bindings_without_union); try assumption.
  - intros s schemas Hs. exact Hs.
  - intros s w Hs. exact Hs.
  - intros s t n r Hs Ht union_args. cbn.
    rewrite !dict_get_set_other; [apply Hs| |]; intros E;
      try discriminate E; subst t; discriminate Ht.
  - exact I.
  - apply zip_type_args_without_union.
  - intros t a s r s' Ht _ _. destruct t; try discriminate.
    unfold _get_schema_for_class.
    destruct (negb (_can_handle_class_type s (TUnion args))); [discriminate|].
    destruct (dict_mem (_types_schemas s) (TUnion args)).
    + unfold _handle_type_having_explicit_schema.
      destruct (dict_get (_types_schemas s) (TUnion args)); [|discriminate].
      unfold bind at 1, lift.
      destruct (get_type_name fuel (TUnion args) (Some [])) eqn:Hname;
        try discriminate.
      exfalso. revert Hname. apply get_type_name_union.
      intros union_args. reflexivity.
    + unfold bind at 1.
      destruct (_get_schema_for_class_loop host _ _ _ [] [] s)
        as [[[required properties] s1]| |]; try discriminate.
      unfold _handle_object_type, bind at 1, lift.
      destruct (get_type_name fuel (TUnion args) None) eqn:Hname;
        try discriminate.
      exfalso. revert Hname. now apply get_type_name_union.
  - intros t a s0 s r s' Ht Ha _ _ _. destruct t; try discriminate.
    unfold _try_get_schema_for_generic. cbn [get_origin].
    destruct (__parameters__ host TUnionForm); [|discriminate].
    unfold bind at 1.
    destruct (_try_get_schema_for_generic_loop _ _ _ _ [] [] s)
      as [[[[required properties]|] s1]| |]; try discriminate.
    unfold _handle_object_type, bind at 1 2, lift.
    destruct (get_type_name fuel (TUnion args) a) eqn:Hname;
      try discriminate.
    exfalso. revert Hname. now apply get_type_name_union.
Qed.

(* ================================================================== *)
Lemma check_union_child (t : PyType) (is_optional : bool)
    (child_type : TypeOrSchema) :
  check_union (OfType t) = Ok (is_optional, child_type) ->
  child_type = OfType t \/ is_union t = true.
Proof.
  destruct t; try (intros [= _ <-]; now left). intros _. now right.
Qed.

(** ** Reuse of registered references *)

(** A reference cached for a type stays cached for it through any later
    resolution: a type is stored only after a lookup for it has missed. *)
Theorem cached_reference_persists (host : Host) (t : PyType)
    (reference : Reference) (fuel : nat) :
  isinstance_str t = false ->
  forall object_type type_args self result self',
    dict_get (_objects_references self) t = Some reference ->
    get_schema_by_type host fuel object_type type_args self
    = Ok (result, self') ->
    dict_get (_objects_references self') t = Some reference.
Proof.
  intros Hstr.
  induction fuel as [|fuel IH];
    intros object_type type_args self result self' Hcached; [discriminate|].
  rewrite get_schema_by_type_S.
  apply (get_schema_by_type_body_keeps host
           (fun s => dict_get (_objects_references s) t = Some reference)
           (is_type t) (fun _ => True)); try assumption; try exact I;
    try (intros; exact I).
  - intros s schemas Hs. exact Hs.
  - intros s w Hs. exact Hs.
  - intros s t0 n r Hs Ht0. cbn.
    rewrite !dict_get_set_other; [exact Hs| |]; intros E.
    + subst t0. unfold is_type in Ht0.
      destruct (PyType_eq_dec t t); [discriminate|contradiction].
    + subst t. discriminate.
  - intros t0 a s r s' _ Hs Hrec. exact (IH _ _ _ _ _ Hs Hrec).
  - intros t0 a s r s' Ht0 Hs Hmiss. exfalso.
    unfold is_type in Ht0. destruct (PyType_eq_dec t0 t); [subst|discriminate].
    rewrite (_get_stored_reference_hit fuel t a s reference Hs) in Hmiss.
    discriminate.
  - intros t0 a s s2 r s' Ht0 _ Hs _ Hmiss. exfalso.
    unfold is_type in Ht0. destruct (PyType_eq_dec t0 t); [subst|discriminate].
    rewrite (_get_stored_reference_hit fuel t a s reference Hs) in Hmiss.
    discriminate.
Qed.

(** ** Resolving again registers nothing *)

Lemma dict_mem_set_kept {K V : Type} `{EqDec K} (d : dict K V) (k k' : K)
    (v : V) :
  dict_mem d k' = true -> dict_mem (dict_set d k v) k' = true.
Proof.
  intros Hk'. destruct (eq_dec k k') as [<-|Hne].
  - apply dict_mem_set_same.
  - now rewrite dict_mem_set_other.
Qed.

Lemma keys_kept_refl (self : OpenAPIHandler) : keys_kept self self.
Proof. intros k Hk. exact Hk. Qed.

Lemma keys_kept_trans (s1 s2 s3 : OpenAPIHandler) :
  keys_kept s1 s2 -> keys_kept s2 s3 -> keys_kept s1 s3.
Proof. intros H12 H23 k Hk. apply H23, H12, Hk. Qed.

(** Resolution only adds keys to the reference cache. *)
Theorem get_schema_by_type_keys_kept (host : Host) (fuel : nat) :
  forall object_type type_args self result self',
    get_schema_by_type host fuel object_type type_args self
    = Ok (result, self') ->
    keys_kept self self'.
Proof.
  assert (forall self0 object_type type_args self result self',
             keys_kept self0 self ->
             get_schema_by_type host fuel object_type type_args self
             = Ok (result, self') ->
             keys_kept self0 self') as Hkeeps.
  { intros self0. induction fuel as [|fuel IH];
      intros object_type type_args self result self' HI; [discriminate|].
    rewrite get_schema_by_type_S.
    apply (get_schema_by_type_body_keeps host (keys_kept self0)
             (fun _ => false) (fun _ => True)); try assumption;
      try exact I; try discriminate; try (intros; exact I).
    - intros s schemas Hs. exact Hs.
    - intros s w Hs. exact Hs.
    - intros s t n r Hs _ k Hk. cbn.
      apply dict_mem_set_kept, dict_mem_set_kept, Hs, Hk.
    - intros t a s r s' _ Hs Hrec. exact (IH _ _ _ _ _ Hs Hrec). }
  intros object_type type_args self result self'.
  apply Hkeeps, keys_kept_refl.
Qed.
Lemma same_registry_refl (self : OpenAPIHandler) : same_registry self self.
Proof. unfold same_registry, same_configuration. tauto. Qed.

Lemma same_registry_warn (self : OpenAPIHandler) (w : Warning) :
  same_registry self (warn self w).
Proof. unfold same_registry, same_configuration. cbn. tauto. Qed.

Lemma same_registry_trans (s1 s2 s3 : OpenAPIHandler) :
  same_registry s1 s2 -> same_registry s2 s3 -> same_registry s1 s3.
Proof.
  unfold same_registry, same_configuration.
  intros (Hc & Hr & Ht & Hh & Hcr & Hf) (Hc' & Hr' & Ht' & Hh' & Hcr' & Hf').
  repeat split; congruence.
Qed.

Lemma same_registry_keys_kept (s0 s s' : OpenAPIHandler) :
  keys_kept s0 s -> same_registry s s' -> keys_kept s0 s'.
Proof.
  intros Hkept (_ & Hrefs & _) k Hk. rewrite Hrefs. now apply Hkept.
Qed.

Lemma same_configuration_trans (s1 s2 s3 : OpenAPIHandler) :
  same_configuration s1 s2 -> same_configuration s2 s3 ->
  same_configuration s1 s3.
Proof.
  unfold same_configuration.
  intros (Ht & Hh & Hcr & Hf) (Ht' & Hh' & Hcr' & Hf').
  repeat split; congruence.
Qed.

Lemma same_configuration_sym (s1 s2 : OpenAPIHandler) :
  same_configuration s1 s2 -> same_configuration s2 s1.
Proof.
  unfold same_configuration. intros (Ht & Hh & Hcr & Hf).
  repeat split; congruence.
Qed.

(** A lookup that answered in [self] answers in a handler that has kept the
    keys of [self], and finds a reference there if it found one before. *)
Lemma _get_stored_reference_again (fuel : nat) (object_type : PyType)
    (type_args : TypeArgs) (self self1 self' : OpenAPIHandler)
    (stored : option Reference) :
  _get_stored_reference fuel object_type type_args self = Ok (stored, self1) ->
  keys_kept self self' ->
  exists stored',
    _get_stored_reference fuel object_type type_args self'
    = Ok (stored', self')
    /\ (stored <> None -> stored' <> None).
Proof.
  unfold _get_stored_reference. intros Hfirst Hkept.
  destruct (dict_get (_objects_references self') object_type) as [r'|]
    eqn:Hobject'.
  { exists (Some r'). split; [reflexivity|discriminate]. }
  destruct (dict_get (_objects_references self) object_type) as [r|]
    eqn:Hobject.
  { exfalso. specialize (Hkept object_type). unfold dict_mem in Hkept.
    rewrite Hobject, Hobject' in Hkept. discriminate (Hkept eq_refl). }
  destruct (truthy_opt type_args).
  - revert Hfirst. unfold bind, lift.
    destruct (get_type_name fuel object_type type_args) as [type_name| |];
      try discriminate.
    unfold ret. intros [= <- _]. eexists. split; [reflexivity|].
    specialize (Hkept (TStr type_name)). unfold dict_mem in Hkept.
    destruct (dict_get (_objects_references self) (TStr type_name));
      [|congruence].
    intros _.
    destruct (dict_get (_objects_references self') (TStr type_name));
      [discriminate|discriminate (Hkept eq_refl)].
  - injection Hfirst as <- _. exists None. split; [reflexivity|congruence].
Qed.

Section Again.
Variable host : Host.
Variable fuel : nat.

(** The recursive calls only add keys, keep the configuration, and can be
    repeated without registering anything. *)
Hypothesis rec_again :
  forall object_type type_args self result self1,
    get_schema_by_type host fuel object_type type_args self
    = Ok (result, self1) ->
    forall self',
      keys_kept self1 self' -> same_configuration self self' ->
      exists result' self'',
        get_schema_by_type host fuel object_type type_args self'
        = Ok (result', self'')
        /\ same_registry self' self''.

Lemma _try_get_schema_for_generic_loop_keys_kept (object_type : PyType)
    (type_args : dict PyType PyType) (todo : list FieldInfo)
    (required : list string) (properties : dict string SchemaOrRef)
    (self self1 : OpenAPIHandler)
    (looped : option (list string * dict string SchemaOrRef)) :
  _try_get_schema_for_generic_loop (get_schema_by_type host fuel) object_type
    type_args todo required properties self
  = Ok (looped, self1) ->
  keys_kept self self1.
Proof.
  apply (_try_get_schema_for_generic_loop_keeps (keys_kept self)
           (fun _ => True)).
  - intros s w Hs. exact Hs.
  - intros t a s r s' _ Hs Hrec.
    exact (keys_kept_trans _ _ _ Hs
             (get_schema_by_type_keys_kept host fuel _ _ _ _ _ Hrec)).
  - exact I.
  - apply keys_kept_refl.
Qed.

(** A loop over the fields of a generic that stopped at a bare name stops
    at it again, having registered nothing. *)
Lemma _try_get_schema_for_generic_loop_again (object_type : PyType)
    (type_args : dict PyType PyType) (todo : list FieldInfo) :
  forall required properties self self1,
    _try_get_schema_for_generic_loop (get_schema_by_type host fuel)
      object_type type_args todo required properties self
    = Ok (None, self1) ->
    forall self' required' properties',
      keys_kept self1 self' -> same_configuration self self' ->
      exists self'',
        _try_get_schema_for_generic_loop (get_schema_by_type host fuel)
          object_type type_args todo required' properties' self'
        = Ok (None, self'')
        /\ same_registry self' self''.
Proof.
  induction todo as [|field todo IH];
    intros required properties self self1; [discriminate|].
  cbn [_try_get_schema_for_generic_loop]. unfold bind at 1 3, lift.
  destruct (check_union (type field)) as [[is_optional child_type]| |];
    try discriminate.
  destruct child_type as [child|schema]; [|discriminate].
  assert (forall c,
      (schema <- get_schema_by_type host fuel (OfType c) (Some type_args) ;;
       _try_get_schema_for_generic_loop (get_schema_by_type host fuel)
         object_type type_args todo
         (if negb is_optional
          then (required ++ [name field])%list else required)
         (dict_set properties (name field) schema)) self
      = Ok (None, self1) ->
      forall self' required' properties',
        keys_kept self1 self' -> same_configuration self self' ->
        exists self'',
          (schema <-
             get_schema_by_type host fuel (OfType c) (Some type_args) ;;
           _try_get_schema_for_generic_loop (get_schema_by_type host fuel)
             object_type type_args todo
             (if negb is_optional
              then (required' ++ [name field])%list else required')
             (dict_set properties' (name field) schema)) self'
          = Ok (None, self'')
          /\ same_registry self' self'') as Hstep.
  { intros c. unfold bind.
    destruct (get_schema_by_type host fuel (OfType c) (Some type_args) self)
      as [[schema self2]| |] eqn:Hrec; try discriminate.
    intros Hrest self' required' properties' Hkept Hconf.
    pose proof (_try_get_schema_for_generic_loop_keys_kept _ _ _ _ _ _ _ _
                  Hrest) as Hkept2.
    destruct (rec_again _ _ _ _ _ Hrec self'
                (keys_kept_trans _ _ _ Hkept2 Hkept) Hconf)
      as (schema' & self2' & -> & Hsame).
    destruct (IH _ _ _ _ Hrest self2'
                (if negb is_optional
                 then (required' ++ [name field])%list else required')
                (dict_set properties' (name field) schema')
                (same_registry_keys_kept _ _ _ Hkept Hsame))
      as (self'' & Hloop & Hsame').
    - apply (same_configuration_trans _ self).
      + apply same_configuration_sym.
        exact (get_schema_by_type_configuration host fuel _ _ _ _ _ Hrec).
      + apply (same_configuration_trans _ self'); [exact Hconf|].
        exact (proj2 (proj2 Hsame)).
    - exists self''. split; [exact Hloop|].
      exact (same_registry_trans _ _ _ Hsame Hsame'). }
  destruct child; try apply Hstep.
  intros [= <-] self' required' properties' _ _.
  eexists. split; [reflexivity|apply same_registry_warn].
Qed.

Lemma _try_get_schema_for_iterable_again (object_type : PyType)
    (type_args : TypeArgs) (self self1 : OpenAPIHandler)
    (iterable : option Schema) :
  _try_get_schema_for_iterable (get_schema_by_type host fuel) object_type
    type_args self
  = Ok (iterable, self1) ->
  forall self',
    (iterable <> None -> keys_kept self1 self') ->
    same_configuration self self' ->
    match iterable with
    | None =>
        self1 = self
        /\ _try_get_schema_for_iterable (get_schema_by_type host fuel)
             object_type type_args self'
           = Ok (None, self')
    | Some _ =>
        exists schema' self'',
          _try_get_schema_for_iterable (get_schema_by_type host fuel)
            object_type type_args self'
          = Ok (Some schema', self'')
          /\ same_registry self' self''
    end.
Proof.
  unfold _try_get_schema_for_iterable.
  destruct (is_bare_iterable object_type).
  { unfold ret. intros [= <- <-] self' _ _.
    eexists. exists self'. split; [reflexivity|apply same_registry_refl]. }
  destruct (get_origin object_type) as [origin|].
  2:{ unfold ret. intros [= <- <-] self' _ _. now split. }
  destruct (negb (is_iterable_origin origin)).
  { unfold ret. intros [= <- <-] self' _ _. now split. }
  unfold bind.
  match goal with
  | |- context [get_schema_by_type host fuel ?c type_args self] =>
      destruct (get_schema_by_type host fuel c type_args self)
        as [[items self2]| |] eqn:Hrec; try discriminate
  end.
  unfold ret. intros [= <- <-] self' Hkept Hconf.
  assert (keys_kept self2 self') as Hkept' by now apply Hkept.
  destruct (rec_again _ _ _ _ _ Hrec self' Hkept' Hconf)
    as (items' & self'' & -> & Hsame).
  eexists. exists self''. split; [reflexivity|exact Hsame].
Qed.

Lemma _get_stored_reference_miss (object_type : PyType)
    (type_args : TypeArgs) (self self1 : OpenAPIHandler) :
  _get_stored_reference fuel object_type type_args self = Ok (None, self1) ->
  dict_get (_objects_references self) object_type = None.
Proof.
  unfold _get_stored_reference.
  destruct (dict_get (_objects_references self) object_type);
    [discriminate|reflexivity].
Qed.

Lemma _can_handle_class_type_configuration (self self' : OpenAPIHandler)
    (object_type : PyType) :
  same_configuration self self' ->
  _can_handle_class_type self' object_type
  = _can_handle_class_type self object_type.
Proof.
  intros (Htypes & Hhandlers & _). unfold _can_handle_class_type.
  now rewrite Htypes, Hhandlers.
Qed.

Lemma get_fields_configuration (self self' : OpenAPIHandler)
    (object_type : PyType) :
  same_configuration self self' ->
  get_fields self' object_type = get_fields self object_type.
Proof.
  intros (_ & Hhandlers & _). unfold get_fields. now rewrite Hhandlers.
Qed.

(** A type that is a key of the cache of [self] is not missed by a lookup
    in a handler that kept the keys of [self]. *)
Lemma kept_key_not_missed (object_type : PyType) (type_args : TypeArgs)
    (self self' self1 : OpenAPIHandler) (reference : Reference) :
  dict_get (_objects_references self) object_type = Some reference ->
  keys_kept self self' ->
  _get_stored_reference fuel object_type type_args self' = Ok (None, self1) ->
  False.
Proof.
  intros Hstored Hkept Hmiss. apply _get_stored_reference_miss in Hmiss.
  specialize (Hkept object_type). unfold dict_mem in Hkept.
  rewrite Hstored, Hmiss in Hkept. discriminate (Hkept eq_refl).
Qed.

Lemma _get_schema_by_type_again (object_type : TypeOrSchema)
    (type_args : TypeArgs) (self self1 : OpenAPIHandler)
    (resolved : SchemaOrRef) :
  _get_schema_by_type host (get_schema_by_type host fuel) fuel object_type
    type_args self
  = Ok (resolved, self1) ->
  forall self',
    keys_kept self self' -> keys_kept self1 self' ->
    same_configuration self self' ->
    exists resolved' self'',
      _get_schema_by_type host (get_schema_by_type host fuel) fuel
        object_type type_args self'
      = Ok (resolved', self'')
      /\ same_registry self' self''.
Proof.
  unfold _get_schema_by_type.
  destruct object_type as [t|]; [|discriminate].
  intros Hfirst self' Hkept0 Hkept Hconf.
  unfold bind at 1 in Hfirst. unfold bind at 1.
  destruct (_get_stored_reference fuel t type_args self)
    as [[stored self2]| |] eqn:Hstored; try discriminate.
  pose proof (_get_stored_reference_state _ _ _ _ _ _ Hstored) as ->.
  destruct (_get_stored_reference_again _ _ _ _ _ _ _ Hstored Hkept0)
    as (stored' & Hstored' & Hfound).
  rewrite Hstored'.
  destruct stored' as [reference'|].
  { eexists. exists self'. split; [reflexivity|apply same_registry_refl]. }
  destruct stored as [reference|]; [now elim Hfound|]. clear Hfound.
  rewrite (_can_handle_class_type_configuration _ _ _ Hconf).
  destruct (_can_handle_class_type self t).
  { exfalso. revert Hfirst. unfold bind.
    destruct (_get_schema_for_class host (get_schema_by_type host fuel) fuel
                t self) as [[registered self2]| |] eqn:Hclass;
      try discriminate.
    unfold ret. intros [= <- <-].
    exact (kept_key_not_missed _ _ _ _ _ _
             (_get_schema_for_class_stores _ _ _ _ _ _ _ Hclass)
             Hkept Hstored'). }
  destruct (_try_get_schema_for_simple_type t) as [simple|].
  { eexists. exists self'.
    split; [reflexivity|apply same_registry_refl]. }
  unfold bind at 1 in Hfirst. unfold bind at 1.
  destruct (_try_get_schema_for_iterable (get_schema_by_type host fuel) t
              type_args self) as [[[iterable|] self2]| |] eqn:Hiterable;
    try discriminate.
  { injection Hfirst as <- <-.
    destruct (_try_get_schema_for_iterable_again _ _ _ _ _ Hiterable self'
                (fun _ => Hkept) Hconf) as (schema' & self'' & -> & Hsame).
    eexists. exists self''. split; [reflexivity|exact Hsame]. }
  destruct (_try_get_schema_for_iterable_again _ _ _ _ _ Hiterable self'
              (fun Hsome => False_ind _ (Hsome eq_refl)) Hconf) as (-> & ->).
  unfold bind at 1 in Hfirst. unfold bind at 1.
  destruct (isinstance_GenericAlias t).
  2:{ unfold ret at 1.
      destruct (if isclass t then _try_get_schema_for_enum host t else None);
        eexists; exists self';
        (split; [reflexivity|apply same_registry_refl]). }
  destruct (_try_get_schema_for_generic host (get_schema_by_type host fuel)
              fuel t type_args self) as [[[registered|] self3]| |]
    eqn:Hgeneric; try discriminate.
  { exfalso. injection Hfirst as <- <-.
    exact (kept_key_not_missed _ _ _ _ _ _
             (_try_get_schema_for_generic_stores _ _ _ _ _ _ _ _ Hgeneric)
             Hkept Hstored'). }
  assert (self3 = self1) as ->.
  { revert Hfirst.
    destruct (if isclass t then _try_get_schema_for_enum host t else None);
      unfold ret; now intros [= _ <-]. }
  clear Hfirst. revert Hgeneric. unfold _try_get_schema_for_generic.
  destruct (get_origin t) as [origin|]; [|discriminate].
  destruct (__parameters__ host origin) as [parameters|]; [|discriminate].
  rewrite (get_fields_configuration _ _ _ Hconf).
  intros Hgeneric. unfold bind at 1 in Hgeneric. unfold bind at 1.
  destruct (_try_get_schema_for_generic_loop (get_schema_by_type host fuel) t
              (zip_type_args parameters (__args__ t)) (get_fields self origin)
              [] [] self) as [[[[required properties]|] self4]| |] eqn:Hloop;
    try discriminate.
  { exfalso. revert Hgeneric. unfold bind.
    destruct (_handle_object_type fuel t properties required type_args self4)
      as [[registered self5]| |]; discriminate. }
  injection Hgeneric as <-.
  destruct (_try_get_schema_for_generic_loop_again _ _ _ _ _ _ _ Hloop
              self' [] [] Hkept Hconf) as (self'' & -> & Hsame).
  unfold ret at 1.
  destruct (if isclass t then _try_get_schema_for_enum host t else None);
    eexists; exists self''; (split; [reflexivity|exact Hsame]).
Qed.

Lemma get_schema_by_type_body_again (object_type : TypeOrSchema)
    (type_args : TypeArgs) (self self1 : OpenAPIHandler)
    (resolved : SchemaOrRef) :
  get_schema_by_type host (S fuel) object_type type_args self
  = Ok (resolved, self1) ->
  forall self',
    keys_kept self1 self' -> same_configuration self self' ->
    exists resolved' self'',
      get_schema_by_type host (S fuel) object_type type_args self'
      = Ok (resolved', self'')
      /\ same_registry self' self''.
Proof.
  intros Hfirst self' Hkept Hconf.
  pose proof (get_schema_by_type_keys_kept host _ _ _ _ _ _ Hfirst) as Hkept0.
  pose proof (keys_kept_trans _ _ _ Hkept0 Hkept) as Hkept'.
  rewrite get_schema_by_type_S in Hfirst |- *.
  unfold get_schema_by_type_body in Hfirst |- *.
  destruct object_type as [t|schema].
  2:{ eexists. exists self'.
      split; [reflexivity|apply same_registry_refl]. }
  unfold bind at 1 in Hfirst. unfold bind at 1.
  destruct (_get_stored_reference fuel t type_args self)
    as [[stored self2]| |] eqn:Hstored; try discriminate.
  pose proof (_get_stored_reference_state _ _ _ _ _ _ Hstored) as ->.
  destruct (_get_stored_reference_again _ _ _ _ _ _ _ Hstored Hkept')
    as (stored' & -> & Hfound).
  destruct stored' as [reference'|].
  { eexists. exists self'.
    split; [reflexivity|apply same_registry_refl]. }
  destruct stored as [reference|]; [now elim Hfound|]. clear Hfound.
  unfold bind at 1, lift in Hfirst. unfold bind at 1, lift.
  destruct (check_union (OfType t)) as [[is_optional child_type]| |];
    try discriminate.
  unfold bind in Hfirst |- *.
  destruct (_get_schema_by_type host (get_schema_by_type host fuel) fuel
              child_type type_args self) as [[schema self2]| |] eqn:Hinner;
    try discriminate.
  assert (self2 = self1) as ->.
  { revert Hfirst. destruct schema; [destruct (negb is_optional)|];
      unfold ret; now intros [= _ <-]. }
  destruct (_get_schema_by_type_again _ _ _ _ _ Hinner self' Hkept' Hkept
              Hconf) as (schema' & self'' & -> & Hsame).
  destruct schema' as [s'|r']; [destruct (negb is_optional)|];
    eexists; exists self''; (split; [reflexivity|exact Hsame]).
Qed.
End Again.

(** A resolution that answered can be repeated in any handler of the same
    configuration that has kept the keys of the reference cache it left: the
    repeated resolution answers, and registers nothing. *)
Theorem get_schema_by_type_again (host : Host) (fuel : nat) :
  forall object_type type_args self resolved self1,
    get_schema_by_type host fuel object_type type_args self
    = Ok (resolved, self1) ->
    forall self',
      keys_kept self1 self' -> same_configuration self self' ->
      exists resolved' self'',
        get_schema_by_type host fuel object_type type_args self'
        = Ok (resolved', self'')
        /\ same_registry self' self''.
Proof.
  induction fuel as [|fuel IH]; [discriminate|].
  intros object_type type_args self resolved self1.
  now apply get_schema_by_type_body_again.
Qed.



(* ================================================================== *)
(** ** Self-referential record types *)

Lemma _get_schema_for_class_loop_app (host : Host)
    (rec : TypeOrSchema -> TypeArgs -> M SchemaOrRef) (object_type : PyType)
    (todo1 todo2 : list FieldInfo) :
  forall required properties self,
    _get_schema_for_class_loop host rec object_type (todo1 ++ todo2)%list
      required properties self
    = match _get_schema_for_class_loop host rec object_type todo1 required
              properties self with
      | Ok ((required', properties'), self') =>
          _get_schema_for_class_loop host rec object_type todo2 required'
            properties' self'
      | Raise e => Raise e
      | OutOfFuel => OutOfFuel
      end.
Proof.
  induction todo1 as [|field todo1 IH]; intros required properties self.
  - reflexivity.
  - rewrite <- app_comm_cons. cbn [_get_schema_for_class_loop].
    unfold bind, lift.
    destruct (check_union (type field)) as [[is_optional child_type]| |];
      try reflexivity.
    match goal with
    | |- context [rec ?c None self] =>
        destruct (rec c None self) as [[schema self1]| |]; try reflexivity
    end.
    apply IH.
Qed.

Lemma isclass_check_union (t : PyType) :
  isclass t = true -> check_union (OfType t) = Ok (false, OfType t).
Proof. destruct t; try discriminate; reflexivity. Qed.

Section SelfReference.
Variable host : Host.
Variable C : PyType.
Variable self0 : OpenAPIHandler.
Variables before after : list FieldInfo.
Variable field : FieldInfo.

Hypothesis C_class : isclass C = true.
Hypothesis C_handled : _can_handle_class_type self0 C = true.
Hypothesis C_not_explicit : dict_mem (_types_schemas self0) C = false.
Hypothesis C_fields : get_fields self0 C = (before ++ field :: after)%list.
Hypothesis field_self : field_child_type host C field = Ok (OfType C).

Lemma is_C_true (t : PyType) : is_type C t = true -> t = C.
Proof. unfold is_type. destruct (PyType_eq_dec t C); [auto|discriminate]. Qed.

Lemma is_C_false (t : PyType) : is_type C t = false -> t <> C.
Proof. unfold is_type. destruct (PyType_eq_dec t C); [discriminate|auto]. Qed.

(** With recursive calls that never return for [C] and keep [C] out of the
    cache, [_get_schema_for_class] never returns for [C]: the loop reaches
    the field of type [C] with [C] not yet registered. *)
Lemma _get_schema_for_class_self (fuel : nat)
    (rec : TypeOrSchema -> TypeArgs -> M SchemaOrRef) :
  (forall self,
      unresolved self0 C self -> ~ returns (rec (OfType C) None self)) ->
  (forall t type_args self result self',
      unresolved self0 C self -> rec t type_args self = Ok (result, self') ->
      unresolved self0 C self') ->
  forall self reference self',
    unresolved self0 C self ->
    _get_schema_for_class host rec fuel C self <> Ok (reference, self').
Proof.
  intros Hdiverges Hkeeps self reference self' Hself.
  pose proof Hself as [(Hts & Hhandlers & Hrest) Hcache].
  unfold _get_schema_for_class.
  assert (_can_handle_class_type self C = true) as ->.
  { unfold _can_handle_class_type. rewrite Hts, Hhandlers. exact C_handled. }
  rewrite Hts, C_not_explicit. cbn [negb].
  assert (get_fields self C = get_fields self0 C) as ->.
  { unfold get_fields. now rewrite Hhandlers. }
  rewrite C_fields. unfold bind at 1.
  rewrite _get_schema_for_class_loop_app.
  destruct (_get_schema_for_class_loop host rec C before [] [] self)
    as [[[required properties] self1]| |] eqn:Hbefore; try discriminate.
  assert (unresolved self0 C self1) as Hself1.
  { apply (_get_schema_for_class_loop_keeps host (unresolved self0 C)
             (fun _ => True) I rec (fun t a s r s' _ => Hkeeps t a s r s')
             C before [] [] self (required, properties) self1).
    - exact Hself.
    - exact Hbefore. }
  cbn [_get_schema_for_class_loop]. unfold bind at 1, lift.
  revert field_self. unfold field_child_type.
  destruct (check_union (type field)) as [[is_optional child_type]| |];
    try discriminate.
  cbn [rbind snd]. intros [= ->].
  unfold bind at 1.
  pose proof (Hdiverges self1 Hself1) as Hnever.
  destruct (rec (OfType C) None self1) as [[schema self2]| |];
    [exfalso; apply Hnever; exact I | discriminate | discriminate].
Qed.

(** Resolution never returns for [C] and, for any other type, keeps [C] out
    of the cache. *)
Lemma get_schema_by_type_self (fuel : nat) :
  (forall self, unresolved self0 C self ->
     ~ returns (get_schema_by_type host fuel (OfType C) None self))
  /\ (forall t type_args self result self',
        unresolved self0 C self ->
        get_schema_by_type host fuel t type_args self = Ok (result, self') ->
        unresolved self0 C self').
Proof.
  induction fuel as [|fuel [IHdiverges IHkeeps]].
  { split; [intros self _ []|discriminate]. }
  pose proof (_get_schema_for_class_self fuel (get_schema_by_type host fuel)
                IHdiverges IHkeeps) as Hclass.
  split.
  - intros self Hself. rewrite get_schema_by_type_S.
    unfold get_schema_by_type_body. unfold bind at 1.
    unfold _get_stored_reference at 1. rewrite (proj2 Hself).
    cbn [truthy_opt]. unfold bind at 1.
    rewrite (isclass_check_union C C_class). cbn [lift].
    unfold bind at 1. unfold _get_schema_by_type. unfold bind at 1.
    unfold _get_stored_reference at 1. rewrite (proj2 Hself).
    cbn [truthy_opt].
    assert (_can_handle_class_type self C = true) as ->.
    { destruct Hself as [(Hts & Hhandlers & _) _].
      unfold _can_handle_class_type. rewrite Hts, Hhandlers.
      exact C_handled. }
    unfold bind at 1.
    destruct (_get_schema_for_class host (get_schema_by_type host fuel) fuel
                C self) as [[registered self1]| |] eqn:Hresolved;
      [|intros []|intros []].
    exfalso. exact (Hclass _ _ _ Hself Hresolved).
  - intros t type_args self result self' Hself.
    rewrite get_schema_by_type_S.
    apply (get_schema_by_type_body_keeps host (unresolved self0 C) (is_type C)
             (fun _ => True)); try assumption; try exact I;
      try (intros; exact I).
    + intros s schemas Hs. exact Hs.
    + intros s w Hs. exact Hs.
    + intros s t0 n r [Hconf Hcache] Ht0. split; [exact Hconf|].
      cbn. rewrite !dict_get_set_other; [exact Hcache| |]; intros E.
      * exact (is_C_false _ Ht0 E).
      * pose proof C_class as Hclass_C. rewrite <- E in Hclass_C.
        discriminate Hclass_C.
    + intros t0 a s r s' _ Hs. now apply IHkeeps.
    + intros t0 a s r s' Ht0 Hs _. apply is_C_true in Ht0. subst t0.
      now apply Hclass.
    + intros t0 a s1 s r s' Ht0 _ _ _ _. apply is_C_true in Ht0. subst t0.
      unfold _try_get_schema_for_generic.
      destruct C; try discriminate; cbn [get_origin]; discriminate.
Qed.
End SelfReference.

(** C2, the behaviour of the code.  Let [C] be a record type that a field
    extractor claims, without an explicit schema and not yet in the
    reference cache, one of whose fields has [C] itself as the type passed
    to the recursive resolution.  Then [get_schema_by_type] returns for [C]
    at no recursion depth: [C] is registered only after the loop over its
    fields, so the recursive resolution of the field finds no cached
    reference and starts over. *)
Theorem self_referential_record_never_resolves (host : Host) (C : PyType)
    (self : OpenAPIHandler) (before after : list FieldInfo)
    (field : FieldInfo) :
  isclass C = true ->
  _can_handle_class_type self C = true ->
  dict_mem (_types_schemas self) C = false ->
  dict_get (_objects_references self) C = None ->
  get_fields self C = (before ++ field :: after)%list ->
  field_child_type host C field = Ok (OfType C) ->
  forall fuel,
    ~ returns (get_schema_by_type host fuel (OfType C) None self).
Proof.
  intros Hclass Hhandled Hexplicit Hcache Hfields Hfield fuel.
  apply (proj1 (get_schema_by_type_self host C self before after field
                  Hclass Hhandled Hexplicit Hfields Hfield fuel)).
  split; [|exact Hcache]. unfold same_configuration. tauto.
Qed.

(** [Node], whose field [next] is annotated "Node", in a fresh handler. *)
Lemma self_referential_record_never_resolves_witness :
  field_child_type App.host App.Node (App.field "next" (TStr "Node"))
  = Ok (OfType App.Node)
  /\ ~ returns (get_schema_by_type App.host 40 (OfType App.Node) None
                  App.self0).
Proof.
  split; [reflexivity|].
  apply (self_referential_record_never_resolves App.host App.Node App.self0
           [] [] (App.field "next" (TStr "Node")));
    reflexivity.
Defined.

(** At depth 40 the resolution of [Node] has not finished. *)
Lemma Node_out_of_fuel :
  get_schema_by_type App.host 40 (OfType App.Node) None App.self0 = OutOfFuel.
Proof. vm_compute. reflexivity. Qed.

(* ================================================================== *)
(** ** What a registration changes *)

(** X1.  [_register_schema] always returns.  The schema is then found under the
    name the returned reference points to, every schema registered before
    is still found under its name, there is exactly one more entry, and
    nothing else of the handler has changed. *)
Theorem _register_schema_adds_one (schema : Schema) (proposed : string)
    (self : OpenAPIHandler) :
  exists name self',
    _register_schema schema proposed self
    = Ok ({| ref := "#/components/schemas/" ++ name |}, self')
    /\ dict_mem (schemas_of self) name = false
    /\ dict_get (schemas_of self') name = Some schema
    /\ schemas_kept self self'
    /\ length (schemas_of self') = S (length (schemas_of self))
    /\ _objects_references self' = _objects_references self
    /\ same_configuration self self'
    /\ emitted_warnings self' = emitted_warnings self.
Proof.
  destruct (_register_schema_returns schema proposed self)
    as (name & Hfree & Hregister).
  exists name. eexists. split; [exact Hregister|].
  split; [exact Hfree|]. cbn [schemas_of set_components_schemas
                              components_schemas].
  split; [apply dict_get_set_same|]. split.
  { intros k v Hk. unfold schemas_of at 1. cbn [components_schemas
                                                 set_components_schemas].
    rewrite dict_get_set_other; [exact Hk|].
    intros ->. unfold dict_mem in Hfree. now rewrite Hk in Hfree. }
  split; [now apply dict_set_length_fresh|].
  repeat split.
Qed.

(* ================================================================== *)
(** ** The effects of resolution

    Resolution changes the handler only by registering an object schema
    together with its reference ([_handle_object_type],
    [_handle_type_having_explicit_schema]) and by emitting a warning: a
    property of the handler that these three keep is kept by
    [get_schema_by_type]. *)
Section Effects.
Variable host : Host.
Variable Inv : OpenAPIHandler -> Prop.

Hypothesis Inv_warn : forall self w, Inv self -> Inv (warn self w).
Hypothesis Inv_object :
  forall fuel object_type properties required context_type_args self
         reference self',
    Inv self ->
    _handle_object_type fuel object_type properties required
      context_type_args self
    = Ok (reference, self') ->
    Inv self'.
Hypothesis Inv_explicit :
  forall fuel object_type self reference self',
    Inv self ->
    _handle_type_having_explicit_schema fuel object_type self
    = Ok (reference, self') ->
    Inv self'.

Section Body.
Variable rec : TypeOrSchema -> TypeArgs -> M SchemaOrRef.
Variable fuel : nat.

Hypothesis rec_effects :
  forall object_type type_args self result self',
    Inv self ->
    rec object_type type_args self = Ok (result, self') -> Inv self'.

Lemma _get_schema_for_class_effects (object_type : PyType)
    (self self' : OpenAPIHandler) (reference : Reference) :
  Inv self ->
  _get_schema_for_class host rec fuel object_type self = Ok (reference, self') ->
  Inv self'.
Proof.
  intros HI. unfold _get_schema_for_class.
  destruct (negb (_can_handle_class_type self object_type)); [discriminate|].
  destruct (dict_mem (_types_schemas self) object_type).
  - now apply Inv_explicit.
  - unfold bind.
    destruct (_get_schema_for_class_loop host rec object_type _ [] [] self)
      as [[[required properties] self1]| |] eqn:Hloop; try discriminate.
    apply Inv_object.
    refine (_get_schema_for_class_loop_keeps host Inv (fun _ => True) I rec
              _ _ _ _ _ _ _ _ HI Hloop).
    intros t a s r s' _. apply rec_effects.
Qed.

Lemma _try_get_schema_for_generic_effects (object_type : PyType)
    (type_args : TypeArgs) (self self' : OpenAPIHandler)
    (result : option Reference) :
  Inv self ->
  _try_get_schema_for_generic host rec fuel object_type type_args self
  = Ok (result, self') ->
  Inv self'.
Proof.
  intros HI. unfold _try_get_schema_for_generic.
  destruct (get_origin object_type) as [origin|]; [|discriminate].
  destruct (__parameters__ host origin) as [parameters|]; [|discriminate].
  unfold bind at 1.
  destruct (_try_get_schema_for_generic_loop rec object_type _ _ [] [] self)
    as [[looped self1]| |] eqn:Hloop; try discriminate.
  assert (Inv self1) as HI1.
  { refine (_try_get_schema_for_generic_loop_keeps Inv (fun _ => True)
              Inv_warn rec _ _ _ _ I _ _ _ _ _ HI Hloop).
    intros t a s r s' _. apply rec_effects. }
  destruct looped as [[required properties]|].
  - unfold bind.
    destruct (_handle_object_type fuel object_type properties required
                type_args self1) as [[registered self2]| |] eqn:Hhandle;
      try discriminate.
    unfold ret. intros [= _ <-]. exact (Inv_object _ _ _ _ _ _ _ _ HI1 Hhandle).
  - unfold ret. now intros [= _ <-].
Qed.

Lemma _get_schema_by_type_effects (object_type : TypeOrSchema)
    (type_args : TypeArgs) (self self' : OpenAPIHandler)
    (result : SchemaOrRef) :
  Inv self ->
  _get_schema_by_type host rec fuel object_type type_args self
  = Ok (result, self') ->
  Inv self'.
Proof.
  intros HI. unfold _get_schema_by_type.
  destruct object_type as [t|]; [|discriminate].
  unfold bind at 1.
  destruct (_get_stored_reference fuel t type_args self)
    as [[stored self1]| |] eqn:Hstored; try discriminate.
  pose proof (_get_stored_reference_state _ _ _ _ _ _ Hstored) as ->.
  destruct stored as [stored|]; [unfold ret; now intros [= _ <-]|].
  destruct (_can_handle_class_type self t).
  { unfold bind.
    destruct (_get_schema_for_class host rec fuel t self)
      as [[registered self2]| |] eqn:Hclass; try discriminate.
    unfold ret. intros [= _ <-].
    exact (_get_schema_for_class_effects _ _ _ _ HI Hclass). }
  destruct (_try_get_schema_for_simple_type t); [now intros [= _ <-]|].
  unfold bind at 1.
  destruct (_try_get_schema_for_iterable rec t type_args self)
    as [[iterable self2]| |] eqn:Hiter; try discriminate.
  assert (Inv self2) as HI2.
  { refine (_try_get_schema_for_iterable_keeps Inv (fun _ => True) rec _
              _ _ _ _ _ I HI Hiter).
    intros t' a s r s' _. apply rec_effects. }
  destruct iterable as [iterable|]; [unfold ret; now intros [= _ <-]|].
  unfold bind at 1.
  destruct ((if isinstance_GenericAlias t
             then _try_get_schema_for_generic host rec fuel t type_args
             else ret None) self2) as [[generic self3]| |] eqn:Hgeneric;
    try discriminate.
  assert (Inv self3) as HI3.
  { destruct (isinstance_GenericAlias t).
    - exact (_try_get_schema_for_generic_effects _ _ _ _ _ HI2 Hgeneric).
    - unfold ret in Hgeneric. now injection Hgeneric as _ <-. }
  destruct generic as [generic|]; [unfold ret; now intros [= _ <-]|].
  destruct (if isclass t then _try_get_schema_for_enum host t else None);
    unfold ret; now intros [= _ <-].
Qed.

Lemma get_schema_by_type_body_effects (object_type : TypeOrSchema)
    (type_args : TypeArgs) (self self' : OpenAPIHandler)
    (result : SchemaOrRef) :
  Inv self ->
  get_schema_by_type_body host rec fuel object_type type_args self
  = Ok (result, self') ->
  Inv self'.
Proof.
  intros HI. unfold get_schema_by_type_body.
  destruct object_type as [t|schema]; [|unfold ret; now intros [= _ <-]].
  unfold bind at 1.
  destruct (_get_stored_reference fuel t type_args self)
    as [[stored self1]| |] eqn:Hstored; try discriminate.
  apply _get_stored_reference_state in Hstored. subst self1.
  destruct stored as [stored|]; [unfold ret; now intros [= _ <-]|].
  unfold bind at 1, lift.
  destruct (check_union (OfType t)) as [[is_optional child_type]| |];
    try discriminate.
  unfold bind.
  destruct (_get_schema_by_type host rec fuel child_type type_args self)
    as [[schema self2]| |] eqn:Hinner; try discriminate.
  apply (_get_schema_by_type_effects _ _ _ _ _ HI) in Hinner.
  destruct schema; [destruct (negb is_optional)|];
    unfold ret; now intros [= _ <-].
Qed.
End Body.

Lemma get_schema_by_type_effects (fuel : nat) :
  forall object_type type_args self result self',
    Inv self ->
    get_schema_by_type host fuel object_type type_args self
    = Ok (result, self') ->
    Inv self'.
Proof.
  induction fuel as [|fuel IH]; [discriminate|].
  intros object_type type_args self result self'.
  rewrite get_schema_by_type_S.
  now apply get_schema_by_type_body_effects.
Qed.
End Effects.

(* ================================================================== *)
(** ** Registered schemas are kept, cached references are registered *)

(** What [_handle_object_type] does to the handler when it returns. *)
Lemma _handle_object_type_inv (fuel : nat) (object_type : PyType)
    (properties : dict string SchemaOrRef) (required : list string)
    (context_type_args : TypeArgs) (self self' : OpenAPIHandler)
    (reference : Reference) :
  _handle_object_type fuel object_type properties required context_type_args
    self
  = Ok (reference, self') ->
  exists type_name name,
    get_type_name fuel object_type context_type_args = Ok type_name
    /\ reference = {| ref := "#/components/schemas/" ++ name |}
    /\ dict_mem (schemas_of self) name = false
    /\ self'
       = set_objects_references
           (set_components_schemas self
              (dict_set (schemas_of self) name
                 (mkSchema (Some OBJECT) None (or_None required)
                    (Some properties) None None None)))
           (dict_set (dict_set (_objects_references self) object_type
                        reference)
              (TStr type_name) reference).
Proof.
  unfold _handle_object_type. unfold bind at 1, lift.
  destruct (get_type_name fuel object_type context_type_args)
    as [type_name| |]; try discriminate.
  unfold bind at 1.
  match goal with
  | |- context [_register_schema ?s type_name self] =>
      destruct (_register_schema_returns s type_name self)
        as (name & Hfree & ->)
  end.
  unfold bind, store_reference, ret. intros [= <- <-].
  exists type_name, name. repeat split. exact Hfree.
Qed.

(** What [_handle_type_having_explicit_schema] does to the handler when it
    returns. *)
Lemma _handle_type_having_explicit_schema_inv (fuel : nat)
    (object_type : PyType) (self self' : OpenAPIHandler)
    (reference : Reference) :
  _handle_type_having_explicit_schema fuel object_type self
  = Ok (reference, self') ->
  exists schema type_name name,
    dict_get (_types_schemas self) object_type = Some schema
    /\ get_type_name fuel object_type (Some []) = Ok type_name
    /\ reference = {| ref := "#/components/schemas/" ++ name |}
    /\ dict_mem (schemas_of self) name = false
    /\ self'
       = set_objects_references
           (set_components_schemas self
              (dict_set (schemas_of self) name schema))
           (dict_set (dict_set (_objects_references self) object_type
                        reference)
              (TStr type_name) reference).
Proof.
  unfold _handle_type_having_explicit_schema.
  destruct (dict_get (_types_schemas self) object_type) as [schema|];
    [|discriminate].
  unfold bind at 1, lift.
  destruct (get_type_name fuel object_type (Some [])) as [type_name| |];
    try discriminate.
  unfold bind at 1.
  destruct (_register_schema_returns schema type_name self)
    as (name & Hfree & ->).
  unfold bind, store_reference, ret. intros [= <- <-].
  exists schema, type_name, name. repeat split. exact Hfree.
Qed.

Lemma schemas_kept_refl (self : OpenAPIHandler) : schemas_kept self self.
Proof. intros name schema Hname. exact Hname. Qed.

Lemma schemas_kept_trans (s1 s2 s3 : OpenAPIHandler) :
  schemas_kept s1 s2 -> schemas_kept s2 s3 -> schemas_kept s1 s3.
Proof. intros H12 H23 name schema Hname. apply H23, H12, Hname. Qed.

(** Adding a schema under a free name, and replacing the reference cache,
    keeps every registered schema. *)
Lemma schemas_kept_added (self : OpenAPIHandler) (name : string)
    (schema : Schema) (references : dict PyType Reference) :
  dict_mem (schemas_of self) name = false ->
  schemas_kept self
    (set_objects_references
       (set_components_schemas self (dict_set (schemas_of self) name schema))
       references).
Proof.
  intros Hfree k v Hk. unfold schemas_of at 1. cbn.
  rewrite dict_get_set_other; [exact Hk|].
  intros ->. unfold dict_mem in Hfree. now rewrite Hk in Hfree.
Qed.

Lemma registered_kept (self self' : OpenAPIHandler) (reference : Reference) :
  schemas_kept self self' -> registered self reference ->
  registered self' reference.
Proof.
  intros Hkept (name & Href & Hname). exists name. split; [exact Href|].
  unfold dict_mem in *.
  destruct (dict_get (schemas_of self) name) as [schema|] eqn:Hschema;
    [|discriminate].
  now rewrite (Hkept _ _ Hschema).
Qed.

(** Registering a schema and storing the reference to it under two keys
    keeps the cache pointing to registered schemas. *)
Lemma references_registered_added (self : OpenAPIHandler) (name : string)
    (schema : Schema) (key1 key2 : PyType) :
  dict_mem (schemas_of self) name = false ->
  references_registered self ->
  references_registered
    (set_objects_references
       (set_components_schemas self (dict_set (schemas_of self) name schema))
       (dict_set (dict_set (_objects_references self) key1
                    {| ref := "#/components/schemas/" ++ name |})
          key2 {| ref := "#/components/schemas/" ++ name |})).
Proof.
  intros Hfree Hvalid key reference. cbn [_objects_references
                                           set_objects_references].
  assert (registered
            (set_objects_references
               (set_components_schemas self
                  (dict_set (schemas_of self) name schema))
               (dict_set (dict_set (_objects_references self) key1
                            {| ref := "#/components/schemas/" ++ name |})
                  key2 {| ref := "#/components/schemas/" ++ name |}))
            {| ref := "#/components/schemas/" ++ name |}) as Hnew.
  { exists name. split; [reflexivity|]. unfold schemas_of at 1. cbn.
    apply dict_mem_set_same. }
  destruct (PyType_eq_dec key2 key) as [->|Hne2].
  { rewrite dict_get_set_same. now intros [= <-]. }
  rewrite dict_get_set_other by exact Hne2.
  destruct (PyType_eq_dec key1 key) as [->|Hne1].
  { rewrite dict_get_set_same. now intros [= <-]. }
  rewrite dict_get_set_other by exact Hne1.
  intros Hold. apply (registered_kept self).
  - now apply schemas_kept_added.
  - exact (Hvalid _ _ Hold).
Qed.

(** A reference answered by a lookup is a value of the cache. *)
Lemma _get_stored_reference_cached (fuel : nat) (object_type : PyType)
    (type_args : TypeArgs) (self self' : OpenAPIHandler)
    (reference : Reference) :
  _get_stored_reference fuel object_type type_args self
  = Ok (Some reference, self') ->
  exists key, dict_get (_objects_references self) key = Some reference.
Proof.
  unfold _get_stored_reference.
  destruct (dict_get (_objects_references self) object_type) as [stored|]
    eqn:Hobject.
  { intros [= <- _]. now exists object_type. }
  destruct (truthy_opt type_args); [|discriminate].
  unfold bind, lift.
  destruct (get_type_name fuel object_type type_args) as [type_name| |];
    try discriminate.
  unfold ret. intros [= Hname _]. now exists (TStr type_name).
Qed.

Lemma get_schema_by_type_schemas_kept (host : Host) (fuel : nat)
    (object_type : TypeOrSchema) (type_args : TypeArgs)
    (self self' : OpenAPIHandler) (result : SchemaOrRef) :
  get_schema_by_type host fuel object_type type_args self
  = Ok (result, self') ->
  schemas_kept self self'.
Proof.
  apply (get_schema_by_type_effects host (schemas_kept self)).
  - intros s w Hs. exact Hs.
  - intros f t properties required ctx s reference s' Hs Hhandle.
    apply _handle_object_type_inv in Hhandle.
    destruct Hhandle as (type_name & name & _ & _ & Hfree & ->).
    apply (schemas_kept_trans _ _ _ Hs). now apply schemas_kept_added.
  - intros f t s reference s' Hs Hhandle.
    apply _handle_type_having_explicit_schema_inv in Hhandle.
    destruct Hhandle as (schema & type_name & name & _ & _ & _ & Hfree & ->).
    apply (schemas_kept_trans _ _ _ Hs). now apply schemas_kept_added.
  - apply schemas_kept_refl.
Qed.

Lemma get_schema_by_type_references_registered (host : Host) (fuel : nat)
    (object_type : TypeOrSchema) (type_args : TypeArgs)
    (self self' : OpenAPIHandler) (result : SchemaOrRef) :
  references_registered self ->
  get_schema_by_type host fuel object_type type_args self
  = Ok (result, self') ->
  references_registered self'.
Proof.
  apply (get_schema_by_type_effects host references_registered).
  - intros s w Hs. exact Hs.
  - intros f t properties required ctx s reference s' Hs Hhandle.
    apply _handle_object_type_inv in Hhandle.
    destruct Hhandle as (type_name & name & _ & -> & Hfree & ->).
    now apply references_registered_added.
  - intros f t s reference s' Hs Hhandle.
    apply _handle_type_having_explicit_schema_inv in Hhandle.
    destruct Hhandle as (schema & type_name & name & _ & _ & -> & Hfree & ->).
    now apply references_registered_added.
Qed.

(** A reference answered by [get_schema_by_type] is a value of the cache
    of the handler it leaves. *)
Lemma get_schema_by_type_reference_cached (host : Host) (fuel : nat)
    (object_type : TypeOrSchema) (type_args : TypeArgs)
    (self self' : OpenAPIHandler) (reference : Reference) :
  get_schema_by_type host fuel object_type type_args self
  = Ok (IsRef reference, self') ->
  exists key, dict_get (_objects_references self') key = Some reference.
Proof.
  destruct fuel as [|fuel]; [discriminate|].
  rewrite get_schema_by_type_S. unfold get_schema_by_type_body.
  destruct object_type as [t|schema]; [|discriminate].
  unfold bind at 1.
  destruct (_get_stored_reference fuel t type_args self)
    as [[stored self1]| |] eqn:Hstored; try discriminate.
  pose proof (_get_stored_reference_state _ _ _ _ _ _ Hstored) as ->.
  destruct stored as [stored|].
  { unfold ret. intros [= <- <-].
    exact (_get_stored_reference_cached _ _ _ _ _ _ Hstored). }
  unfold bind at 1, lift.
  destruct (check_union (OfType t)) as [[is_optional child_type]| |];
    try discriminate.
  unfold bind.
  destruct (_get_schema_by_type host (get_schema_by_type host fuel) fuel
              child_type type_args self) as [[[schema|resolved] self2]| |]
    eqn:Hinner; try discriminate.
  { destruct (negb is_optional); discriminate. }
  unfold ret. intros [= <- <-].
  destruct (_get_schema_by_type_reference_stored _ _ _ _ _ _ _ _ Hinner)
    as (c & _ & Hhit).
  exact (_get_stored_reference_cached _ _ _ _ _ _ Hhit).
Qed.

(* ================================================================== *)
(** ** The effects of documenting a request handler

    [get_request_body], [get_parameters] and [get_responses] change the
    handler only through [get_schema_by_type]. *)
Section OperationEffects.
Variable host : Host.
Variable common : Common.
Variable fuel : nat.
Variable Inv : OpenAPIHandler -> Prop.

Hypothesis resolve_effects :
  forall object_type type_args self result self',
    Inv self ->
    get_schema_by_type host fuel object_type type_args self
    = Ok (result, self') ->
    Inv self'.

Lemma get_request_body_effects (handler : Handler)
    (self self' : OpenAPIHandler) (body : option RequestBody) :
  Inv self ->
  get_request_body host fuel handler self = Ok (body, self') -> Inv self'.
Proof.
  intros HI. unfold get_request_body.
  destruct (binders handler) as [handler_binders|];
    [|unfold ret; now intros [= _ <-]].
  destruct (_get_body_binder handler_binders) as [body_binder|];
    [|unfold ret; now intros [= _ <-]].
  unfold bind.
  destruct (get_schema_by_type host fuel (OfType (expected_type body_binder))
              None self) as [[schema self1]| |] eqn:Hschema;
    try discriminate.
  unfold ret. intros [= _ <-]. exact (resolve_effects _ _ _ _ _ HI Hschema).
Qed.

Lemma get_parameters_binders_loop_effects
    (parameters_info : dict string ParameterInfo) (todo : list Binder) :
  forall params self result self',
    Inv self ->
    get_parameters_binders_loop host fuel parameters_info todo params self
    = Ok (result, self') ->
    Inv self'.
Proof.
  induction todo as [|binder todo IH]; intros params self result self' HI.
  - unfold ret. now intros [= _ <-].
  - cbn [get_parameters_binders_loop].
    destruct (get_parameter_location_for_binder binder) as [location|];
      [|now apply IH].
    unfold bind at 1.
    destruct (get_schema_by_type host fuel (OfType (expected_type binder))
                None self) as [[schema self1]| |] eqn:Hschema;
      try discriminate.
    apply IH. exact (resolve_effects _ _ _ _ _ HI Hschema).
Qed.

Lemma get_parameters_info_loop_effects
    (todo : list (string * ParameterInfo)) :
  forall params self result self',
    Inv self ->
    get_parameters_info_loop host fuel todo params self = Ok (result, self') ->
    Inv self'.
Proof.
  induction todo as [|[key param_info] todo IH];
    intros params self result self' HI.
  - unfold ret. now intros [= _ <-].
  - cbn [get_parameters_info_loop].
    destruct (dict_mem params key); [now apply IH|].
    unfold bind at 1.
    destruct (pi_value_type param_info) as [value_type|].
    + unfold bind at 1.
      destruct (get_schema_by_type host fuel (OfType value_type) None self)
        as [[schema self1]| |] eqn:Hschema; try discriminate.
      unfold ret at 1. apply IH.
      exact (resolve_effects _ _ _ _ _ HI Hschema).
    + unfold ret at 1. now apply IH.
Qed.

Lemma get_parameters_effects (handler : Handler)
    (self self' : OpenAPIHandler) (documented : option (list ParameterDoc)) :
  Inv self ->
  get_parameters host fuel handler self = Ok (documented, self') -> Inv self'.
Proof.
  intros HI. unfold get_parameters.
  destruct (binders handler) as [handler_binders|];
    [|unfold ret; now intros [= _ <-]].
  cbv zeta. unfold bind at 1.
  match goal with
  | |- context [get_parameters_binders_loop host fuel ?info handler_binders
                  [] self] =>
      destruct (get_parameters_binders_loop host fuel info handler_binders
                  [] self) as [[params self1]| |] eqn:Hbinders;
      try discriminate;
      apply (get_parameters_binders_loop_effects _ _ _ _ _ _ HI) in Hbinders;
      unfold bind;
      destruct (get_parameters_info_loop host fuel info params self1)
        as [[params2 self2]| |] eqn:Hinfo; try discriminate
  end.
  unfold ret. intros [= _ <-].
  exact (get_parameters_info_loop_effects _ _ _ _ _ Hbinders Hinfo).
Qed.

Lemma _get_media_type_from_content_doc_effects (content_doc : ContentInfo)
    (self self' : OpenAPIHandler) (media_type : MediaType) :
  Inv self ->
  _get_media_type_from_content_doc host common fuel content_doc self
  = Ok (media_type, self') ->
  Inv self'.
Proof.
  intros HI. unfold _get_media_type_from_content_doc, content_doc_schema.
  unfold bind at 1.
  assert (forall schema self1,
             match ci_type content_doc with
             | Some t =>
                 s <- get_schema_by_type host fuel t None ;; ret (Some s)
             | None => ret None
             end self = Ok (schema, self1) -> Inv self1) as Hschema.
  { intros schema self1. destruct (ci_type content_doc) as [t|].
    - unfold bind.
      destruct (get_schema_by_type host fuel t None self)
        as [[s self2]| |] eqn:Ht; try discriminate.
      unfold ret. intros [= _ <-]. exact (resolve_effects _ _ _ _ _ HI Ht).
    - unfold ret. now intros [= _ <-]. }
  destruct (match ci_type content_doc with
            | Some t =>
                s <- get_schema_by_type host fuel t None ;; ret (Some s)
            | None => ret None
            end self) as [[schema self1]| |]; try discriminate.
  specialize (Hschema _ _ eq_refl).
  destruct (ci_examples content_doc) as [[|first [|second more]]|];
    unfold ret; now intros [= _ <-].
Qed.

Lemma _get_content_loop_effects (todo : list ContentInfo) :
  forall oad_content self result self',
    Inv self ->
    _get_content_loop host common fuel todo oad_content self
    = Ok (result, self') ->
    Inv self'.
Proof.
  induction todo as [|content todo IH];
    intros oad_content self result self' HI.
  - unfold ret. now intros [= _ <-].
  - cbn [_get_content_loop].
    destruct (negb (dict_mem oad_content (ci_content_type content)));
      [|discriminate].
    unfold bind at 1.
    destruct (_get_media_type_from_content_doc host common fuel content self)
      as [[media_type self1]| |] eqn:Hmedia; try discriminate.
    apply IH.
    exact (_get_media_type_from_content_doc_effects _ _ _ _ HI Hmedia).
Qed.

Lemma _get_content_from_response_info_effects
    (response_content : option (list ContentInfo))
    (self self' : OpenAPIHandler) (result : option (dict string MediaType)) :
  Inv self ->
  _get_content_from_response_info host common fuel response_content self
  = Ok (result, self') ->
  Inv self'.
Proof.
  intros HI. unfold _get_content_from_response_info.
  destruct response_content as [[|first more]|];
    try (unfold ret; now intros [= _ <-]).
  unfold bind.
  destruct (_get_content_loop host common fuel (first :: more) [] self)
    as [[oad_content self1]| |] eqn:Hloop; try discriminate.
  unfold ret. intros [= _ <-].
  exact (_get_content_loop_effects _ _ _ _ _ HI Hloop).
Qed.

Lemma _get_headers_loop_effects (todo : list (string * HeaderInfo)) :
  forall self result self',
    Inv self ->
    _get_headers_loop host fuel todo self = Ok (result, self') -> Inv self'.
Proof.
  induction todo as [|[key value] todo IH]; intros self result self' HI.
  - unfold ret. now intros [= _ <-].
  - cbn [_get_headers_loop]. unfold bind at 1.
    destruct (get_schema_by_type host fuel (hi_type value) None self)
      as [[schema self1]| |] eqn:Hschema; try discriminate.
    apply (resolve_effects _ _ _ _ _ HI) in Hschema.
    unfold bind.
    destruct (_get_headers_loop host fuel todo self1)
      as [[rest self2]| |] eqn:Hrest; try discriminate.
    unfold ret. intros [= _ <-]. exact (IH _ _ _ Hschema Hrest).
Qed.

Lemma _get_headers_from_response_info_effects
    (headers : option (dict string HeaderInfo))
    (self self' : OpenAPIHandler) (result : option (dict string Header)) :
  Inv self ->
  _get_headers_from_response_info host fuel headers self
  = Ok (result, self') ->
  Inv self'.
Proof.
  intros HI. unfold _get_headers_from_response_info.
  destruct headers as [headers|]; [|unfold ret; now intros [= _ <-]].
  unfold bind.
  destruct (_get_headers_loop host fuel headers self)
    as [[documented self1]| |] eqn:Hloop; try discriminate.
  unfold ret. intros [= _ <-].
  exact (_get_headers_loop_effects _ _ _ _ HI Hloop).
Qed.

Lemma get_responses_loop_effects
    (todo : list (ResponseStatusType * ResponseValue)) :
  forall self result self',
    Inv self ->
    get_responses_loop host common fuel todo self = Ok (result, self') ->
    Inv self'.
Proof.
  induction todo as [|[key value] todo IH]; intros self result self' HI.
  - unfold ret. now intros [= _ <-].
  - cbn [get_responses_loop]. unfold bind at 1.
    assert (forall doc self1,
               match value with
               | Response_info info =>
                   content <- _get_content_from_response_info host common
                                fuel (ri_content info) ;;
                   headers <- _get_headers_from_response_info host fuel
                                (ri_headers info) ;;
                   ret {| response_description := ri_description info;
                          response_content := content;
                          response_headers := headers |}
               | Response_str description =>
                   ret {| response_description := description;
                          response_content := None;
                          response_headers := None |}
               end self = Ok (doc, self1) -> Inv self1) as Hdoc.
    { intros doc self1. destruct value as [description|info].
      - unfold ret. now intros [= _ <-].
      - unfold bind at 1.
        destruct (_get_content_from_response_info host common fuel
                    (ri_content info) self) as [[content self2]| |]
          eqn:Hcontent; try discriminate.
        apply (_get_content_from_response_info_effects _ _ _ _ HI)
          in Hcontent.
        unfold bind.
        destruct (_get_headers_from_response_info host fuel (ri_headers info)
                    self2) as [[headers self3]| |] eqn:Hheaders;
          try discriminate.
        unfold ret. intros [= _ <-].
        exact (_get_headers_from_response_info_effects _ _ _ _ Hcontent
                 Hheaders). }
    match goal with
    | |- match ?m self with _ => _ end = _ -> _ =>
        destruct (m self) as [[doc self1]| |]; try discriminate
    end.
    pose proof (Hdoc _ _ eq_refl) as Hvalue. unfold bind.
    destruct (get_responses_loop host common fuel todo self1)
      as [[rest self2]| |] eqn:Hrest; try discriminate.
    unfold ret. intros [= _ <-]. exact (IH _ _ _ Hvalue Hrest).
Qed.

Lemma get_responses_effects (handler : Handler)
    (self self' : OpenAPIHandler)
    (documented : option (dict string ResponseDoc)) :
  Inv self ->
  get_responses host common fuel handler self = Ok (documented, self') ->
  Inv self'.
Proof.
  intros HI. unfold get_responses. cbv zeta.
  destruct (if truthy_opt (documented_responses handler)
            then Ok (documented_responses handler)
            else inferred_responses common self handler
                   match documented_responses handler with
                   | Some d => d
                   | None => []
                   end) as [[data|]| |]; try discriminate.
  - unfold bind.
    destruct (get_responses_loop host common fuel data self)
      as [[docs_of_data self1]| |] eqn:Hloop; try discriminate.
    unfold ret. intros [= _ <-].
    exact (get_responses_loop_effects _ _ _ _ HI Hloop).
  - now intros [= _ <-].
Qed.
End OperationEffects.

(* ================================================================== *)
(** ** Registered schemas and cached references, for the callers *)

(** The three ways in which [register_schema_for_type] returns. *)
Lemma register_schema_for_type_inv (host : Host) (fuel : nat)
    (object_type : PyType) (self self' : OpenAPIHandler)
    (reference : Reference) :
  register_schema_for_type host fuel object_type self = Ok (reference, self') ->
  (self' = self
   /\ dict_get (_objects_references self) object_type = Some reference)
  \/ get_schema_by_type host fuel (OfType object_type) None self
     = Ok (IsRef reference, self')
  \/ exists schema self1 type_name,
       get_schema_by_type host fuel (OfType object_type) None self
       = Ok (IsSchema schema, self1)
       /\ get_type_name fuel object_type None = Ok type_name
       /\ _register_schema schema type_name self1 = Ok (reference, self').
Proof.
  unfold register_schema_for_type. unfold bind at 1.
  unfold _get_stored_reference.
  destruct (dict_get (_objects_references self) object_type) as [stored|].
  { unfold ret. intros [= <- <-]. left. now split. }
  cbn [truthy_opt]. unfold bind at 1.
  destruct (get_schema_by_type host fuel (OfType object_type) None self)
    as [[[schema|resolved] self1]| |]; try discriminate.
  - unfold bind, lift.
    destruct (get_type_name fuel object_type None) as [type_name| |];
      try discriminate.
    intros Hregister. right. right. now exists schema, self1, type_name.
  - unfold ret. intros [= <- <-]. right. now left.
Qed.

Lemma _register_schema_schemas_kept (schema : Schema) (proposed : string)
    (self self' : OpenAPIHandler) (reference : Reference) :
  _register_schema schema proposed self = Ok (reference, self') ->
  schemas_kept self self' /\ registered self' reference
  /\ _objects_references self' = _objects_references self.
Proof.
  destruct (_register_schema_returns schema proposed self)
    as (name & Hfree & ->).
  intros [= <- <-]. split; [|split; [|reflexivity]].
  - intros k v Hk. unfold schemas_of at 1. cbn.
    rewrite dict_get_set_other; [exact Hk|].
    intros ->. unfold dict_mem in Hfree. now rewrite Hk in Hfree.
  - exists name. split; [reflexivity|]. unfold schemas_of at 1. cbn.
    apply dict_mem_set_same.
Qed.

(** X2.  Neither [get_schema_by_type] nor [register_schema_for_type] ever
    removes or replaces a schema of [components.schemas]: what was
    registered under a name before the call is registered under that name
    after it. *)
Theorem registered_schemas_are_kept (host : Host) (fuel : nat)
    (self self' : OpenAPIHandler) :
  (forall object_type type_args result,
      get_schema_by_type host fuel object_type type_args self
      = Ok (result, self') ->
      schemas_kept self self')
  /\ (forall object_type reference,
        register_schema_for_type host fuel object_type self
        = Ok (reference, self') ->
        schemas_kept self self').
Proof.
  split.
  - intros object_type type_args result.
    apply get_schema_by_type_schemas_kept.
  - intros object_type reference Hregister.
    destruct (register_schema_for_type_inv _ _ _ _ _ _ Hregister)
      as [[-> _]|[Hresolved|(schema & self1 & type_name & Hresolved & _
                             & Hadded)]].
    + apply schemas_kept_refl.
    + exact (get_schema_by_type_schemas_kept _ _ _ _ _ _ _ Hresolved).
    + apply (schemas_kept_trans _ self1).
      * exact (get_schema_by_type_schemas_kept _ _ _ _ _ _ _ Hresolved).
      * exact (proj1 (_register_schema_schemas_kept _ _ _ _ _ Hadded)).
Qed.

(** [Item] resolved, and then [int] registered, in a fresh handler. *)
Lemma registered_schemas_are_kept_witness :
  schemas_kept App.self0 after_Item
  /\ forall self' reference,
       register_schema_for_type App.host 4 (TBuiltin b_int) after_Item
       = Ok (reference, self') ->
       schemas_kept after_Item self'.
Proof.
  split.
  - refine (proj1 (registered_schemas_are_kept App.host 4 App.self0
                     after_Item) (OfType App.Item) None _ _).
    vm_compute. reflexivity.
  - intros self' reference.
    exact (proj2 (registered_schemas_are_kept App.host 4 after_Item self')
             (TBuiltin b_int) reference).
Defined.

(** X3.  When every reference of the cache points to a registered schema, this
    is still so after [get_schema_by_type] and [register_schema_for_type],
    and the reference they answer points to a registered schema: no
    reference is left dangling. *)
Theorem cached_references_are_registered (host : Host) (fuel : nat)
    (self self' : OpenAPIHandler) :
  references_registered self ->
  (forall object_type type_args result,
      get_schema_by_type host fuel object_type type_args self
      = Ok (result, self') ->
      references_registered self'
      /\ forall reference, result = IsRef reference ->
                           registered self' reference)
  /\ (forall object_type reference,
        register_schema_for_type host fuel object_type self
        = Ok (reference, self') ->
        references_registered self' /\ registered self' reference).
Proof.
  intros Hvalid.
  assert (forall object_type type_args result s',
             get_schema_by_type host fuel object_type type_args self
             = Ok (result, s') ->
             references_registered s'
             /\ forall reference, result = IsRef reference ->
                                  registered s' reference) as Hresolve.
  { intros object_type type_args result s' Hresolved.
    pose proof (get_schema_by_type_references_registered _ _ _ _ _ _ _
                  Hvalid Hresolved) as Hvalid'.
    split; [exact Hvalid'|]. intros reference ->.
    destruct (get_schema_by_type_reference_cached _ _ _ _ _ _ _ Hresolved)
      as (key & Hkey).
    exact (Hvalid' _ _ Hkey). }
  split; [intros object_type type_args result; apply Hresolve|].
  intros object_type reference Hregister.
  destruct (register_schema_for_type_inv _ _ _ _ _ _ Hregister)
    as [[-> Hcached]|[Hresolved|(schema & self1 & type_name & Hresolved & _
                                 & Hadded)]].
  - split; [exact Hvalid|]. exact (Hvalid _ _ Hcached).
  - destruct (Hresolve _ _ _ _ Hresolved) as (Hvalid' & Hreference).
    split; [exact Hvalid'|]. now apply Hreference.
  - destruct (Hresolve _ _ _ _ Hresolved) as (Hvalid1 & _).
    destruct (_register_schema_schemas_kept _ _ _ _ _ Hadded)
      as (Hkept & Hnew & Hrefs).
    split; [|exact Hnew].
    intros key stored. rewrite Hrefs. intros Hkey.
    exact (registered_kept _ _ _ Hkept (Hvalid1 _ _ Hkey)).
Qed.

(** The cache of a fresh handler is empty; [Item] is resolved in it. *)
Lemma cached_references_are_registered_witness :
  references_registered App.self0
  /\ references_registered after_Item
  /\ registered after_Item {| ref := "#/components/schemas/Item" |}.
Proof.
  assert (references_registered App.self0) as Hfresh.
  { intros key reference. cbn. discriminate. }
  split; [exact Hfresh|].
  destruct (proj1 (cached_references_are_registered App.host 4 App.self0
                     after_Item Hfresh)
              (OfType App.Item) None
              (IsRef {| ref := "#/components/schemas/Item" |}))
    as (Hvalid & Hreference).
  { vm_compute. reflexivity. }
  split; [exact Hvalid|]. now apply Hreference.
Defined.

(** X4.  [get_parameters], [get_request_body] and [get_responses] keep every
    registered schema, every key of the reference cache and the
    configuration of the handler, and keep the cache pointing to
    registered schemas. *)
Theorem documenting_keeps_the_registry (host : Host) (common : Common)
    (fuel : nat) (handler : Handler) (self self' : OpenAPIHandler) :
  (exists documented,
      get_parameters host fuel handler self = Ok (documented, self'))
  \/ (exists documented,
         get_request_body host fuel handler self = Ok (documented, self'))
  \/ (exists documented,
         get_responses host common fuel handler self
         = Ok (documented, self')) ->
  schemas_kept self self'
  /\ keys_kept self self'
  /\ same_configuration self self'
  /\ (references_registered self -> references_registered self').
Proof.
  intros Hdocumented.
  assert (forall Inv : OpenAPIHandler -> Prop,
             (forall object_type type_args s result s',
                 Inv s ->
                 get_schema_by_type host fuel object_type type_args s
                 = Ok (result, s') -> Inv s') ->
             Inv self -> Inv self') as Heffects.
  { intros Inv Hresolve HI.
    destruct Hdocumented as [(documented & Hparameters)
                            |[(documented & Hbody)|(documented & Hresponses)]].
    - exact (get_parameters_effects host fuel Inv Hresolve _ _ _ _ HI
               Hparameters).
    - exact (get_request_body_effects host fuel Inv Hresolve _ _ _ _ HI
               Hbody).
    - exact (get_responses_effects host common fuel Inv Hresolve _ _ _ _ HI
               Hresponses). }
  split; [|split; [|split]].
  - apply (Heffects (schemas_kept self)); [|apply schemas_kept_refl].
    intros object_type type_args s result s' Hs Hresolved.
    apply (schemas_kept_trans _ _ _ Hs).
    exact (get_schema_by_type_schemas_kept _ _ _ _ _ _ _ Hresolved).
  - apply (Heffects (keys_kept self)); [|apply keys_kept_refl].
    intros object_type type_args s result s' Hs Hresolved.
    apply (keys_kept_trans _ _ _ Hs).
    exact (get_schema_by_type_keys_kept _ _ _ _ _ _ _ Hresolved).
  - apply (Heffects (same_configuration self)).
    + intros object_type type_args s result s' Hs Hresolved.
      apply (same_configuration_trans _ _ _ Hs).
      exact (get_schema_by_type_configuration _ _ _ _ _ _ _ Hresolved).
    + unfold same_configuration. tauto.
  - apply (Heffects references_registered).
    intros object_type type_args s result s' Hs Hresolved.
    exact (get_schema_by_type_references_registered _ _ _ _ _ _ _ Hs
             Hresolved).
Qed.

(** A handler that takes an [Item] as its JSON body, documented in a fresh
    handler. *)
Lemma documenting_keeps_the_registry_witness :
  schemas_kept App.self0 after_Item
  /\ keys_kept App.self0 after_Item
  /\ same_configuration App.self0 after_Item
  /\ (references_registered App.self0 -> references_registered after_Item).
Proof.
  apply (documenting_keeps_the_registry App.host App.common 4
           {| binders := Some [AppHandlers.json_body App.Item];
              return_type := NoReturnType;
              docs := None |}).
  right. left. eexists. vm_compute. reflexivity.
Defined.

(* ================================================================== *)
(** ** Types with an explicit schema, primitive types, arrays, enums *)

Lemma check_union_not_union (t : PyType) :
  is_union t = false -> check_union (OfType t) = Ok (false, OfType t).
Proof. destruct t; try reflexivity. discriminate. Qed.

(** The start of [get_schema_by_type] for a type that is not in the cache
    and is not a union, called without generic bindings: the answer is
    that of [_get_schema_by_type] after its own cache lookup, with
    [nullable] set to [False] when it is a schema. *)
Lemma get_schema_by_type_miss (host : Host) (fuel : nat) (t : PyType)
    (self : OpenAPIHandler) :
  dict_get (_objects_references self) t = None ->
  is_union t = false ->
  get_schema_by_type host (S fuel) (OfType t) None self
  = match _get_schema_by_type host (get_schema_by_type host fuel) fuel
            (OfType t) None self with
    | Ok (IsSchema schema, self') =>
        Ok (IsSchema (set_nullable schema false), self')
    | other => other
    end.
Proof.
  intros Hmiss Hunion. rewrite get_schema_by_type_S.
  unfold get_schema_by_type_body. unfold bind at 1.
  unfold _get_stored_reference at 1. rewrite Hmiss. cbn [truthy_opt].
  unfold bind at 1, lift. rewrite (check_union_not_union _ Hunion).
  unfold bind.
  destruct (_get_schema_by_type host (get_schema_by_type host fuel) fuel
              (OfType t) None self) as [[[schema|resolved] self']| |];
    reflexivity.
Qed.

(** X5.  A type with an explicit schema ([_types_schemas]) is registered with
    that schema, whatever the type handlers would report as its fields:
    the schema is stored under the first free name derived from the name
    of the type, and the reference to it is cached for the type. *)
Theorem explicit_schema_is_registered (host : Host) (fuel : nat)
    (t : PyType) (schema : Schema) (type_name : string)
    (self : OpenAPIHandler) :
  dict_get (_types_schemas self) t = Some schema ->
  dict_get (_objects_references self) t = None ->
  is_union t = false ->
  get_type_name fuel t (Some []) = Ok type_name ->
  exists name self',
    get_schema_by_type host (S fuel) (OfType t) None self
    = Ok (IsRef {| ref := "#/components/schemas/" ++ name |}, self')
    /\ dict_mem (schemas_of self) name = false
    /\ (dict_mem (schemas_of self) type_name = false -> name = type_name)
    /\ schemas_of self' = dict_set (schemas_of self) name schema
    /\ dict_get (_objects_references self') t
       = Some {| ref := "#/components/schemas/" ++ name |}.
Proof.
  intros Hexplicit Hmiss Hunion Hname.
  rewrite (get_schema_by_type_miss _ _ _ _ Hmiss Hunion).
  unfold _get_schema_by_type. unfold bind at 1.
  unfold _get_stored_reference at 1. rewrite Hmiss. cbn [truthy_opt].
  assert (dict_mem (_types_schemas self) t = true) as Hmem.
  { unfold dict_mem. now rewrite Hexplicit. }
  assert (_can_handle_class_type self t = true) as Hhandled.
  { unfold _can_handle_class_type. rewrite Hmem. apply orb_true_r. }
  rewrite Hhandled. unfold bind at 1. unfold _get_schema_for_class.
  rewrite Hhandled, Hmem. cbn [negb].
  unfold _handle_type_having_explicit_schema. rewrite Hexplicit.
  unfold bind at 1, lift. rewrite Hname. unfold bind at 1.
  destruct (_register_schema_returns schema type_name self)
    as (name & Hfree & Hregister).
  rewrite Hregister. unfold bind, store_reference, ret.
  exists name. eexists. split; [reflexivity|].
  split; [exact Hfree|]. split; [|split].
  - intros Hfree'.
    rewrite (_register_schema_fresh schema type_name self Hfree') in Hregister.
    injection Hregister as Href _. now symmetry.
  - reflexivity.
  - cbn [_objects_references set_objects_references].
    destruct (PyType_eq_dec (TStr type_name) t) as [<-|Hne].
    + apply dict_get_set_same.
    + rewrite dict_get_set_other by exact Hne. apply dict_get_set_same.
Qed.

(** [Item] given an explicit schema, in an otherwise fresh handler: its
    two declared fields are not looked at. *)
Lemma explicit_schema_is_registered_witness :
  exists name self',
    get_schema_by_type App.host 2 (OfType App.Item) None
      explicit_Item
    = Ok (IsRef {| ref := "#/components/schemas/" ++ name |}, self')
    /\ dict_mem (schemas_of explicit_Item) name = false
    /\ (dict_mem (schemas_of explicit_Item) "Item" = false -> name = "Item")
    /\ schemas_of self'
       = dict_set (schemas_of explicit_Item) name (Schema_of_type STRING)
    /\ dict_get (_objects_references self') App.Item
       = Some {| ref := "#/components/schemas/" ++ name |}.
Proof.
  apply (explicit_schema_is_registered App.host 1 App.Item
           (Schema_of_type STRING) "Item" explicit_Item); reflexivity.
Defined.

(** [_get_schema_by_type] for a type that is not in the cache and that
    no handler claims, called without generic bindings. *)
Lemma _get_schema_by_type_unclaimed (host : Host)
    (rec : TypeOrSchema -> TypeArgs -> M SchemaOrRef) (fuel : nat)
    (t : PyType) (self : OpenAPIHandler) :
  dict_get (_objects_references self) t = None ->
  _can_handle_class_type self t = false ->
  _get_schema_by_type host rec fuel (OfType t) None self
  = match _try_get_schema_for_simple_type t with
    | Some schema => Ok (IsSchema schema, self)
    | None =>
        (iterable <- _try_get_schema_for_iterable rec t None ;;
         match iterable with
         | Some schema => ret (IsSchema schema)
         | None =>
             generic <-
               (if isinstance_GenericAlias t
                then _try_get_schema_for_generic host rec fuel t None
                else ret None) ;;
             match generic with
             | Some reference => ret (IsRef reference)
             | None =>
                 match (if isclass t
                        then _try_get_schema_for_enum host t else None) with
                 | Some schema => ret (IsSchema schema)
                 | None => ret (IsSchema Schema_empty)
                 end
             end
         end) self
    end.
Proof.
  intros Hmiss Hunclaimed. unfold _get_schema_by_type. unfold bind at 1.
  unfold _get_stored_reference at 1. rewrite Hmiss. cbn [truthy_opt].
  now rewrite Hunclaimed.
Qed.

Lemma _try_get_schema_for_simple_type_builtin (t : PyType) (schema : Schema) :
  _try_get_schema_for_simple_type t = Some schema ->
  is_union t = false
  /\ exists type_name,
       forall fuel, get_type_name (S fuel) t None = Ok type_name.
Proof.
  destruct t as [b| | | | | | |]; try discriminate.
  intros _. split; [reflexivity|]. now exists (builtin_name b).
Qed.

(** X6.  One of the seven primitive types ([str], [int], [float], [bool],
    [UUID], [date], [datetime]) that no handler claims resolves to its
    inline schema and leaves the handler as it is: the type is not cached.
    As a consequence [register_schema_for_type] registers the schema anew
    at every call: two calls in a row store it under two different names
    and leave the reference cache unchanged. *)
Theorem primitive_types_are_not_cached (host : Host) (fuel : nat)
    (t : PyType) (schema : Schema) (self : OpenAPIHandler) :
  _try_get_schema_for_simple_type t = Some schema ->
  dict_get (_objects_references self) t = None ->
  _can_handle_class_type self t = false ->
  get_schema_by_type host (S fuel) (OfType t) None self
  = Ok (IsSchema (set_nullable schema false), self)
  /\ exists name1 name2 self1 self2,
       register_schema_for_type host (S fuel) t self
       = Ok ({| ref := "#/components/schemas/" ++ name1 |}, self1)
       /\ register_schema_for_type host (S fuel) t self1
          = Ok ({| ref := "#/components/schemas/" ++ name2 |}, self2)
       /\ name1 <> name2
       /\ dict_get (schemas_of self2) name1 = Some (set_nullable schema false)
       /\ dict_get (schemas_of self2) name2 = Some (set_nullable schema false)
       /\ length (schemas_of self2) = S (S (length (schemas_of self)))
       /\ _objects_references self2 = _objects_references self.
Proof.
  intros Hsimple Hmiss Hunclaimed.
  destruct (_try_get_schema_for_simple_type_builtin _ _ Hsimple)
    as (Hunion & type_name & Hname).
  assert (forall s,
             dict_get (_objects_references s) t = None ->
             _can_handle_class_type s t = false ->
             get_schema_by_type host (S fuel) (OfType t) None s
             = Ok (IsSchema (set_nullable schema false), s)) as Hresolve.
  { intros s Hs Hc. rewrite (get_schema_by_type_miss _ _ _ _ Hs Hunion).
    rewrite (_get_schema_by_type_unclaimed _ _ _ _ _ Hs Hc).
    now rewrite Hsimple. }
  split; [now apply Hresolve|].
  assert (forall s,
             dict_get (_objects_references s) t = None ->
             _can_handle_class_type s t = false ->
             register_schema_for_type host (S fuel) t s
             = _register_schema (set_nullable schema false) type_name s)
    as Hregister.
  { intros s Hs Hc. unfold register_schema_for_type. unfold bind at 1.
    unfold _get_stored_reference. rewrite Hs. cbn [truthy_opt].
    unfold bind at 1. rewrite (Hresolve s Hs Hc).
    unfold bind, lift. now rewrite Hname. }
  destruct (_register_schema_returns (set_nullable schema false) type_name
              self) as (name1 & Hfree1 & Hfirst).
  set (self1 := set_components_schemas self
                  (dict_set (schemas_of self) name1
                     (set_nullable schema false))) in *.
  destruct (_register_schema_returns (set_nullable schema false) type_name
              self1) as (name2 & Hfree2 & Hsecond).
  set (self2 := set_components_schemas self1
                  (dict_set (schemas_of self1) name2
                     (set_nullable schema false))) in *.
  exists name1, name2, self1, self2.
  split; [rewrite (Hregister self Hmiss Hunclaimed); exact Hfirst|].
  split; [rewrite (Hregister self1 Hmiss Hunclaimed); exact Hsecond|].
  assert (schemas_of self1
          = dict_set (schemas_of self) name1 (set_nullable schema false))
    as Hschemas1 by reflexivity.
  assert (schemas_of self2
          = dict_set (schemas_of self1) name2 (set_nullable schema false))
    as Hschemas2 by reflexivity.
  assert (name1 <> name2) as Hdistinct.
  { intros ->. revert Hfree2. rewrite Hschemas1.
    now rewrite dict_mem_set_same. }
  split; [exact Hdistinct|]. rewrite Hschemas2.
  split; [|split; [|split]].
  - rewrite dict_get_set_other by (intros E; now apply Hdistinct).
    rewrite Hschemas1. apply dict_get_set_same.
  - apply dict_get_set_same.
  - rewrite (dict_set_length_fresh _ _ _ Hfree2), Hschemas1.
    now rewrite (dict_set_length_fresh _ _ _ Hfree1).
  - reflexivity.
Qed.

(** [int], in a fresh handler. *)
Lemma primitive_types_are_not_cached_witness :
  get_schema_by_type App.host 1 (OfType (TBuiltin b_int)) None App.self0
  = Ok (IsSchema (set_nullable (Schema_of_type_format INTEGER INT64) false),
        App.self0)
  /\ exists name1 name2 self1 self2,
       register_schema_for_type App.host 1 (TBuiltin b_int) App.self0
       = Ok ({| ref := "#/components/schemas/" ++ name1 |}, self1)
       /\ register_schema_for_type App.host 1 (TBuiltin b_int) self1
          = Ok ({| ref := "#/components/schemas/" ++ name2 |}, self2)
       /\ name1 <> name2
       /\ dict_get (schemas_of self2) name1
          = Some (set_nullable (Schema_of_type_format INTEGER INT64) false)
       /\ dict_get (schemas_of self2) name2
          = Some (set_nullable (Schema_of_type_format INTEGER INT64) false)
       /\ length (schemas_of self2) = S (S (length (schemas_of App.self0)))
       /\ _objects_references self2 = _objects_references App.self0.
Proof.
  apply (primitive_types_are_not_cached App.host 0 (TBuiltin b_int));
    reflexivity.
Defined.

(** X7.  A parametrized [list], [set], [tuple] or [Sequence] that is not in
    the cache and that no handler claims resolves, without generic
    bindings, to an array schema whose items are what the first type
    argument ([str] when there is none) resolves to; the handler is left
    as the resolution of the item type leaves it, and an exception of that
    resolution is not caught.  The bare classes [list], [set] and [tuple]
    resolve to an array of strings and leave the handler as it is. *)
Theorem iterables_resolve_to_arrays (host : Host) (fuel : nat)
    (t : PyType) (self : OpenAPIHandler) :
  dict_get (_objects_references self) t = None ->
  _can_handle_class_type self t = false ->
  (forall origin args,
      t = TAlias origin args -> is_iterable_origin origin = true ->
      get_schema_by_type host (S fuel) (OfType t) None self
      = match get_schema_by_type host fuel
                (OfType (hd (TBuiltin b_str) args)) None self with
        | Ok (items, self') =>
            Ok (IsSchema (mkSchema (Some ARRAY) None None None (Some items)
                            None (Some false)),
                self')
        | Raise e => Raise e
        | OutOfFuel => OutOfFuel
        end)
  /\ (is_bare_iterable t = true ->
      get_schema_by_type host (S fuel) (OfType t) None self
      = Ok (IsSchema (mkSchema (Some ARRAY) None None None
                        (Some (IsSchema (Schema_of_type STRING)))
                        None (Some false)),
            self)).
Proof.
  intros Hmiss Hunclaimed. split.
  - intros origin args -> Horigin.
    rewrite (get_schema_by_type_miss _ _ _ _ Hmiss eq_refl).
    rewrite (_get_schema_by_type_unclaimed _ _ _ _ _ Hmiss Hunclaimed).
    cbn [_try_get_schema_for_simple_type]. unfold bind at 1.
    unfold _try_get_schema_for_iterable.
    cbn [is_bare_iterable get_origin __args__ bound_type].
    rewrite Horigin. cbn [negb]. unfold bind at 1.
    replace (match args with
             | [] => TBuiltin b_str
             | first :: _ => first
             end) with (hd (TBuiltin b_str) args)
      by (now destruct args).
    destruct (get_schema_by_type host fuel
                (OfType (hd (TBuiltin b_str) args)) None self)
      as [[items self']| |]; reflexivity.
  - intros Hbare.
    assert (is_union t = false) as Hunion
        by (destruct t; try reflexivity; discriminate).
    rewrite (get_schema_by_type_miss _ _ _ _ Hmiss Hunion).
    rewrite (_get_schema_by_type_unclaimed _ _ _ _ _ Hmiss Hunclaimed).
    assert (_try_get_schema_for_simple_type t = None) as ->.
    { destruct t as [[]| | | | | | |]; try discriminate; reflexivity. }
    unfold bind at 1. unfold _try_get_schema_for_iterable.
    rewrite Hbare. reflexivity.
Qed.

(** [List[Item]], in a fresh handler: an array of references to [Item]. *)
Lemma iterables_resolve_to_arrays_witness :
  get_schema_by_type App.host 5
    (OfType (TAlias (TBuiltin b_list) [App.Item])) None App.self0
  = Ok (IsSchema (mkSchema (Some ARRAY) None None None
                    (Some (IsRef {| ref := "#/components/schemas/Item" |}))
                    None (Some false)),
        after_Item).
Proof.
  rewrite (proj1 (iterables_resolve_to_arrays App.host 4
                    (TAlias (TBuiltin b_list) [App.Item]) App.self0
                    eq_refl eq_refl)
             (TBuiltin b_list) [App.Item] eq_refl eq_refl).
  vm_compute. reflexivity.
Defined.

(** X8.  A class that is not in the cache, that no handler claims and that is
    not a primitive type resolves inline and leaves the handler as it is:
    to an integer schema listing the member values for a subclass of
    [IntEnum], to a string schema listing them for another subclass of
    [Enum], and to the empty schema for any other class, for which
    nothing is raised. *)
Theorem unclaimed_classes_resolve_inline (host : Host) (fuel : nat)
    (module class_name : string) (self : OpenAPIHandler) :
  let t := TClass module class_name in
  dict_get (_objects_references self) t = None ->
  _can_handle_class_type self t = false ->
  get_schema_by_type host (S fuel) (OfType t) None self
  = Ok (IsSchema
          (mkSchema
             (if issubclass_IntEnum host t then Some INTEGER
              else if issubclass_Enum host t then Some STRING
              else None)
             None None None None
             (if issubclass_IntEnum host t || issubclass_Enum host t
              then Some (enum_values host t) else None)
             (Some false)),
        self).
Proof.
  intros t Hmiss Hunclaimed.
  rewrite (get_schema_by_type_miss _ _ _ _ Hmiss eq_refl).
  rewrite (_get_schema_by_type_unclaimed _ _ _ _ _ Hmiss Hunclaimed).
  subst t. cbn [_try_get_schema_for_simple_type]. unfold bind at 1.
  unfold _try_get_schema_for_iterable.
  cbn [is_bare_iterable get_origin]. unfold ret at 1.
  cbn [isinstance_GenericAlias isclass]. unfold bind, ret.
  unfold _try_get_schema_for_enum.
  destruct (issubclass_IntEnum host (TClass module class_name));
    [reflexivity|].
  destruct (issubclass_Enum host (TClass module class_name)); reflexivity.
Qed.

(** A class [Color] of the application that is not a dataclass and, for
    the host of the application, not an enum. *)
Lemma unclaimed_classes_resolve_inline_witness :
  get_schema_by_type App.host 1 (OfType (TClass "app" "Color")) None
    App.self0
  = Ok (IsSchema (mkSchema None None None None None None (Some false)),
        App.self0).
Proof.
  apply (unclaimed_classes_resolve_inline App.host 0 "app" "Color" App.self0);
    reflexivity.
Defined.

(* ================================================================== *)
(** ** More on dictionaries *)

Section MoreDictFacts.
Context {K V : Type} `{EqDec K}.

Lemma dict_keys_set (d : dict K V) (k k' : K) (v : V) :
  In k' (dict_keys (dict_set d k v)) <-> k' = k \/ In k' (dict_keys d).
Proof.
  rewrite <- !dict_mem_In. destruct (eq_dec k k') as [<-|Hne].
  - rewrite dict_mem_set_same. tauto.
  - rewrite dict_mem_set_other by exact Hne. split; [tauto|].
    intros [->|Hk]; [congruence|exact Hk].
Qed.

Lemma dict_set_NoDup (d : dict K V) (k : K) (v : V) :
  NoDup (dict_keys d) -> NoDup (dict_keys (dict_set d k v)).
Proof.
  unfold dict_keys. induction d as [|[k' v'] d IH]; simpl.
  - intros _. constructor; [tauto|constructor].
  - intros Hnd. inversion Hnd as [|? ? Hnotin Hrest]; subst.
    destruct (eq_dec k' k) as [->|Hne]; simpl.
    + now constructor.
    + constructor; [|now apply IH].
      intros Hin. apply Hnotin.
      change (In k' (dict_keys (dict_set d k v))) in Hin.
      apply dict_keys_set in Hin. destruct Hin as [->|Hin]; [congruence|].
      exact Hin.
Qed.

Lemma dict_set_Forall (P : K * V -> Prop) (d : dict K V) (k : K) (v : V) :
  P (k, v) -> Forall P d -> Forall P (dict_set d k v).
Proof.
  intros Hv. induction d as [|[k' v'] d IH]; simpl; intros Hd.
  - constructor; [exact Hv|constructor].
  - inversion Hd; subst.
    destruct (eq_dec k' k) as [->|Hne]; constructor; auto.
Qed.

Lemma dict_get_In (d : dict K V) (k : K) (v : V) :
  dict_get d k = Some v -> In (k, v) d.
Proof.
  induction d as [|[k' v'] d IH]; simpl; [discriminate|].
  destruct (eq_dec k' k) as [->|Hne].
  - intros [= ->]. now left.
  - intros Hd. right. now apply IH.
Qed.

Lemma dict_In_get (d : dict K V) (k : K) (v : V) :
  NoDup (dict_keys d) -> In (k, v) d -> dict_get d k = Some v.
Proof.
  unfold dict_keys. induction d as [|[k' v'] d IH]; simpl; [tauto|].
  intros Hnd. inversion Hnd as [|? ? Hnotin Hrest]; subst.
  intros [[= -> ->]|Hin].
  - destruct (eq_dec k k); congruence.
  - destruct (eq_dec k' k) as [->|Hne]; [|now apply IH].
    exfalso. apply Hnotin. apply in_map_iff. now exists (k, v).
Qed.

Lemma dict_update_mem (e : list (K * V)) :
  forall (d : dict K V) (k : K),
    dict_mem (dict_update d e) k = true
    <-> dict_mem d k = true \/ In k (map fst e).
Proof.
  unfold dict_update.
  induction e as [|[k' v'] e IH]; intros d k; simpl.
  - tauto.
  - rewrite IH. destruct (eq_dec k' k) as [->|Hne].
    + rewrite dict_mem_set_same. tauto.
    + rewrite dict_mem_set_other by exact Hne. split; [tauto|].
      intros [Hd|[E|Hin]]; [tauto|congruence|tauto].
Qed.

Lemma dict_update_get_other (e : list (K * V)) :
  forall (d : dict K V) (k : K),
    ~ In k (map fst e) -> dict_get (dict_update d e) k = dict_get d k.
Proof.
  unfold dict_update.
  induction e as [|[k' v'] e IH]; intros d k Hnot; simpl.
  - reflexivity.
  - rewrite IH by (intros Hin; apply Hnot; now right).
    apply dict_get_set_other. intros E. apply Hnot. now left.
Qed.

Lemma dict_update_NoDup (e : list (K * V)) :
  forall d : dict K V, NoDup (dict_keys d) -> NoDup (dict_keys (dict_update d e)).
Proof.
  unfold dict_update.
  induction e as [|[k' v'] e IH]; intros d Hd; simpl.
  - exact Hd.
  - apply IH. now apply dict_set_NoDup.
Qed.
End MoreDictFacts.

(* ================================================================== *)
(** ** The documented parameters of a handler *)

Section ParametersLoops.
Variable host : Host.
Variable fuel : nat.

Lemma get_parameters_binders_loop_spec
    (parameters_info : dict string ParameterInfo) (todo : list Binder) :
  forall params self result self',
    get_parameters_binders_loop host fuel parameters_info todo params self
    = Ok (result, self') ->
    (NoDup (dict_keys params) -> NoDup (dict_keys result))
    /\ (Forall stored_under_its_name params -> Forall stored_under_its_name result)
    /\ (Forall required_if_path params -> Forall required_if_path result)
    /\ (forall n, In n (dict_keys result)
                  <-> In n (dict_keys params) \/ bound_parameter todo n).
Proof.
  induction todo as [|binder todo IH]; intros params self result self'.
  - unfold ret. intros [= <- _]. repeat split; auto.
    intros [Hin|(binder & [] & _)]. exact Hin.
  - cbn [get_parameters_binders_loop].
    destruct (get_parameter_location_for_binder binder) as [location|]
      eqn:Hlocation.
    + unfold bind at 1.
      destruct (get_schema_by_type host fuel (OfType (expected_type binder))
                  None self) as [[schema self1]| |]; try discriminate.
      intros Hrest. apply IH in Hrest.
      destruct Hrest as (Hnd & Hnamed & Hpath & Hkeys).
      split; [|split; [|split]].
      * intros Hp. apply Hnd. now apply dict_set_NoDup.
      * intros Hp. apply Hnamed. apply dict_set_Forall; [|exact Hp].
        reflexivity.
      * intros Hp. apply Hpath. apply dict_set_Forall; [|exact Hp].
        unfold required_if_path. cbn. intros ->. reflexivity.
      * intros n. rewrite Hkeys, dict_keys_set. split.
        -- intros [[->|Hin]|(b & Hb & Hparam & Hname)].
           ++ right. exists binder. split; [now left|]. split; [|reflexivity].
              unfold is_parameter_binder. now rewrite Hlocation.
           ++ now left.
           ++ right. exists b. split; [now right|]. now split.
        -- intros [Hin|(b & [<-|Hb] & Hparam & Hname)].
           ++ left. now right.
           ++ left. left. now symmetry.
           ++ right. exists b. now split.
    + intros Hrest. apply IH in Hrest.
      destruct Hrest as (Hnd & Hnamed & Hpath & Hkeys).
      repeat split; auto.
      * intros Hin. apply Hkeys in Hin.
        destruct Hin as [Hin|(b & Hb & Hparam & Hname)]; [now left|].
        right. exists b. split; [now right|]. now split.
      * intros [Hin|(b & [<-|Hb] & Hparam & Hname)]; apply Hkeys.
        -- now left.
        -- unfold is_parameter_binder in Hparam.
           rewrite Hlocation in Hparam. discriminate.
        -- right. exists b. now split.
Qed.

Lemma get_parameters_info_loop_spec (todo : list (string * ParameterInfo)) :
  forall params self result self',
    get_parameters_info_loop host fuel todo params self = Ok (result, self') ->
    (NoDup (dict_keys params) -> NoDup (dict_keys result))
    /\ (Forall stored_under_its_name params -> Forall stored_under_its_name result)
    /\ (forall n, In n (dict_keys result)
                  <-> In n (dict_keys params) \/ In n (map fst todo))
    /\ (forall k, dict_mem params k = true ->
                  dict_get result k = dict_get params k).
Proof.
  induction todo as [|[key param_info] todo IH];
    intros params self result self'.
  - unfold ret. intros [= <- _]. repeat split; auto. intros [Hin|[]].
    exact Hin.
  - cbn [get_parameters_info_loop].
    destruct (dict_mem params key) eqn:Hkey.
    + intros Hrest. apply IH in Hrest.
      destruct Hrest as (Hnd & Hnamed & Hkeys & Hkept).
      repeat split; auto.
      * intros Hin. apply Hkeys in Hin.
        destruct Hin as [Hin|Hin]; [now left|right; now right].
      * intros [Hin|[Hin|Hin]]; apply Hkeys; auto.
        cbn in Hin. subst n. left. now apply dict_mem_In.
    + unfold bind at 1.
      match goal with
      | |- match ?m self with _ => _ end = _ -> _ =>
          destruct (m self) as [[schema self1]| |]; try discriminate
      end.
      intros Hrest. apply IH in Hrest.
      destruct Hrest as (Hnd & Hnamed & Hkeys & Hkept).
      split; [|split; [|split]].
      * intros Hp. apply Hnd. now apply dict_set_NoDup.
      * intros Hp. apply Hnamed. apply dict_set_Forall; [|exact Hp].
        reflexivity.
      * intros n. rewrite Hkeys, dict_keys_set. split.
        -- intros [[->|Hin]|Hin].
           ++ right. now left.
           ++ now left.
           ++ right. now right.
        -- intros [Hin|[Hin|Hin]].
           ++ left. now right.
           ++ cbn in Hin. subst n. left. now left.
           ++ now right.
      * intros k Hk. rewrite Hkept.
        -- apply dict_get_set_other. intros ->. congruence.
        -- rewrite dict_mem_set_other; [exact Hk|].
           intros ->. congruence.
Qed.

(** What the two loops of [get_parameters] build. *)
Lemma get_parameters_spec (handler : Handler) (handler_binders : list Binder)
    (self self' : OpenAPIHandler) (result : option (list ParameterDoc)) :
  binders handler = Some handler_binders ->
  get_parameters host fuel handler self = Ok (result, self') ->
  exists params1 params,
    result = Some (dict_values params)
    /\ NoDup (dict_keys params)
    /\ Forall stored_under_its_name params
    /\ Forall required_if_path params1
    /\ (forall n, In n (dict_keys params1)
                  <-> bound_parameter handler_binders n)
    /\ (forall n, In n (dict_keys params)
                  <-> bound_parameter handler_binders n
                      \/ In n (dict_keys (parameters_info_of handler)))
    /\ (forall k, dict_mem params1 k = true ->
                  dict_get params k = dict_get params1 k).
Proof.
  intros Hbinders. unfold get_parameters. rewrite Hbinders. cbv zeta.
  fold (parameters_info_of handler). unfold bind at 1.
  destruct (get_parameters_binders_loop host fuel (parameters_info_of handler)
              handler_binders [] self) as [[params1 self1]| |] eqn:Hloop1;
    try discriminate.
  unfold bind.
  destruct (get_parameters_info_loop host fuel (parameters_info_of handler)
              params1 self1) as [[params self2]| |] eqn:Hloop2;
    try discriminate.
  unfold ret. intros [= <- _].
  apply get_parameters_binders_loop_spec in Hloop1.
  destruct Hloop1 as (Hnd1 & Hnamed1 & Hpath1 & Hkeys1).
  apply get_parameters_info_loop_spec in Hloop2.
  destruct Hloop2 as (Hnd2 & Hnamed2 & Hkeys2 & Hkept2).
  exists params1, params. split; [reflexivity|].
  split; [apply Hnd2, Hnd1; constructor|].
  split; [apply Hnamed2, Hnamed1; constructor|].
  split; [apply Hpath1; constructor|].
  assert (forall n, In n (dict_keys params1)
                    <-> bound_parameter handler_binders n) as Hbound.
  { intros n. rewrite Hkeys1. cbn. tauto. }
  split; [exact Hbound|]. split; [|exact Hkept2].
  intros n. rewrite Hkeys2, Hbound. reflexivity.
Qed.
End ParametersLoops.

Lemma named_values (params : dict string ParameterDoc) :
  Forall stored_under_its_name params ->
  map param_name (dict_values params) = dict_keys params.
Proof.
  unfold dict_values, dict_keys. induction 1 as [|[k v] rest Hk Hrest IH].
  - reflexivity.
  - unfold stored_under_its_name in Hk. cbn in *. now rewrite Hk, IH.
Qed.

(** X9.  [get_parameters], for a handler that has binders, answers a list in
    which no two parameters have the same name, and whose names are
    exactly the names of the route, query, cookie and header binders and
    the names documented in [docs.parameters]: other binders (the body, a
    service) give no parameter, and a name that is both bound and
    documented gives one. *)
Theorem get_parameters_names (host : Host) (fuel : nat) (handler : Handler)
    (handler_binders : list Binder) (self self' : OpenAPIHandler)
    (result : option (list ParameterDoc)) :
  binders handler = Some handler_binders ->
  get_parameters host fuel handler self = Ok (result, self') ->
  exists documented,
    result = Some documented
    /\ NoDup (map param_name documented)
    /\ forall n,
         In n (map param_name documented)
         <-> bound_parameter handler_binders n
             \/ In n (dict_keys (parameters_info_of handler)).
Proof.
  intros Hbinders Hparameters.
  destruct (get_parameters_spec _ _ _ _ _ _ _ Hbinders Hparameters)
    as (params1 & params & -> & Hnd & Hnamed & _ & _ & Hkeys & _).
  exists (dict_values params). split; [reflexivity|].
  rewrite (named_values _ Hnamed). split; [exact Hnd|exact Hkeys].
Qed.

(** X10.  A parameter that comes from a binder and is documented as a path
    parameter is documented as required, whatever the [required] flag and
    the default of the binder, and whatever [docs.parameters] says of a
    parameter of that name. *)
Theorem path_parameters_are_required (host : Host) (fuel : nat)
    (handler : Handler) (handler_binders : list Binder)
    (self self' : OpenAPIHandler) (documented : list ParameterDoc)
    (parameter : ParameterDoc) :
  binders handler = Some handler_binders ->
  get_parameters host fuel handler self = Ok (Some documented, self') ->
  In parameter documented ->
  bound_parameter handler_binders (param_name parameter) ->
  param_in parameter = PATH ->
  param_required parameter = Some true.
Proof.
  intros Hbinders Hparameters Hin Hbound Hpath.
  destruct (get_parameters_spec _ _ _ _ _ _ _ Hbinders Hparameters)
    as (params1 & params & [= ->] & Hnd & Hnamed & Hpath1 & Hkeys1 & _
        & Hkept).
  unfold dict_values in Hin. apply in_map_iff in Hin.
  destruct Hin as ([k p] & Hp & Hentry). cbn in Hp. subst p.
  pose proof (proj1 (Forall_forall _ _) Hnamed _ Hentry) as Hname.
  unfold stored_under_its_name in Hname. cbn in Hname. rewrite Hname in Hbound.
  apply Hkeys1 in Hbound. apply dict_mem_In in Hbound.
  pose proof (dict_In_get _ _ _ Hnd Hentry) as Hget.
  rewrite (Hkept _ Hbound) in Hget. apply dict_get_In in Hget.
  exact (proj1 (Forall_forall _ _) Hpath1 _ Hget Hpath).
Qed.

(** The handler [get_item], documented in a fresh handler: the parameters
    [id], [page] and [verbose]; [id] is required although its binder and
    its documentation say otherwise. *)
Lemma get_parameters_names_witness :
  exists documented,
    NoDup (map param_name documented)
    /\ forall n,
         In n (map param_name documented)
         <-> bound_parameter
               [ItemHandlers.route_id; ItemHandlers.query_page;
                AppHandlers.json_body App.Item] n
             \/ In n (dict_keys (parameters_info_of ItemHandlers.get_item)).
Proof.
  assert (exists result self',
             get_parameters App.host 4 ItemHandlers.get_item App.self0
             = Ok (result, self')) as (result & self' & Hrun).
  { eexists. eexists. vm_compute. reflexivity. }
  destruct (get_parameters_names App.host 4 ItemHandlers.get_item _
              App.self0 self' result eq_refl Hrun)
    as (documented & _ & Hdistinct & Hnames).
  exists documented. split; assumption.
Defined.

Lemma path_parameters_are_required_witness :
  param_required ItemHandlers.parameter_id = Some true.
Proof.
  refine (path_parameters_are_required App.host 4 ItemHandlers.get_item
            [ItemHandlers.route_id; ItemHandlers.query_page;
             AppHandlers.json_body App.Item]
            App.self0 App.self0
            [ItemHandlers.parameter_id;
             {| param_name := "page";
                param_in := QUERY;
                param_required := None;
                param_schema :=
                  Some (IsSchema (set_nullable
                                    (Schema_of_type_format INTEGER INT64)
                                    false));
                param_description := Some "";
                param_example := None |};
             {| param_name := "verbose";
                param_in := QUERY;
                param_required := None;
                param_schema :=
                  Some (IsSchema (set_nullable (Schema_of_type BOOLEAN)
                                    false));
                param_description := Some "More details";
                param_example := None |}]
            ItemHandlers.parameter_id eq_refl _ _ _ eq_refl).
  - vm_compute. reflexivity.
  - left. reflexivity.
  - exists ItemHandlers.route_id. split; [now left|]. split; reflexivity.
Defined.

(* ================================================================== *)
(** ** The content types of a documented response *)

Section ContentLoop.
Variable host : Host.
Variable common : Common.
Variable fuel : nat.

Lemma _get_content_loop_keys (todo : list ContentInfo) :
  forall oad_content self result self',
    _get_content_loop host common fuel todo oad_content self
    = Ok (result, self') ->
    dict_keys result
    = (dict_keys oad_content ++ map ci_content_type todo)%list
    /\ (NoDup (dict_keys oad_content) ->
        NoDup (dict_keys oad_content ++ map ci_content_type todo)%list).
Proof.
  induction todo as [|content todo IH];
    intros oad_content self result self'.
  - unfold ret. intros [= <- _]. cbn. rewrite app_nil_r. auto.
  - cbn [_get_content_loop].
    destruct (dict_mem oad_content (ci_content_type content)) eqn:Hmem;
      [discriminate|].
    cbn [negb]. unfold bind at 1.
    destruct (_get_media_type_from_content_doc host common fuel content self)
      as [[media_type self1]| |]; try discriminate.
    intros Hrest. apply IH in Hrest. destruct Hrest as (Hkeys & Hnd).
    rewrite (dict_set_fresh _ _ _ Hmem) in Hkeys, Hnd.
    unfold dict_keys in *. rewrite map_app in Hkeys, Hnd. cbn in Hkeys, Hnd.
    rewrite <- app_assoc in Hkeys, Hnd. cbn in Hkeys, Hnd.
    split; [exact Hkeys|].
    intros Hold. apply Hnd.
    apply NoDup_app; [exact Hold|repeat constructor; tauto|].
    intros k Hk [<-|[]].
    change (In (ci_content_type content) (dict_keys oad_content)) in Hk.
    apply dict_mem_In in Hk. congruence.
Qed.

Lemma _get_content_loop_app (todo1 todo2 : list ContentInfo) :
  forall oad_content self,
    _get_content_loop host common fuel (todo1 ++ todo2)%list oad_content self
    = match _get_content_loop host common fuel todo1 oad_content self with
      | Ok (oad_content', self') =>
          _get_content_loop host common fuel todo2 oad_content' self'
      | Raise e => Raise e
      | OutOfFuel => OutOfFuel
      end.
Proof.
  induction todo1 as [|content todo1 IH]; intros oad_content self.
  - reflexivity.
  - rewrite <- app_comm_cons. cbn [_get_content_loop].
    destruct (negb (dict_mem oad_content (ci_content_type content)));
      [|reflexivity].
    unfold bind.
    destruct (_get_media_type_from_content_doc host common fuel content self)
      as [[media_type self1]| |]; try reflexivity.
    apply IH.
Qed.
End ContentLoop.

(** X11.  The contents documented for a response are filed by content type, in
    the order given, and each content type at most once: when
    [_get_content_from_response_info] returns for a non-empty list, no two
    of its contents have the same content type; and when the contents
    before one have been documented and that one repeats the content type
    of one of them, [DuplicatedContentTypeDocsException] is raised for it.
    No contents, or an empty list, gives [None]. *)
Theorem content_types_are_documented_once (host : Host) (common : Common)
    (fuel : nat) (self : OpenAPIHandler) :
  (forall first more documented self',
      _get_content_from_response_info host common fuel (Some (first :: more))
        self
      = Ok (documented, self') ->
      NoDup (map ci_content_type (first :: more))
      /\ exists oad_content,
           documented = Some oad_content
           /\ dict_keys oad_content = map ci_content_type (first :: more))
  /\ (forall before content after oad_content self1,
        _get_content_loop host common fuel before [] self
        = Ok (oad_content, self1) ->
        In (ci_content_type content) (map ci_content_type before) ->
        _get_content_from_response_info host common fuel
          (Some (before ++ content :: after)%list) self
        = Raise (DuplicatedContentTypeDocsException
                   (ci_content_type content)))
  /\ _get_content_from_response_info host common fuel None self
     = Ok (None, self)
  /\ _get_content_from_response_info host common fuel (Some []) self
     = Ok (None, self).
Proof.
  split; [|split; [|split; reflexivity]].
  - intros first more documented self'.
    unfold _get_content_from_response_info, bind.
    destruct (_get_content_loop host common fuel (first :: more) [] self)
      as [[oad_content self1]| |] eqn:Hloop; try discriminate.
    unfold ret. intros [= <- _].
    apply _get_content_loop_keys in Hloop. destruct Hloop as (Hkeys & Hnd).
    split; [apply Hnd; constructor|].
    exists oad_content. split; [reflexivity|exact Hkeys].
  - intros before content after oad_content self1 Hbefore Hin.
    assert (dict_mem oad_content (ci_content_type content) = true) as Hmem.
    { apply dict_mem_In.
      rewrite (proj1 (_get_content_loop_keys _ _ _ _ _ _ _ _ Hbefore)).
      exact Hin. }
    unfold _get_content_from_response_info.
    destruct before as [|first before]; [destruct Hin|].
    rewrite <- app_comm_cons. unfold bind at 1.
    rewrite app_comm_cons, _get_content_loop_app, Hbefore.
    cbn [_get_content_loop]. now rewrite Hmem.
Qed.

(** A response documented with two JSON contents. *)
Lemma content_types_are_documented_once_witness :
  _get_content_from_response_info App.host App.common 4
    (Some ([ContentInfo_of App.common (OfType App.Item)]
           ++ ContentInfo_of App.common (OfType App.Other) :: [])%list)
    App.self0
  = Raise (DuplicatedContentTypeDocsException "application/json").
Proof.
  refine (proj1 (proj2 (content_types_are_documented_once App.host
                          App.common 4 App.self0))
            [ContentInfo_of App.common (OfType App.Item)]
            (ContentInfo_of App.common (OfType App.Other)) [] _ _ _ _).
  - vm_compute. reflexivity.
  - left. reflexivity.
Defined.

(* ================================================================== *)
(** ** Documented responses and common responses *)

Lemma get_responses_loop_keys (host : Host) (common : Common) (fuel : nat)
    (todo : list (ResponseStatusType * ResponseValue)) :
  forall self result self',
    get_responses_loop host common fuel todo self = Ok (result, self') ->
    map fst result = documented_statuses common todo.
Proof.
  induction todo as [|[key value] todo IH]; intros self result self'.
  - unfold ret. now intros [= <- _].
  - cbn [get_responses_loop]. unfold bind at 1.
    match goal with
    | |- match ?m self with _ => _ end = _ -> _ =>
        destruct (m self) as [[doc self1]| |]; try discriminate
    end.
    unfold bind.
    destruct (get_responses_loop host common fuel todo self1)
      as [[rest self2]| |] eqn:Hrest; try discriminate.
    unfold ret. intros [= <- _]. cbn. f_equal. exact (IH _ _ _ Hrest).
Qed.

Lemma dict_of_list_keys {K V : Type} `{EqDec K} (l : list (K * V)) (k : K) :
  In k (dict_keys (dict_of_list l)) <-> In k (map fst l).
Proof.
  unfold dict_of_list. rewrite <- dict_mem_In, dict_update_mem.
  cbn. split; [intros [Hd|Hl]; [discriminate|exact Hl]|tauto].
Qed.

(** X12.  For a handler with documented responses, [get_responses] answers the
    common responses updated with the documented ones: every common
    status and every documented status is present, a common response
    whose status is not documented is kept as it is, and the return
    annotation of the handler plays no part. *)
Theorem documented_responses_extend_common (host : Host) (common : Common)
    (fuel : nat) (handler : Handler)
    (data : dict ResponseStatusType ResponseValue)
    (self self' : OpenAPIHandler)
    (result : option (dict string ResponseDoc)) :
  documented_responses handler = Some data ->
  data <> [] ->
  get_responses host common fuel handler self = Ok (result, self') ->
  (exists documented,
      result = Some documented
      /\ (forall status,
             dict_mem (common_docs common self) status = true ->
             dict_mem documented status = true)
      /\ (forall status,
             In status (documented_statuses common data) ->
             dict_mem documented status = true)
      /\ (forall status,
             ~ In status (documented_statuses common data) ->
             dict_get documented status
             = dict_get (common_docs common self) status))
  /\ forall r,
       get_responses host common fuel (with_return_type handler r) self
       = Ok (result, self').
Proof.
  intros Hdata Hnonempty.
  assert (truthy_opt (documented_responses handler) = true) as Htruthy.
  { rewrite Hdata. destruct data; [congruence|reflexivity]. }
  assert (forall r,
             get_responses host common fuel (with_return_type handler r) self
             = get_responses host common fuel handler self) as Hreturn.
  { intros r. unfold get_responses. cbv zeta.
    change (documented_responses (with_return_type handler r))
      with (documented_responses handler).
    now rewrite Htruthy. }
  intros Hresponses. split; [|intros r; now rewrite Hreturn].
  revert Hresponses. unfold get_responses. cbv zeta.
  rewrite Htruthy, Hdata. fold (common_docs common self). unfold bind.
  destruct (get_responses_loop host common fuel data self)
    as [[docs_of_data self1]| |] eqn:Hloop; try discriminate.
  unfold ret. intros [= <- _].
  apply get_responses_loop_keys in Hloop.
  eexists. split; [reflexivity|]. split; [|split].
  - intros status Hcommon. apply dict_update_mem. now left.
  - intros status Hdocumented. apply dict_update_mem. right.
    apply dict_of_list_keys. now rewrite Hloop.
  - intros status Hnot. apply dict_update_get_other.
    intros Hin. apply Hnot. rewrite <- Hloop.
    now apply dict_of_list_keys.
Qed.

(** The handler [documented]: the common response 401 is kept beside the
    documented 200 and 404. *)
Lemma documented_responses_extend_common_witness :
  exists documented,
    dict_mem documented "401" = true
    /\ dict_mem documented "200" = true
    /\ dict_mem documented "404" = true
    /\ dict_get documented "401" = Some DocumentedHandlers.unauthorized.
Proof.
  assert (exists result self',
             get_responses App.host App.common 4
               DocumentedHandlers.documented
               DocumentedHandlers.self_with_common
             = Ok (result, self')) as (result & self' & Hrun).
  { eexists. eexists. vm_compute. reflexivity. }
  destruct (documented_responses_extend_common App.host App.common 4
              DocumentedHandlers.documented
              DocumentedHandlers.documented_data
              DocumentedHandlers.self_with_common self' result eq_refl
              ltac:(discriminate) Hrun)
    as ((documented & _ & Hcommon & Hdocumented & Hkept) & _).
  exists documented. split; [|split; [|split]].
  - apply Hcommon. reflexivity.
  - apply Hdocumented. left. reflexivity.
  - apply Hdocumented. right. left. reflexivity.
  - rewrite Hkept; [reflexivity|].
    intros [E|[E|[]]]; discriminate E.
Defined.

(* ================================================================== *)
(** ** The merge of a docstring *)

Lemma dict_set_same_value {K V : Type} `{EqDec K} (d : dict K V) (k : K)
    (v : V) :
  dict_get d k = Some v -> dict_set d k v = d.
Proof.
  induction d as [|[k' v'] d IH]; simpl; [discriminate|].
  destruct (eq_dec k' k) as [->|Hne].
  - now intros [= ->].
  - intros Hd. now rewrite IH.
Qed.

Lemma dict_get_None_keys {K V : Type} `{EqDec K} (d : dict K V) (k : K) :
  dict_get d k = None <-> ~ In k (dict_keys d).
Proof.
  rewrite <- dict_mem_In. unfold dict_mem.
  destruct (dict_get d k); split; congruence.
Qed.

(** The keys of [parameters] after one parameter of the docstring. *)
Lemma _merge_parameter_keys (handler : Handler) (param_name : string)
    (param_info : ParameterInfo) (endpoint_docs merged : EndpointDocs) :
  _merge_parameter handler param_name param_info endpoint_docs = Ok merged ->
  forall n,
    In n (dict_keys (parameters_of merged))
    <-> In n (dict_keys (parameters_of endpoint_docs))
        \/ (n = param_name /\ documentable handler param_name).
Proof.
  unfold _merge_parameter. cbv zeta.
  destruct (dict_get (parameters_of endpoint_docs) param_name)
    as [matching_parameter|] eqn:Hmatching.
  - intros [= <-] n. unfold parameters_of at 1. cbn [parameters].
    rewrite dict_keys_set. split.
    + intros [->|Hin]; [|now left]. left. apply dict_mem_In.
      unfold dict_mem. now rewrite Hmatching.
    + intros [Hin|[-> _]]; [now right|now left].
  - unfold rbind.
    destruct (_get_binder_by_name handler param_name)
      as [matching_binder| |] eqn:Hbinder; try discriminate.
    destruct (isinstance_BodyBinder matching_binder) eqn:Hbody.
    { intros [= <-] n. unfold parameters_of at 1. cbn [parameters].
      split; [now left|]. intros [Hin|[_ (mb & Hmb & Hnot & _)]];
        [exact Hin|congruence]. }
    destruct (is_ignored_parameter param_name matching_binder) eqn:Hignored.
    { intros [= <-] n. unfold parameters_of at 1. cbn [parameters].
      split; [now left|]. intros [Hin|[_ (mb & Hmb & _ & Hnot)]];
        [exact Hin|congruence]. }
    intros [= <-] n. unfold parameters_of at 1. cbn [parameters].
    rewrite dict_keys_set. split.
    + intros [->|Hin]; [|now left]. right. split; [reflexivity|].
      now exists matching_binder.
    + intros [Hin|[-> _]]; [now right|now left].
Qed.

Lemma _merge_parameters_keys (handler : Handler)
    (todo : list (string * ParameterInfo)) :
  forall endpoint_docs merged,
    _merge_parameters handler todo endpoint_docs = Ok merged ->
    forall n,
      In n (dict_keys (parameters_of merged))
      <-> In n (dict_keys (parameters_of endpoint_docs))
          \/ (In n (dict_keys todo) /\ documentable handler n).
Proof.
  induction todo as [|[param_name param_info] todo IH];
    intros endpoint_docs merged.
  - intros [= <-] n. cbn. tauto.
  - cbn [_merge_parameters]. unfold rbind.
    destruct (_merge_parameter handler param_name param_info endpoint_docs)
      as [merged1| |] eqn:Hstep; try discriminate.
    intros Hrest n. rewrite (IH _ _ Hrest n).
    rewrite (_merge_parameter_keys _ _ _ _ _ Hstep n). cbn. split.
    + intros [[Hin|[-> Hdoc]]|[Hin Hdoc]]; auto.
    + intros [Hin|[[<-|Hin] Hdoc]]; auto.
Qed.

Lemma is_ignored_parameter_reserved (matching_binder : option Binder) :
  is_ignored_parameter "request" matching_binder = true
  /\ is_ignored_parameter "services" matching_binder = true.
Proof.
  unfold is_ignored_parameter.
  destruct matching_binder as [[[] ? ? ? ? ?]|]; split; reflexivity.
Qed.

(** X13.  After the merge of a docstring, the documented parameters are those
    documented before and the parameters of the docstring that are
    documentable: a parameter of the docstring that is bound to the body
    binder or to a binder without a parameter location, or that is named
    [request] or [services], is never added. *)
Theorem merge_adds_documentable_parameters (handler : Handler)
    (endpoint_docs merged : EndpointText) (docstring_info : DocstringInfo) :
  _merge_documentation handler endpoint_docs docstring_info = Ok merged ->
  (forall n,
      In n (dict_keys (parameters_of (ed_docs merged)))
      <-> In n (dict_keys (parameters_of (ed_docs endpoint_docs)))
          \/ (In n (dict_keys (ds_parameters docstring_info))
              /\ documentable handler n))
  /\ (forall n matching_binder,
        _get_binder_by_name handler n = Ok matching_binder ->
        isinstance_BodyBinder matching_binder = true
        \/ is_parameter_binder_option matching_binder = false
        \/ n = "request" \/ n = "services" ->
        In n (dict_keys (parameters_of (ed_docs merged))) ->
        In n (dict_keys (parameters_of (ed_docs endpoint_docs)))).
Proof.
  unfold _merge_documentation, rbind.
  destruct (_merge_parameters handler (ds_parameters docstring_info)
              (ed_docs endpoint_docs)) as [merged_docs| |] eqn:Hloop;
    try discriminate.
  intros [= <-]. cbn [ed_docs].
  pose proof (_merge_parameters_keys _ _ _ _ Hloop) as Hkeys.
  split; [exact Hkeys|].
  intros n matching_binder Hbinder Hskipped Hin.
  apply Hkeys in Hin. destruct Hin as [Hin|[_ (mb & Hmb & Hbody & Hignored)]];
    [exact Hin|exfalso].
  rewrite Hbinder in Hmb. injection Hmb as <-.
  destruct Hskipped as [Hskipped|[Hskipped|[->| ->]]].
  - congruence.
  - revert Hskipped Hbody Hignored.
    unfold is_parameter_binder_option, is_parameter_binder,
      get_parameter_location_for_binder, isinstance_BodyBinder,
      is_ignored_parameter.
    destruct matching_binder as [[[] ? ? ? ? ?]|]; cbn; congruence.
  - rewrite (proj1 (is_ignored_parameter_reserved _)) in Hignored.
    discriminate.
  - rewrite (proj2 (is_ignored_parameter_reserved _)) in Hignored.
    discriminate.
Qed.

Lemma _merge_parameter_documented (handler : Handler) (param_name : string)
    (param_info : ParameterInfo) (endpoint_docs : EndpointDocs)
    (explicit : ParameterInfo) :
  dict_get (parameters_of endpoint_docs) param_name = Some explicit ->
  _merge_parameter handler param_name param_info endpoint_docs
  = Ok {| parameters :=
            Some (dict_set (parameters_of endpoint_docs) param_name
                    (merged_parameter explicit (Some param_info)));
          request_body := request_body endpoint_docs;
          responses := responses endpoint_docs |}.
Proof. intros Hexplicit. unfold _merge_parameter. now rewrite Hexplicit. Qed.

(** X14.  For a handler without [binders], the merge raises [AttributeError] as
    soon as the docstring names a parameter that is not documented
    explicitly, and only then. *)
Theorem merge_without_binders (handler : Handler)
    (endpoint_docs : EndpointText) (docstring_info : DocstringInfo) :
  binders handler = None ->
  (_merge_documentation handler endpoint_docs docstring_info
   = Raise (AttributeError "binders")
   <-> exists n,
         In n (dict_keys (ds_parameters docstring_info))
         /\ ~ In n (dict_keys (parameters_of (ed_docs endpoint_docs))))
  /\ (returns (_merge_documentation handler endpoint_docs docstring_info)
      <-> incl (dict_keys (ds_parameters docstring_info))
               (dict_keys (parameters_of (ed_docs endpoint_docs)))).
Proof.
  intros Hbinders.
  assert (forall todo docs,
             (incl (dict_keys todo) (dict_keys (parameters_of docs))
              /\ returns (_merge_parameters handler todo docs))
             \/ ((exists n, In n (dict_keys todo)
                            /\ ~ In n (dict_keys (parameters_of docs)))
                 /\ _merge_parameters handler todo docs
                    = Raise (AttributeError "binders"))) as Hloop.
  { induction todo as [|[param_name param_info] todo IH]; intros docs.
    - left. split; [intros n []|exact I].
    - cbn [_merge_parameters].
      destruct (dict_get (parameters_of docs) param_name) as [explicit|]
        eqn:Hexplicit.
      + rewrite (_merge_parameter_documented _ _ _ _ _ Hexplicit).
        cbn [rbind].
        match goal with
        | |- context [_merge_parameters handler todo ?d] =>
            assert (forall n, In n (dict_keys (parameters_of d))
                              <-> In n (dict_keys (parameters_of docs)))
              as Hsame;
            [|destruct (IH d) as [[Hincl Hreturns]|[(n & Hn & Hnot) Hraise]]]
        end.
        * intros n. unfold parameters_of at 1. cbn [parameters].
          rewrite dict_keys_set. split; [|now right].
          intros [->|Hin]; [|exact Hin]. apply dict_mem_In.
          unfold dict_mem. now rewrite Hexplicit.
        * left. split; [|exact Hreturns].
          intros n [<-|Hin].
          -- apply dict_mem_In. unfold dict_mem. cbn. now rewrite Hexplicit.
          -- apply Hsame. now apply Hincl.
        * right. split; [|exact Hraise].
          exists n. split; [now right|]. intros Hin. apply Hnot.
          now apply Hsame.
      + right. split.
        * exists param_name. split; [now left|].
          now apply dict_get_None_keys.
        * unfold _merge_parameter. cbv zeta. rewrite Hexplicit.
          unfold _get_binder_by_name. now rewrite Hbinders. }
  unfold _merge_documentation.
  destruct (Hloop (ds_parameters docstring_info) (ed_docs endpoint_docs))
    as [[Hincl Hreturns]|[(n & Hn & Hnot) Hraise]].
  - destruct (_merge_parameters handler (ds_parameters docstring_info)
                (ed_docs endpoint_docs)) as [merged| |]; try contradiction.
    cbn [rbind returns]. split; split.
    + discriminate.
    + intros (n & Hn & Hnot). elim Hnot. now apply Hincl.
    + intros _. exact Hincl.
    + intros _. exact I.
  - rewrite Hraise. cbn [rbind returns]. split; split.
    + intros _. now exists n.
    + reflexivity.
    + intros [].
    + intros Hincl. elim Hnot. now apply Hincl.
Qed.

(** A parameter that the docstring does not name is left as it is. *)
Lemma _merge_parameters_frame (handler : Handler)
    (todo : list (string * ParameterInfo)) (n : string) :
  ~ In n (dict_keys todo) ->
  forall endpoint_docs merged,
    _merge_parameters handler todo endpoint_docs = Ok merged ->
    dict_get (parameters_of merged) n
    = dict_get (parameters_of endpoint_docs) n.
Proof.
  induction todo as [|[param_name param_info] todo IH];
    intros Hnot endpoint_docs merged.
  - now intros [= <-].
  - cbn [_merge_parameters]. unfold rbind.
    destruct (_merge_parameter handler param_name param_info endpoint_docs)
      as [merged1| |] eqn:Hstep; try discriminate.
    intros Hrest. rewrite (IH (fun Hin => Hnot (or_intror Hin)) _ _ Hrest).
    assert (param_name <> n) as Hne by (intros ->; apply Hnot; now left).
    revert Hstep. unfold _merge_parameter. cbv zeta.
    destruct (dict_get (parameters_of endpoint_docs) param_name).
    + intros [= <-]. unfold parameters_of at 1. cbn [parameters].
      now apply dict_get_set_other.
    + unfold rbind.
      destruct (_get_binder_by_name handler param_name)
        as [matching_binder| |]; try discriminate.
      destruct (isinstance_BodyBinder matching_binder);
        [now intros [= <-]|].
      destruct (is_ignored_parameter param_name matching_binder);
        [now intros [= <-]|].
      intros [= <-]. unfold parameters_of at 1. cbn [parameters].
      now apply dict_get_set_other.
Qed.

(** What the loop keeps of the documentation. *)
Lemma _merge_parameters_explicit (handler : Handler)
    (todo : list (string * ParameterInfo)) :
  NoDup (dict_keys todo) ->
  forall endpoint_docs merged,
    _merge_parameters handler todo endpoint_docs = Ok merged ->
    responses merged = responses endpoint_docs
    /\ (forall body,
           request_body endpoint_docs = Some body ->
           truthy_text (rb_description body) = true ->
           request_body merged = Some body)
    /\ (forall n explicit,
           dict_get (parameters_of endpoint_docs) n = Some explicit ->
           dict_get (parameters_of merged) n
           = Some (merged_parameter explicit (dict_get todo n))).
Proof.
  induction todo as [|[param_name param_info] todo IH];
    intros Hnd endpoint_docs merged.
  - intros [= <-]. repeat split; auto.
  - inversion Hnd as [|? ? Hnotin Hnd']; subst.
    cbn [_merge_parameters]. unfold rbind.
    destruct (_merge_parameter handler param_name param_info endpoint_docs)
      as [merged1| |] eqn:Hstep; try discriminate.
    intros Hrest.
    pose proof (_merge_parameters_frame _ _ _ Hnotin _ _ Hrest) as Hframe.
    destruct (IH Hnd' _ _ Hrest) as (Hresponses & Hbody & Hparameters).
    assert (responses merged1 = responses endpoint_docs
            /\ (forall body,
                   request_body endpoint_docs = Some body ->
                   truthy_text (rb_description body) = true ->
                   request_body merged1 = Some body)
            /\ (forall n explicit,
                   dict_get (parameters_of endpoint_docs) n = Some explicit ->
                   dict_get (parameters_of merged1) n
                   = Some (if string_dec param_name n
                           then merged_parameter explicit (Some param_info)
                           else explicit))) as (Hr1 & Hb1 & Hp1).
    { revert Hstep. unfold _merge_parameter. cbv zeta.
      destruct (dict_get (parameters_of endpoint_docs) param_name)
        as [matching|] eqn:Hmatching.
      - intros [= <-]. cbn [responses request_body]. repeat split; auto.
        intros n explicit Hn. unfold parameters_of at 1. cbn [parameters].
        destruct (string_dec param_name n) as [<-|Hne].
        + rewrite dict_get_set_same. rewrite Hmatching in Hn.
          injection Hn as <-. reflexivity.
        + now rewrite dict_get_set_other.
      - assert (forall n explicit,
                   dict_get (parameters_of endpoint_docs) n = Some explicit ->
                   (if string_dec param_name n
                    then merged_parameter explicit (Some param_info)
                    else explicit) = explicit) as Hother.
        { intros n explicit Hn.
          destruct (string_dec param_name n) as [<-|]; congruence. }
        unfold rbind.
        destruct (_get_binder_by_name handler param_name)
          as [matching_binder| |]; try discriminate.
        destruct (isinstance_BodyBinder matching_binder).
        { intros [= <-]. cbn [responses request_body]. repeat split; auto.
          - intros body -> Htruthy. now rewrite Htruthy.
          - intros n explicit Hn. unfold parameters_of at 1.
            cbn [parameters]. now rewrite (Hother _ _ Hn). }
        destruct (is_ignored_parameter param_name matching_binder).
        { intros [= <-]. cbn [responses request_body]. repeat split; auto.
          intros n explicit Hn. unfold parameters_of at 1.
          cbn [parameters]. now rewrite (Hother _ _ Hn). }
        intros [= <-]. cbn [responses request_body]. repeat split; auto.
        intros n explicit Hn. unfold parameters_of at 1. cbn [parameters].
        rewrite (Hother _ _ Hn). rewrite dict_get_set_other; [exact Hn|].
        intros ->. congruence. }
    split; [congruence|]. split; [auto|].
    intros n explicit Hn. specialize (Hp1 _ _ Hn).
    cbn [dict_get]. unfold eq_dec, string_EqDec.
    destruct (string_dec param_name n) as [E|Hne].
    + subst n. exact (eq_trans Hframe Hp1).
    + exact (Hparameters _ _ Hp1).
Qed.

(** X15.  The merge of a docstring keeps what was documented explicitly: a
    description and a summary that are not empty, the request body when
    its description is not empty, the responses, and for every documented
    parameter its source, its required flag, its example and its value
    type when it has one.  What the merge changes of a documented
    parameter that the docstring names is its description, which becomes
    that of the docstring, and its value type when it had none. *)
Theorem merge_keeps_explicit_documentation (handler : Handler)
    (endpoint_docs merged : EndpointText) (docstring_info : DocstringInfo) :
  NoDup (dict_keys (ds_parameters docstring_info)) ->
  _merge_documentation handler endpoint_docs docstring_info = Ok merged ->
  (truthy_text (ed_description endpoint_docs) = true ->
   ed_description merged = ed_description endpoint_docs)
  /\ (truthy_text (ed_summary endpoint_docs) = true ->
      ed_summary merged = ed_summary endpoint_docs)
  /\ responses (ed_docs merged) = responses (ed_docs endpoint_docs)
  /\ (forall body,
         request_body (ed_docs endpoint_docs) = Some body ->
         truthy_text (rb_description body) = true ->
         request_body (ed_docs merged) = Some body)
  /\ (forall n explicit,
         dict_get (parameters_of (ed_docs endpoint_docs)) n = Some explicit ->
         dict_get (parameters_of (ed_docs merged)) n
         = Some (merged_parameter explicit
                   (dict_get (ds_parameters docstring_info) n))).
Proof.
  intros Hnd. unfold _merge_documentation, rbind.
  destruct (_merge_parameters handler (ds_parameters docstring_info)
              (ed_docs endpoint_docs)) as [merged_docs| |] eqn:Hloop;
    try discriminate.
  intros [= <-]. cbn [ed_description ed_summary ed_docs].
  split; [|split].
  - intros Htruthy. unfold merge_text. now rewrite Htruthy.
  - intros Htruthy. unfold merge_text. now rewrite Htruthy.
  - exact (_merge_parameters_explicit _ _ Hnd _ _ Hloop).
Qed.

(* ================================================================== *)
(** ** Merging a docstring twice *)

Lemma truthy_text_false (text : string) :
  truthy_text (Some text) = false -> text = "".
Proof. destruct text; [reflexivity|discriminate]. Qed.

(** Merging a settled parameter again changes nothing. *)
Lemma _merge_parameter_settled (handler : Handler) (param_name : string)
    (param_info : ParameterInfo) (endpoint_docs : EndpointDocs) :
  settled handler param_name param_info endpoint_docs ->
  _merge_parameter handler param_name param_info endpoint_docs
  = Ok endpoint_docs.
Proof.
  intros (Hsome & Hsettled). unfold _merge_parameter. cbv zeta.
  destruct endpoint_docs as [documented body documented_responses].
  cbn [parameters request_body responses] in *.
  destruct (dict_get (parameters_of _) param_name) as [explicit|]
    eqn:Hexplicit.
  - change (Ok {| parameters :=
                    Some (dict_set
                            (parameters_of
                               {| parameters := documented;
                                  request_body := body;
                                  responses := documented_responses |})
                            param_name
                            (merged_parameter explicit (Some param_info)));
                  request_body := body;
                  responses := documented_responses |}
            = Ok {| parameters := documented;
                    request_body := body;
                    responses := documented_responses |}).
    rewrite Hsettled, (dict_set_same_value _ _ _ Hexplicit).
    now rewrite <- Hsome.
  - destruct Hsettled as (matching_binder & -> & Hsettled). cbn [rbind].
    destruct (isinstance_BodyBinder matching_binder).
    + destruct Hsettled as (info & -> & Hdescribed). rewrite <- Hsome.
      destruct (truthy_text (rb_description info)) eqn:Htruthy;
        cbn [negb]; [reflexivity|].
      destruct Hdescribed as [Hdescribed|Hdescribed]; [congruence|].
      destruct info as [description examples]. cbn in *.
      now rewrite Hdescribed.
    + rewrite Hsettled. now rewrite <- Hsome.
Qed.

Lemma merged_parameter_again (explicit param_info : ParameterInfo) :
  merged_parameter (merged_parameter explicit (Some param_info))
    (Some param_info)
  = merged_parameter explicit (Some param_info).
Proof.
  unfold merged_parameter. cbn.
  destruct (pi_value_type explicit); [reflexivity|].
  destruct (pi_value_type param_info); reflexivity.
Qed.

(** A parameter of the docstring is settled once it has been merged. *)
Lemma _merge_parameter_settles (handler : Handler) (param_name : string)
    (param_info : ParameterInfo) (endpoint_docs merged : EndpointDocs) :
  _merge_parameter handler param_name param_info endpoint_docs = Ok merged ->
  settled handler param_name param_info merged.
Proof.
  unfold _merge_parameter, settled. cbv zeta.
  destruct (dict_get (parameters_of endpoint_docs) param_name)
    as [explicit|] eqn:Hexplicit.
  - intros [= <-]. split; [reflexivity|].
    unfold parameters_of at 1. cbn [parameters].
    rewrite dict_get_set_same. apply merged_parameter_again.
  - unfold rbind.
    destruct (_get_binder_by_name handler param_name)
      as [matching_binder| |] eqn:Hbinder; try discriminate.
    destruct (isinstance_BodyBinder matching_binder) eqn:Hbody.
    { intros [= <-]. split; [reflexivity|].
      unfold parameters_of at 1. cbn [parameters request_body].
      rewrite Hexplicit. exists matching_binder. split; [reflexivity|].
      rewrite Hbody.
      destruct (request_body endpoint_docs) as [info|].
      - destruct (truthy_text (rb_description info)) eqn:Htruthy;
          cbn [negb]; eexists; (split; [reflexivity|]).
        + now left.
        + now right.
      - eexists. split; [reflexivity|]. now right. }
    destruct (is_ignored_parameter param_name matching_binder) eqn:Hignored.
    { intros [= <-]. split; [reflexivity|].
      unfold parameters_of at 1. cbn [parameters request_body].
      rewrite Hexplicit. exists matching_binder. split; [reflexivity|].
      now rewrite Hbody. }
    intros [= <-]. split; [reflexivity|].
    unfold parameters_of at 1. cbn [parameters].
    rewrite dict_get_set_same. unfold merged_parameter. cbn.
    destruct (pi_value_type param_info); reflexivity.
Qed.

(** Merging another parameter keeps the request body described. *)
Lemma _merge_parameter_body_described (handler : Handler)
    (param_name : string) (param_info other : ParameterInfo)
    (endpoint_docs merged : EndpointDocs) :
  _merge_parameter handler param_name param_info endpoint_docs = Ok merged ->
  body_described other (request_body endpoint_docs) ->
  body_described other (request_body merged).
Proof.
  unfold _merge_parameter. cbv zeta.
  destruct (dict_get (parameters_of endpoint_docs) param_name);
    [now intros [= <-]|].
  unfold rbind.
  destruct (_get_binder_by_name handler param_name) as [matching_binder| |];
    try discriminate.
  destruct (isinstance_BodyBinder matching_binder).
  2:{ destruct (is_ignored_parameter param_name matching_binder);
        now intros [= <-]. }
  intros [= <-] (info & Hbody & Hdescribed). cbn [request_body].
  rewrite Hbody.
  destruct (truthy_text (rb_description info)) eqn:Htruthy; cbn [negb].
  - exists info. split; [reflexivity|now left].
  - eexists. split; [reflexivity|]. cbn [rb_description].
    destruct Hdescribed as [Hdescribed|Hdescribed]; [congruence|].
    rewrite Hdescribed in Htruthy. apply truthy_text_false in Htruthy.
    destruct (pi_description param_info) as [|c rest] eqn:Hparsed.
    + right. now rewrite Htruthy.
    + now left.
Qed.

(** A settled parameter stays settled while other parameters are merged. *)
Lemma _merge_parameters_settled (handler : Handler) (param_name : string)
    (param_info : ParameterInfo) (todo : list (string * ParameterInfo)) :
  ~ In param_name (dict_keys todo) ->
  forall endpoint_docs merged,
    _merge_parameters handler todo endpoint_docs = Ok merged ->
    settled handler param_name param_info endpoint_docs ->
    settled handler param_name param_info merged.
Proof.
  induction todo as [|[other_name other] todo IH];
    intros Hnot endpoint_docs merged.
  - now intros [= <-].
  - cbn [_merge_parameters]. unfold rbind.
    destruct (_merge_parameter handler other_name other endpoint_docs)
      as [merged1| |] eqn:Hstep; try discriminate.
    intros Hrest Hsettled.
    apply (IH (fun Hin => Hnot (or_intror Hin)) _ _ Hrest).
    destruct Hsettled as (_ & Hsettled).
    split; [exact (proj1 (_merge_parameter_settles _ _ _ _ _ Hstep))|].
    assert (dict_get (parameters_of merged1) param_name
            = dict_get (parameters_of endpoint_docs) param_name) as ->.
    { apply (_merge_parameters_frame handler [(other_name, other)]).
      - intros [E|[]]. apply Hnot. now left.
      - cbn [_merge_parameters]. now rewrite Hstep. }
    destruct (dict_get (parameters_of endpoint_docs) param_name);
      [exact Hsettled|].
    destruct Hsettled as (matching_binder & Hbinder & Hsettled).
    exists matching_binder. split; [exact Hbinder|].
    destruct (isinstance_BodyBinder matching_binder); [|exact Hsettled].
    exact (_merge_parameter_body_described _ _ _ _ _ _ Hstep Hsettled).
Qed.

Lemma _merge_parameters_settle (handler : Handler)
    (todo : list (string * ParameterInfo)) :
  NoDup (dict_keys todo) ->
  forall endpoint_docs merged,
    _merge_parameters handler todo endpoint_docs = Ok merged ->
    Forall (fun entry => settled handler (fst entry) (snd entry) merged) todo.
Proof.
  induction todo as [|[param_name param_info] todo IH];
    intros Hnd endpoint_docs merged.
  - constructor.
  - inversion Hnd as [|? ? Hnotin Hnd']; subst.
    cbn [_merge_parameters]. unfold rbind.
    destruct (_merge_parameter handler param_name param_info endpoint_docs)
      as [merged1| |] eqn:Hstep; try discriminate.
    intros Hrest. constructor; [|exact (IH Hnd' _ _ Hrest)].
    apply (_merge_parameters_settled _ _ _ _ Hnotin _ _ Hrest).
    exact (_merge_parameter_settles _ _ _ _ _ Hstep).
Qed.

Lemma _merge_parameters_settled_all (handler : Handler)
    (todo : list (string * ParameterInfo)) (endpoint_docs : EndpointDocs) :
  Forall (fun entry => settled handler (fst entry) (snd entry) endpoint_docs)
    todo ->
  _merge_parameters handler todo endpoint_docs = Ok endpoint_docs.
Proof.
  induction 1 as [|[param_name param_info] todo Hhead Hrest IH].
  - reflexivity.
  - cbn [_merge_parameters]. cbn [fst snd] in Hhead.
    rewrite (_merge_parameter_settled _ _ _ _ Hhead). exact IH.
Qed.

Lemma merge_text_again (current parsed : option string) :
  merge_text (merge_text current parsed) parsed = merge_text current parsed.
Proof.
  unfold merge_text.
  destruct (truthy_text current) eqn:Hcurrent; cbn [negb andb].
  - now rewrite Hcurrent.
  - destruct (truthy_text parsed) eqn:Hparsed.
    + now rewrite Hparsed.
    + now rewrite Hcurrent.
Qed.

(** X16.  Merging the same docstring a second time changes nothing: the
    documentation that a first merge has produced is a fixed point of the
    merge. *)
Theorem merge_is_idempotent (handler : Handler)
    (endpoint_docs merged : EndpointText) (docstring_info : DocstringInfo) :
  NoDup (dict_keys (ds_parameters docstring_info)) ->
  _merge_documentation handler endpoint_docs docstring_info = Ok merged ->
  _merge_documentation handler merged docstring_info = Ok merged.
Proof.
  intros Hnd. unfold _merge_documentation. unfold rbind at 1.
  destruct (_merge_parameters handler (ds_parameters docstring_info)
              (ed_docs endpoint_docs)) as [merged_docs| |] eqn:Hloop;
    try discriminate.
  intros [= <-]. cbn [ed_description ed_summary ed_docs].
  rewrite (_merge_parameters_settled_all _ _ _
             (_merge_parameters_settle _ _ Hnd _ _ Hloop)).
  cbn [rbind]. now rewrite !merge_text_again.
Qed.

(** The docstring of [get_item] merged into its documentation: [request]
    is not added, nor [data], which describes the request body. *)
Lemma merge_adds_documentable_parameters_witness :
  exists merged,
    _merge_documentation ItemHandlers.get_item ItemDocstring.text
      ItemDocstring.docstring
    = Ok merged
    /\ dict_keys (parameters_of (ed_docs merged)) = ["id"; "verbose"; "page"]
    /\ forall n,
         In n (dict_keys (parameters_of (ed_docs merged)))
         <-> In n ["id"; "verbose"]
             \/ (In n ["id"; "page"; "data"; "request"]
                 /\ documentable ItemHandlers.get_item n).
Proof.
  eexists. split; [vm_compute; reflexivity|]. split; [reflexivity|].
  refine (proj1 (merge_adds_documentable_parameters ItemHandlers.get_item
                   ItemDocstring.text _ ItemDocstring.docstring _)).
  vm_compute. reflexivity.
Defined.

(** An object without [binders] whose docstring names a parameter. *)
Lemma merge_without_binders_witness :
  _merge_documentation AppHandlers.bare ItemDocstring.text
    ItemDocstring.docstring
  = Raise (AttributeError "binders").
Proof.
  apply (proj1 (merge_without_binders AppHandlers.bare ItemDocstring.text
                  ItemDocstring.docstring eq_refl)).
  exists "page". split.
  - right. left. reflexivity.
  - intros [E|[E|[]]]; discriminate E.
Defined.

(** [get_item]: the summary is kept, and [id] keeps its source, its
    required flag and its example, and takes the description and the value
    type of the docstring. *)
Lemma merge_keeps_explicit_documentation_witness :
  exists merged,
    _merge_documentation ItemHandlers.get_item ItemDocstring.text
      ItemDocstring.docstring
    = Ok merged
    /\ ed_summary merged = Some "Item"
    /\ dict_get (parameters_of (ed_docs merged)) "id"
       = Some {| pi_description := "Identifier of the item";
                 pi_value_type := Some (TBuiltin b_int);
                 pi_source := Some Source_QUERY;
                 pi_required := Some false;
                 pi_example := None |}.
Proof.
  assert (exists merged,
             _merge_documentation ItemHandlers.get_item ItemDocstring.text
               ItemDocstring.docstring = Ok merged) as (merged & Hmerged).
  { eexists. vm_compute. reflexivity. }
  exists merged. split; [exact Hmerged|].
  assert (NoDup (dict_keys (ds_parameters ItemDocstring.docstring)))
    as Hdistinct by (repeat constructor; cbn; intuition discriminate).
  destruct (merge_keeps_explicit_documentation ItemHandlers.get_item
              ItemDocstring.text merged ItemDocstring.docstring
              Hdistinct Hmerged)
    as (_ & Hsummary & _ & _ & Hparameters).
  split.
  - now apply Hsummary.
  - exact (Hparameters "id" ItemHandlers.documented_id eq_refl).
Defined.

(** The docstring of [get_item], merged twice. *)
Lemma merge_is_idempotent_witness :
  exists merged,
    _merge_documentation ItemHandlers.get_item ItemDocstring.text
      ItemDocstring.docstring
    = Ok merged
    /\ _merge_documentation ItemHandlers.get_item merged
         ItemDocstring.docstring
       = Ok merged.
Proof.
  assert (exists merged,
             _merge_documentation ItemHandlers.get_item ItemDocstring.text
               ItemDocstring.docstring = Ok merged) as (merged & Hmerged).
  { eexists. vm_compute. reflexivity. }
  exists merged. split; [exact Hmerged|].
  refine (merge_is_idempotent ItemHandlers.get_item ItemDocstring.text merged
            ItemDocstring.docstring _ Hmerged).
  repeat constructor; cbn; intuition discriminate.
Defined.

(* ================================================================== *)
(** ** Lookups by name, and aliases of classes without type parameters *)



(** X18.  An alias whose origin is not [list], [set], [tuple] or [Sequence] and
    has no [__parameters__] attribute, as [Dict[str, int]] whose origin is
    [dict], makes resolution raise [AttributeError] when the alias is not
    in the cache and no handler claims it. *)
Theorem alias_of_unparametrized_origin_raises (host : Host) (fuel : nat)
    (origin : PyType) (args : list PyType) (self : OpenAPIHandler) :
  dict_get (_objects_references self) (TAlias origin args) = None ->
  _can_handle_class_type self (TAlias origin args) = false ->
  is_iterable_origin origin = false ->
  __parameters__ host origin = None ->
  get_schema_by_type host (S fuel) (OfType (TAlias origin args)) None self
  = Raise (AttributeError "__parameters__").
Proof.
  intros Hmiss Hunclaimed Horigin Hparameters.
  rewrite (get_schema_by_type_miss _ _ _ _ Hmiss eq_refl).
  rewrite (_get_schema_by_type_unclaimed _ _ _ _ _ Hmiss Hunclaimed).
  cbn [_try_get_schema_for_simple_type]. unfold bind at 1.
  unfold _try_get_schema_for_iterable.
  cbn [is_bare_iterable get_origin]. rewrite Horigin. cbn [negb].
  unfold ret at 1. cbn [isinstance_GenericAlias]. unfold bind at 1.
  unfold _try_get_schema_for_generic. cbn [get_origin].
  now rewrite Hparameters.
Qed.

(** [Dict[str, int]], in a fresh handler. *)
Lemma alias_of_unparametrized_origin_raises_witness :
  get_schema_by_type App.host 1
    (OfType (TAlias (TClass "builtins" "dict")
               [TBuiltin b_str; TBuiltin b_int]))
    None App.self0
  = Raise (AttributeError "__parameters__").
Proof.
  apply (alias_of_unparametrized_origin_raises App.host 0
           (TClass "builtins" "dict") [TBuiltin b_str; TBuiltin b_int]
           App.self0); reflexivity.
Defined.

(* ================================================================== *)
(** ** The properties of a registered object schema *)

Section PropertiesLoops.
Variable host : Host.
Variable rec : TypeOrSchema -> TypeArgs -> M SchemaOrRef.

Lemma _get_schema_for_class_loop_properties (object_type : PyType)
    (todo : list FieldInfo) :
  forall required properties self required' properties' self',
    _get_schema_for_class_loop host rec object_type todo required properties
      self
    = Ok ((required', properties'), self') ->
    (forall n, In n (dict_keys properties')
               <-> In n (dict_keys properties) \/ In n (map name todo))
    /\ (NoDup (dict_keys properties) -> NoDup (dict_keys properties'))
    /\ (NoDup (dict_keys properties ++ map name todo)%list ->
        dict_keys properties' = (dict_keys properties ++ map name todo)%list).
Proof.
  induction todo as [|field todo IH];
    intros required properties self required' properties' self'.
  - intros [= _ <- _]. cbn. rewrite app_nil_r. repeat split; tauto.
  - cbn [_get_schema_for_class_loop]. unfold bind at 1, lift.
    destruct (check_union (type field)) as [[is_optional child_type]| |];
      try discriminate.
    unfold bind at 1.
    match goal with
    | |- context [rec ?c None self] =>
        destruct (rec c None self) as [[schema self1]| |]; try discriminate
    end.
    intros Hloop. apply IH in Hloop.
    destruct Hloop as (Hkeys & Hnd & Horder). split; [|split].
    + intros n. rewrite Hkeys, dict_keys_set. cbn [map]. split.
      * intros [[->|Hin]|Hin].
        -- right. now left.
        -- now left.
        -- right. now right.
      * intros [Hin|[<-|Hin]].
        -- left. now right.
        -- left. now left.
        -- now right.
    + intros Hp. apply Hnd. now apply dict_set_NoDup.
    + cbn [map]. intros Hall.
      assert (dict_mem properties (name field) = false) as Hfresh.
      { destruct (dict_mem properties (name field)) eqn:Hmem;
          [exfalso|reflexivity].
        apply dict_mem_In in Hmem.
        apply NoDup_remove_2 in Hall. apply Hall.
        apply in_or_app. now left. }
      rewrite (dict_set_fresh _ _ _ Hfresh) in Horder.
      unfold dict_keys in *. rewrite map_app in Horder. cbn in Horder.
      rewrite <- app_assoc in Horder. cbn in Horder. now apply Horder.
Qed.

Lemma _try_get_schema_for_generic_loop_properties (object_type : PyType)
    (type_args : dict PyType PyType) (todo : list FieldInfo) :
  forall required properties self required' properties' self',
    _try_get_schema_for_generic_loop rec object_type type_args todo required
      properties self
    = Ok (Some (required', properties'), self') ->
    (forall n, In n (dict_keys properties')
               <-> In n (dict_keys properties) \/ In n (map name todo))
    /\ (NoDup (dict_keys properties) -> NoDup (dict_keys properties'))
    /\ (NoDup (dict_keys properties ++ map name todo)%list ->
        dict_keys properties' = (dict_keys properties ++ map name todo)%list).
Proof.
  induction todo as [|field todo IH];
    intros required properties self required' properties' self'.
  - intros [= _ <- _]. cbn. rewrite app_nil_r. repeat split; tauto.
  - cbn [_try_get_schema_for_generic_loop]. unfold bind at 1, lift.
    destruct (check_union (type field)) as [[is_optional child_type]| |];
      try discriminate.
    destruct child_type as [child|schema]; [|discriminate].
    assert (forall c,
               (schema <- rec (OfType c) (Some type_args) ;;
                _try_get_schema_for_generic_loop rec object_type type_args
                  todo
                  (if negb is_optional
                   then (required ++ [name field])%list else required)
                  (dict_set properties (name field) schema)) self
               = Ok (Some (required', properties'), self') ->
               (forall n, In n (dict_keys properties')
                          <-> In n (dict_keys properties)
                              \/ In n (map name (field :: todo)))
               /\ (NoDup (dict_keys properties) ->
                   NoDup (dict_keys properties'))
               /\ (NoDup (dict_keys properties
                          ++ map name (field :: todo))%list ->
                   dict_keys properties'
                   = (dict_keys properties
                      ++ map name (field :: todo))%list)) as Hstep.
    { intros c. unfold bind.
      destruct (rec (OfType c) (Some type_args) self) as [[schema self1]| |];
        try discriminate.
      intros Hloop. apply IH in Hloop.
      destruct Hloop as (Hkeys & Hnd & Horder). split; [|split].
      + intros n. rewrite Hkeys, dict_keys_set. cbn [map]. split.
        * intros [[->|Hin]|Hin].
          -- right. now left.
          -- now left.
          -- right. now right.
        * intros [Hin|[<-|Hin]].
          -- left. now right.
          -- left. now left.
          -- now right.
      + intros Hp. apply Hnd. now apply dict_set_NoDup.
      + cbn [map]. intros Hall.
        assert (dict_mem properties (name field) = false) as Hfresh.
        { destruct (dict_mem properties (name field)) eqn:Hmem;
            [exfalso|reflexivity].
          apply dict_mem_In in Hmem.
          apply NoDup_remove_2 in Hall. apply Hall.
          apply in_or_app. now left. }
        rewrite (dict_set_fresh _ _ _ Hfresh) in Horder.
        unfold dict_keys in *. rewrite map_app in Horder. cbn in Horder.
        rewrite <- app_assoc in Horder. cbn in Horder. now apply Horder. }
    destruct child; try apply Hstep. discriminate.
Qed.
End PropertiesLoops.

Lemma _handle_object_type_documents (fuel : nat) (object_type : PyType)
    (properties : dict string SchemaOrRef) (required : list string)
    (context_type_args : TypeArgs) (self self' : OpenAPIHandler)
    (reference : Reference) (declared : list FieldInfo) :
  _handle_object_type fuel object_type properties required context_type_args
    self
  = Ok (reference, self') ->
  (forall n, In n (dict_keys properties) <-> In n (map name declared)) ->
  NoDup (dict_keys properties) ->
  (NoDup (map name declared) -> dict_keys properties = map name declared) ->
  documents_fields self' reference declared.
Proof.
  intros Hhandle Hkeys Hnd Horder.
  apply _handle_object_type_inv in Hhandle.
  destruct Hhandle as (type_name & stored_name & _ & -> & _ & ->).
  exists stored_name, (or_None required), properties.
  split; [reflexivity|]. split; [|split; [exact Hkeys|split; assumption]].
  unfold schemas_of at 1. cbn. apply dict_get_set_same.
Qed.

(** X19.  The schema registered for a record type without an explicit schema,
    and the schema registered for a parametrized generic, is an object
    schema with one property for each field name: no field is left out,
    no property is added, no name occurs twice, and when the field names
    are distinct the properties are in the order of the fields. *)
Theorem object_schema_has_a_property_per_field (host : Host)
    (rec : TypeOrSchema -> TypeArgs -> M SchemaOrRef) (fuel : nat)
    (object_type : PyType) (self self' : OpenAPIHandler)
    (reference : Reference) :
  (dict_mem (_types_schemas self) object_type = false ->
   _get_schema_for_class host rec fuel object_type self
   = Ok (reference, self') ->
   documents_fields self' reference (get_fields self object_type))
  /\ (forall origin type_args,
         get_origin object_type = Some origin ->
         _try_get_schema_for_generic host rec fuel object_type type_args self
         = Ok (Some reference, self') ->
         documents_fields self' reference (get_fields self origin)).
Proof.
  split.
  - intros Hexplicit. unfold _get_schema_for_class.
    destruct (negb (_can_handle_class_type self object_type));
      [discriminate|].
    rewrite Hexplicit. unfold bind at 1.
    destruct (_get_schema_for_class_loop host rec object_type
                (get_fields self object_type) [] [] self)
      as [[[required properties] self1]| |] eqn:Hloop; try discriminate.
    apply _get_schema_for_class_loop_properties in Hloop.
    destruct Hloop as (Hkeys & Hnd & Horder).
    intros Hhandle.
    apply (_handle_object_type_documents _ _ _ _ _ _ _ _ _ Hhandle).
    + intros n. rewrite Hkeys. cbn. tauto.
    + apply Hnd. constructor.
    + exact Horder.
  - intros origin type_args Horigin. unfold _try_get_schema_for_generic.
    rewrite Horigin.
    destruct (__parameters__ host origin) as [parameters|]; [|discriminate].
    unfold bind at 1.
    destruct (_try_get_schema_for_generic_loop rec object_type _
                (get_fields self origin) [] [] self)
      as [[[[required properties]|] self1]| |] eqn:Hloop; try discriminate.
    apply _try_get_schema_for_generic_loop_properties in Hloop.
    destruct Hloop as (Hkeys & Hnd & Horder).
    unfold bind.
    destruct (_handle_object_type fuel object_type properties required
                type_args self1) as [[registered self2]| |] eqn:Hhandle;
      try discriminate.
    unfold ret. intros [= <- <-].
    apply (_handle_object_type_documents _ _ _ _ _ _ _ _ _ Hhandle).
    + intros n. rewrite Hkeys. cbn. tauto.
    + apply Hnd. constructor.
    + exact Horder.
Qed.

(** [Item], with its fields [id] and [note], in a fresh handler. *)
Lemma object_schema_has_a_property_per_field_witness :
  documents_fields after_Item {| ref := "#/components/schemas/Item" |}
    (get_fields App.self0 App.Item).
Proof.
  refine (proj1 (object_schema_has_a_property_per_field App.host
                   (get_schema_by_type App.host 3) 3 App.Item App.self0
                   after_Item {| ref := "#/components/schemas/Item" |})
            eq_refl _).
  vm_compute. reflexivity.
Defined.

(* ================================================================== *)
(** ** Annotations left as bare names *)


